(** * NWChem output decoding ([pymatgen.io.nwchem.NwOutput])

    A shallow embedding of the output side of [src/pymatgen/io/nwchem.py]:
    the job splitter ([NwOutput.__init__]), the preamble parser
    ([_parse_preamble]), the per-job line scanner ([_parse_job]), the TDDFT
    root extractor ([parse_tddft]) and the spectrum synthesizer
    ([get_excitation_spectrum]).

    Conventions.
    - Text is [string]; a character is a 7-bit ASCII code, which is what the
      engine writes.  Bytes above 127 are treated as ordinary characters
      (neither space, digit nor word character, unchanged by case mapping).
    - A Python exception is a value [Raise e] of the result type [res].
    - The builtin [float()], the unit conversions of [pymatgen.core.units]
      and the constructors [Molecule] and [Structure] live outside this
      module: they are parameters of the development.
    - Dictionaries are [gmap]s; lists updated by index are lists with the
      Python index rules written out. *)

From Stdlib Require Import String Ascii ZArith QArith Qabs Lia Bool.
From stdpp Require Import base option list strings gmap.

Local Open Scope string_scope.
Local Open Scope list_scope.

(** ** Exceptions *)

Inductive exn := IndexError | ValueError | TypeError | KeyError.

Inductive res (A : Type) :=
| Ok (a : A)
| Raise (e : exn).
Arguments Ok {A} a.
Arguments Raise {A} e.

#[global] Instance res_ret : MRet res := fun A a => Ok a.

#[global] Instance res_bind : MBind res := fun A B f m =>
  match m with
  | Ok a => f a
  | Raise e => Raise e
  end.

Definition of_opt {A} (e : exn) (o : option A) : res A :=
  match o with
  | Some a => Ok a
  | None => Raise e
  end.

Fixpoint mapM {A B} (f : A -> res B) (l : list A) : res (list B) :=
  match l with
  | [] => Ok []
  | a :: l' => b ← f a; bs ← mapM f l'; Ok (b :: bs)
  end.

Fixpoint foldM {A S} (f : S -> A -> res S) (s : S) (l : list A) : res S :=
  match l with
  | [] => Ok s
  | a :: l' => s' ← f s a; foldM f s' l'
  end.

Definition is_ok {A} (m : res A) : bool :=
  match m with
  | Ok _ => true
  | Raise _ => false
  end.

(** ** Python string primitives *)

Module PyStr.

Definition code (c : ascii) : nat := nat_of_ascii c.

(** [str.isspace] on ASCII: TAB..CR, FS..US and the blank.  The same set is
    used by [str.split()], [str.strip()] and the regex class [\s]. *)
Definition is_space (c : ascii) : bool :=
  let n := code c in
  ((9 <=? n)%nat && (n <=? 13)%nat) || ((28 <=? n)%nat && (n <=? 32)%nat).

Definition is_digit (c : ascii) : bool :=
  let n := code c in (48 <=? n)%nat && (n <=? 57)%nat.

Definition is_upper (c : ascii) : bool :=
  let n := code c in (65 <=? n)%nat && (n <=? 90)%nat.

Definition is_lower (c : ascii) : bool :=
  let n := code c in (97 <=? n)%nat && (n <=? 122)%nat.

(** The regex class [\w]. *)
Definition is_word (c : ascii) : bool :=
  is_digit c || is_upper c || is_lower c || Ascii.eqb c "_".

Definition lower_char (c : ascii) : ascii :=
  if is_upper c then ascii_of_nat (code c + 32) else c.

Definition upper_char (c : ascii) : ascii :=
  if is_lower c then ascii_of_nat (code c - 32) else c.

Fixpoint lower (s : string) : string :=
  match s with
  | EmptyString => EmptyString
  | String c s' => String (lower_char c) (lower s')
  end.

(** [str.capitalize()] *)
Definition capitalize (s : string) : string :=
  match s with
  | EmptyString => EmptyString
  | String c s' => String (upper_char c) (lower s')
  end.

Fixpoint lstrip (s : string) : string :=
  match s with
  | EmptyString => EmptyString
  | String c s' => if is_space c then lstrip s' else s
  end.

Fixpoint rev_onto (s acc : string) : string :=
  match s with
  | EmptyString => acc
  | String c s' => rev_onto s' (String c acc)
  end.

Definition rev (s : string) : string := rev_onto s EmptyString.

Definition rstrip (s : string) : string := rev (lstrip (rev s)).

(** [str.strip()] *)
Definition strip (s : string) : string := rstrip (lstrip s).

(** [s.startswith(p)] *)
Fixpoint startswith (p s : string) : bool :=
  match p with
  | EmptyString => true
  | String a p' =>
      match s with
      | EmptyString => false
      | String b s' => Ascii.eqb a b && startswith p' s'
      end
  end.

(** [sub in s], that is [s.find(sub) != -1] *)
Fixpoint contains (sub s : string) : bool :=
  startswith sub s ||
  match s with
  | EmptyString => false
  | String _ s' => contains sub s'
  end.

(** [s.split()]: maximal runs of non-space characters. *)
Fixpoint tokens_go (cur : string) (s : string) : list string :=
  match s with
  | EmptyString =>
      match cur with
      | EmptyString => []
      | _ => [rev cur]
      end
  | String c s' =>
      if is_space c then
        match cur with
        | EmptyString => tokens_go EmptyString s'
        | _ => rev cur :: tokens_go EmptyString s'
        end
      else tokens_go (String c cur) s'
  end.

Definition split_ws (s : string) : list string := tokens_go EmptyString s.

(** [s.split(sep)] for a non-empty separator (also [re.split] on a literal
    pattern): cut at the leftmost occurrences, which do not overlap.  [skip]
    counts the characters of an occurrence still to be passed over. *)
Fixpoint split_go (sep : string) (skip : nat) (cur : string) (s : string)
  : list string :=
  match skip with
  | S k =>
      match s with
      | EmptyString => [rev cur]
      | String _ s' => split_go sep k cur s'
      end
  | O =>
      match s with
      | EmptyString => [rev cur]
      | String c s' =>
          if startswith sep s
          then rev cur :: split_go sep (String.length sep - 1) EmptyString s'
          else split_go sep O (String c cur) s'
      end
  end.

Definition split (sep s : string) : list string :=
  split_go sep O EmptyString s.

(** [s.replace(old, new)] for a non-empty [old]. *)
Fixpoint replace_go (old new : string) (skip : nat) (s : string) : string :=
  match skip with
  | S k =>
      match s with
      | EmptyString => EmptyString
      | String _ s' => replace_go old new k s'
      end
  | O =>
      match s with
      | EmptyString => EmptyString
      | String c s' =>
          if startswith old s
          then new +:+ replace_go old new (String.length old - 1) s'
          else String c (replace_go old new O s')
      end
  end.

Definition replace (old new s : string) : string := replace_go old new O s.

Fixpoint take (n : nat) (s : string) : string :=
  match n, s with
  | S k, String c s' => String c (take k s')
  | _, _ => EmptyString
  end.

(** The builtin [int()] on a string: surrounding blanks are stripped, an
    optional sign, then decimal digits, single underscores allowed between
    digits.  [None] stands for [ValueError]; this includes the interpreter's
    limit on the number of digits. *)
Definition int_max_str_digits : nat := 4300.

Definition digit_val (c : ascii) : Z := Z.of_nat (code c - 48).

Fixpoint int_digits (s : string) (acc : Z) (n : nat) : option (Z * nat) :=
  match s with
  | EmptyString => Some (acc, n)
  | String c s' =>
      if is_digit c then int_digits s' (acc * 10 + digit_val c)%Z (S n)
      else if Ascii.eqb c "_" then
        match s' with
        | String d _ => if is_digit d then int_digits s' acc n else None
        | EmptyString => None
        end
      else None
  end.

Definition int_unsigned (s : string) : option Z :=
  match s with
  | String c _ =>
      if is_digit c then
        match int_digits s 0%Z 0 with
        | Some (z, n) => if (n <=? int_max_str_digits)%nat then Some z else None
        | None => None
        end
      else None
  | EmptyString => None
  end.

Definition int (s : string) : option Z :=
  match strip s with
  | String "-" s' => Z.opp <$> int_unsigned s'
  | String "+" s' => int_unsigned s'
  | s' => int_unsigned s'
  end.

End PyStr.

Example split_ws_ex :
  PyStr.split_ws "  C  description 2 " = ["C"; "description"; "2"].
Proof. reflexivity. Qed.

Example split_ex :
  PyStr.split "ab" "xabyabab" = ["x"; "y"; ""; ""].
Proof. reflexivity. Qed.

Example strip_ex : PyStr.strip "  Atomic Mass  " = "Atomic Mass".
Proof. reflexivity. Qed.

Example int_ex :
  PyStr.int "-12" = Some (-12)%Z /\ PyStr.int "1_0" = Some 10%Z /\
  PyStr.int "1.5" = None /\ PyStr.int "-----" = None.
Proof. repeat split; reflexivity. Qed.

Example replace_ex :
  PyStr.replace " " "_" (PyStr.replace "No. of " "n" "No. of atoms") = "natoms".
Proof. reflexivity. Qed.

(** ** Regular expressions

    The fragment of Python's [re] that the module's patterns use, with the
    engine's backtracking order: alternatives left to right, repetitions
    greedy.  Every repetition in the patterns is over a single character
    class. *)

Module Re.

Inductive re :=
| Eps
| Chr (p : ascii -> bool)
| Seq (r1 r2 : re)
| Alt (r1 r2 : re)
| Star (p : ascii -> bool)
| Plus (p : ascii -> bool)
| Group (i : nat) (r : re).

(** Captured groups, most recently closed first. *)
Definition caps := list (nat * string).

Fixpoint group (i : nat) (c : caps) : string :=
  match c with
  | [] => EmptyString
  | (j, s) :: c' => if Nat.eqb i j then s else group i c'
  end.

(** Greedy [p*] followed by the continuation [k], giving back one character
    at a time when [k] fails. *)
Fixpoint rep {A} (p : ascii -> bool) (s : string) (k : string -> option A)
  : option A :=
  match s with
  | String c s' =>
      if p c then
        match rep p s' k with
        | Some a => Some a
        | None => k s
        end
      else k s
  | EmptyString => k s
  end.

Fixpoint run (r : re) (s : string) (c : caps)
    (k : string -> caps -> option caps) : option caps :=
  match r with
  | Eps => k s c
  | Chr p =>
      match s with
      | String a s' => if p a then k s' c else None
      | EmptyString => None
      end
  | Seq r1 r2 => run r1 s c (fun s' c' => run r2 s' c' k)
  | Alt r1 r2 =>
      match run r1 s c k with
      | Some x => Some x
      | None => run r2 s c k
      end
  | Star p => rep p s (fun s' => k s' c)
  | Plus p =>
      match s with
      | String a s' => if p a then rep p s' (fun s'' => k s'' c) else None
      | EmptyString => None
      end
  | Group i r1 =>
      run r1 s c (fun s' c' =>
        k s' ((i, PyStr.take (String.length s - String.length s') s) :: c'))
  end.

(** [re.match]: anchored at the start. *)
Definition match_at (r : re) (s : string) : option caps :=
  run r s [] (fun _ c => Some c).

(** [re.search]: the leftmost position at which the pattern matches. *)
Fixpoint search (r : re) (s : string) : option caps :=
  match match_at r s with
  | Some c => Some c
  | None =>
      match s with
      | String _ s' => search r s'
      | EmptyString => None
      end
  end.

Fixpoint lit (s : string) : re :=
  match s with
  | EmptyString => Eps
  | String c s' => Seq (Chr (Ascii.eqb c)) (lit s')
  end.

Definition seq (l : list re) : re := foldr Seq Eps l.

Definition alts (l : list re) : re :=
  match l with
  | [] => Eps
  | r :: l' => foldl Alt r l'
  end.

(** [.]  (no DOTALL flag) *)
Definition any (c : ascii) : bool := negb (Nat.eqb (PyStr.code c) 10).
(** [\s], [\S], [\d], [\w] *)
Definition sp : ascii -> bool := PyStr.is_space.
Definition nsp (c : ascii) : bool := negb (PyStr.is_space c).
Definition dg : ascii -> bool := PyStr.is_digit.
Definition wd : ascii -> bool := PyStr.is_word.
(** [[.\-\d]], also written [[0-9\.\-]] *)
Definition num (c : ascii) : bool :=
  Ascii.eqb c "." || Ascii.eqb c "-" || PyStr.is_digit c.
(** [[.\d]] *)
Definition dotdg (c : ascii) : bool := Ascii.eqb c "." || PyStr.is_digit c.
(** [[\w\-]] *)
Definition wdash (c : ascii) : bool := PyStr.is_word c || Ascii.eqb c "-".
(** [[123]] *)
Definition c123 (c : ascii) : bool :=
  Ascii.eqb c "1" || Ascii.eqb c "2" || Ascii.eqb c "3".

End Re.

(** ** The patterns of [_parse_job] *)

Module Patt.
Import Re.

(** [Total \w+ energy\s+=\s+([.\-\d]+)] *)
Definition energy_patt : re :=
  seq [lit "Total "; Plus wd; lit " energy"; Plus sp; lit "="; Plus sp;
       Group 1 (Plus num)].

(** [gas phase energy\s+=\s+([.\-\d]+)] *)
Definition energy_gas_patt : re :=
  seq [lit "gas phase energy"; Plus sp; lit "="; Plus sp; Group 1 (Plus num)].

(** [sol phase energy\s+=\s+([.\-\d]+)] *)
Definition energy_sol_patt : re :=
  seq [lit "sol phase energy"; Plus sp; lit "="; Plus sp; Group 1 (Plus num)].

(** [\d+\s+(\w+)\s+[.\-\d]+\s+([.\-\d]+)\s+([.\-\d]+)\s+([.\-\d]+)] *)
Definition coord_patt : re :=
  seq [Plus dg; Plus sp; Group 1 (Plus wd); Plus sp; Plus num; Plus sp;
       Group 2 (Plus num); Plus sp; Group 3 (Plus num); Plus sp;
       Group 4 (Plus num)].

(** [a[123]=<\s+([.\-\d]+)\s+([.\-\d]+)\s+([.\-\d]+)\s+>] *)
Definition lat_vector_patt : re :=
  seq [lit "a"; Chr c123; lit "=<"; Plus sp; Group 1 (Plus num); Plus sp;
       Group 2 (Plus num); Plus sp; Group 3 (Plus num); Plus sp; lit ">"].

(** [([\w\-]+ correction to \w+)\s+=\s+([.\-\d]+)] *)
Definition corrections_patt : re :=
  seq [Group 1 (seq [Plus wdash; lit " correction to "; Plus wd]);
       Plus sp; lit "="; Plus sp; Group 2 (Plus num)].

(** [(No. of atoms|No. of electrons|SCF calculation type|Charge|Spin multiplicity)\s*:\s*(\S+)];
    the dot after [No] is the wildcard. *)
Definition preamble_patt : re :=
  seq [Group 1 (alts [seq [lit "No"; Chr any; lit " of atoms"];
                      seq [lit "No"; Chr any; lit " of electrons"];
                      lit "SCF calculation type";
                      lit "Charge";
                      lit "Spin multiplicity"]);
       Star sp; lit ":"; Star sp; Group 2 (Plus nsp)].

(** [\s+(\d+)\s+(\w+)] followed by six times [\s+([0-9\.\-]+)] *)
Definition force_patt : re :=
  seq [Plus sp; Group 1 (Plus dg); Plus sp; Group 2 (Plus wd);
       Plus sp; Group 3 (Plus num); Plus sp; Group 4 (Plus num);
       Plus sp; Group 5 (Plus num); Plus sp; Group 6 (Plus num);
       Plus sp; Group 7 (Plus num); Plus sp; Group 8 (Plus num)].

(** [\s+ Task \s+ times \s+ cpu: \s+   ([.\d]+)s .+ ] under [re.VERBOSE],
    where the blanks of the pattern are not part of it. *)
Definition time_patt : re :=
  seq [Plus sp; lit "Task"; Plus sp; lit "times"; Plus sp; lit "cpu:";
       Plus sp; Group 1 (Plus dotdg); lit "s"; Plus any].

(** [-+] *)
Definition dashes_patt : re := Plus (Ascii.eqb "-").

End Patt.

Example energy_patt_ex :
  Re.group 1 <$> Re.search Patt.energy_patt "   Total DFT energy =    -76.4 x"
  = Some "-76.4".
Proof. reflexivity. Qed.

Example time_patt_ex :
  Re.group 1 <$> Re.search Patt.time_patt
    " Task  times  cpu:        1.5s     wall:        2.0s"
  = Some "1.5".
Proof. reflexivity. Qed.

Example preamble_patt_ex :
  (fun c => (Re.group 1 c, Re.group 2 c)) <$>
    Re.search Patt.preamble_patt "  No. of atoms     :     3"
  = Some ("No. of atoms", "3").
Proof. reflexivity. Qed.

Example force_patt_ex :
  (fun c => (Re.group 6 c, Re.group 7 c, Re.group 8 c)) <$>
    Re.search Patt.force_patt
      "   1 O       0.0   0.0   0.2   0.00  -0.01   0.02"
  = Some ("0.00", "-0.01", "0.02").
Proof. reflexivity. Qed.

(** ** Python list indexing *)

(** Position denoted by the index [i] in a list of length [n]: negative
    indices count from the end, anything else out of range raises. *)
Definition py_pos (n : nat) (i : Z) : res nat :=
  let len := Z.of_nat n in
  if ((0 <=? i) && (i <? len))%Z then Ok (Z.to_nat i)
  else if ((- len <=? i) && (i <? 0))%Z then Ok (Z.to_nat (len + i))
  else Raise IndexError.

(** [l[i]] *)
Definition py_get {A} (l : list A) (i : Z) : res A :=
  p ← py_pos (length l) i; of_opt IndexError (l !! p).

(** [l[i] = f(l[i])], an update in place of the element at index [i] *)
Definition py_alter {A} (f : A -> A) (l : list A) (i : Z) : res (list A) :=
  p ← py_pos (length l) i; Ok (alter f p l).

(** [l[-1]] *)
Definition py_last {A} (l : list A) : res A := py_get l (-1).

(** [l[-n:]]: the position where the slice starts.  [-0] is [0], so the
    slice is the whole list when [n] is zero, as it is when [n] exceeds the
    length. *)
Definition slice_start (len n : nat) : nat :=
  if Nat.eqb n 0 then 0 else len - n.

(** [l.pop(i)] for a non-negative [i], returning the remaining list. *)
Definition py_pop {A} (l : list A) (i : nat) : res (list A) :=
  if (i <? length l)%nat then Ok (delete i l) else Raise IndexError.

(** [dict(zip(ks, vs))]: later pairs override earlier ones. *)
Definition dict_zip {V} (ks : list string) (vs : list V) : gmap string V :=
  foldl (fun m kv => <[kv.1 := kv.2]> m) ∅ (zip ks vs).

Example py_get_ex :
  py_get [10; 20; 30]%Z (-1) = Ok 30%Z /\ py_get [10; 20; 30]%Z (-4) = Raise IndexError
  /\ py_get [10; 20; 30]%Z 3 = Raise IndexError.
Proof. repeat split; reflexivity. Qed.

(** ** Float arithmetic

    The operations of the spectrum synthesizer on floats: the arithmetic of
    [numpy] scalars, the comparisons, the conversion of an [int] operand,
    the value of a decimal literal of the source, and [np.pi]. *)

Class FloatOps (F : Type) := {
  fadd : F -> F -> F;
  fsub : F -> F -> F;
  fmul : F -> F -> F;
  fdiv : F -> F -> F;
  fabs : F -> F;
  fle : F -> F -> bool;
  flt : F -> F -> bool;
  of_int : Z -> F;
  of_dec : Q -> F;
  fpi : F
}.

(** ** The data of the decoder

    The records and variants of the decoder, over the types of floats, of
    molecules and of periodic structures. *)

Module Data.

Section Types.

Context {Float Mol Struct : Type}.

(** The values a job record holds under its scalar keys and as task time. *)
Inductive pyval :=
| PInt (z : Z)
| PStr (s : string)
| PFloat (x : Float).


(** An entry of [energies]: a converted energy, or a dictionary built by the
    gas phase and sol phase lines, kept in insertion order. *)
#[warnings="-register-all"]
Inductive energy_entry :=
| EScalar (x : Float)
| EDict (d : list (string * energy_entry)).

(** [d[k] = v] on an insertion-ordered dictionary *)
Fixpoint dict_set {V} (k : string) (v : V) (d : list (string * V))
  : list (string * V) :=
  match d with
  | [] => [(k, v)]
  | (k', v') :: d' =>
      if String.eqb k k' then (k, v) :: d' else (k', v') :: dict_set k v d'
  end.

(** The local variables of [_parse_job]. *)
Record state := {
  parse_hess : bool;
  parse_proj_hess : bool;
  hessian : option (list (list Float));
  projected_hessian : option (list (list Float));
  parse_force : bool;
  all_forces : list (list Float);
  forces : list Float;
  data : gmap string pyval;
  energies : list energy_entry;
  frequencies : option (list (Float * list Float));
  normal_frequencies : option (list (Float * list Float));
  corrections : gmap string Float;
  molecules : list Mol;
  structures : list Struct;
  species : list string;
  coords : list (list Float);
  lattice : list (list Float);
  errors : list string;
  basis_set : gmap string (gmap string string);
  bset_header : list string;
  parse_geom : bool;
  parse_freq : bool;
  parse_bset : bool;
  parse_projected_freq : bool;
  job_type : string;
  parse_time : bool;
  time : pyval
}.

Definition init_state : state := {|
  parse_hess := false; parse_proj_hess := false;
  hessian := None; projected_hessian := None;
  parse_force := false; all_forces := []; forces := [];
  data := ∅; energies := [];
  frequencies := None; normal_frequencies := None;
  corrections := ∅; molecules := []; structures := [];
  species := []; coords := []; lattice := [];
  errors := []; basis_set := ∅; bset_header := [];
  parse_geom := false; parse_freq := false; parse_bset := false;
  parse_projected_freq := false;
  job_type := ""; parse_time := false; time := PInt 0
|}.

(** Assignment to one local variable. *)
Definition set_parse_hess (v : bool) (st : state) : state :=
  {| parse_hess := v; parse_proj_hess := parse_proj_hess st; hessian :=
     hessian st; projected_hessian := projected_hessian st; parse_force :=
     parse_force st; all_forces := all_forces st; forces := forces st; data :=
     data st; energies := energies st; frequencies := frequencies st;
     normal_frequencies := normal_frequencies st; corrections := corrections
     st; molecules := molecules st; structures := structures st; species :=
     species st; coords := coords st; lattice := lattice st; errors := errors
     st; basis_set := basis_set st; bset_header := bset_header st; parse_geom
     := parse_geom st; parse_freq := parse_freq st; parse_bset := parse_bset
     st; parse_projected_freq := parse_projected_freq st; job_type := job_type
     st; parse_time := parse_time st; time := time st |}.

Definition set_parse_proj_hess (v : bool) (st : state) : state :=
  {| parse_hess := parse_hess st; parse_proj_hess := v; hessian := hessian st;
     projected_hessian := projected_hessian st; parse_force := parse_force st;
     all_forces := all_forces st; forces := forces st; data := data st;
     energies := energies st; frequencies := frequencies st;
     normal_frequencies := normal_frequencies st; corrections := corrections
     st; molecules := molecules st; structures := structures st; species :=
     species st; coords := coords st; lattice := lattice st; errors := errors
     st; basis_set := basis_set st; bset_header := bset_header st; parse_geom
     := parse_geom st; parse_freq := parse_freq st; parse_bset := parse_bset
     st; parse_projected_freq := parse_projected_freq st; job_type := job_type
     st; parse_time := parse_time st; time := time st |}.

Definition set_hessian (v : option (list (list Float))) (st : state) : state :=
  {| parse_hess := parse_hess st; parse_proj_hess := parse_proj_hess st;
     hessian := v; projected_hessian := projected_hessian st; parse_force :=
     parse_force st; all_forces := all_forces st; forces := forces st; data :=
     data st; energies := energies st; frequencies := frequencies st;
     normal_frequencies := normal_frequencies st; corrections := corrections
     st; molecules := molecules st; structures := structures st; species :=
     species st; coords := coords st; lattice := lattice st; errors := errors
     st; basis_set := basis_set st; bset_header := bset_header st; parse_geom
     := parse_geom st; parse_freq := parse_freq st; parse_bset := parse_bset
     st; parse_projected_freq := parse_projected_freq st; job_type := job_type
     st; parse_time := parse_time st; time := time st |}.

Definition set_projected_hessian (v : option (list (list Float))) (st : state) : state :=
  {| parse_hess := parse_hess st; parse_proj_hess := parse_proj_hess st;
     hessian := hessian st; projected_hessian := v; parse_force := parse_force
     st; all_forces := all_forces st; forces := forces st; data := data st;
     energies := energies st; frequencies := frequencies st;
     normal_frequencies := normal_frequencies st; corrections := corrections
     st; molecules := molecules st; structures := structures st; species :=
     species st; coords := coords st; lattice := lattice st; errors := errors
     st; basis_set := basis_set st; bset_header := bset_header st; parse_geom
     := parse_geom st; parse_freq := parse_freq st; parse_bset := parse_bset
     st; parse_projected_freq := parse_projected_freq st; job_type := job_type
     st; parse_time := parse_time st; time := time st |}.

Definition set_parse_force (v : bool) (st : state) : state :=
  {| parse_hess := parse_hess st; parse_proj_hess := parse_proj_hess st;
     hessian := hessian st; projected_hessian := projected_hessian st;
     parse_force := v; all_forces := all_forces st; forces := forces st; data
     := data st; energies := energies st; frequencies := frequencies st;
     normal_frequencies := normal_frequencies st; corrections := corrections
     st; molecules := molecules st; structures := structures st; species :=
     species st; coords := coords st; lattice := lattice st; errors := errors
     st; basis_set := basis_set st; bset_header := bset_header st; parse_geom
     := parse_geom st; parse_freq := parse_freq st; parse_bset := parse_bset
     st; parse_projected_freq := parse_projected_freq st; job_type := job_type
     st; parse_time := parse_time st; time := time st |}.

Definition set_all_forces (v : list (list Float)) (st : state) : state :=
  {| parse_hess := parse_hess st; parse_proj_hess := parse_proj_hess st;
     hessian := hessian st; projected_hessian := projected_hessian st;
     parse_force := parse_force st; all_forces := v; forces := forces st; data
     := data st; energies := energies st; frequencies := frequencies st;
     normal_frequencies := normal_frequencies st; corrections := corrections
     st; molecules := molecules st; structures := structures st; species :=
     species st; coords := coords st; lattice := lattice st; errors := errors
     st; basis_set := basis_set st; bset_header := bset_header st; parse_geom
     := parse_geom st; parse_freq := parse_freq st; parse_bset := parse_bset
     st; parse_projected_freq := parse_projected_freq st; job_type := job_type
     st; parse_time := parse_time st; time := time st |}.

Definition set_forces (v : list Float) (st : state) : state :=
  {| parse_hess := parse_hess st; parse_proj_hess := parse_proj_hess st;
     hessian := hessian st; projected_hessian := projected_hessian st;
     parse_force := parse_force st; all_forces := all_forces st; forces := v;
     data := data st; energies := energies st; frequencies := frequencies st;
     normal_frequencies := normal_frequencies st; corrections := corrections
     st; molecules := molecules st; structures := structures st; species :=
     species st; coords := coords st; lattice := lattice st; errors := errors
     st; basis_set := basis_set st; bset_header := bset_header st; parse_geom
     := parse_geom st; parse_freq := parse_freq st; parse_bset := parse_bset
     st; parse_projected_freq := parse_projected_freq st; job_type := job_type
     st; parse_time := parse_time st; time := time st |}.

Definition set_data (v : gmap string pyval) (st : state) : state :=
  {| parse_hess := parse_hess st; parse_proj_hess := parse_proj_hess st;
     hessian := hessian st; projected_hessian := projected_hessian st;
     parse_force := parse_force st; all_forces := all_forces st; forces :=
     forces st; data := v; energies := energies st; frequencies := frequencies
     st; normal_frequencies := normal_frequencies st; corrections :=
     corrections st; molecules := molecules st; structures := structures st;
     species := species st; coords := coords st; lattice := lattice st; errors
     := errors st; basis_set := basis_set st; bset_header := bset_header st;
     parse_geom := parse_geom st; parse_freq := parse_freq st; parse_bset :=
     parse_bset st; parse_projected_freq := parse_projected_freq st; job_type
     := job_type st; parse_time := parse_time st; time := time st |}.

Definition set_energies (v : list energy_entry) (st : state) : state :=
  {| parse_hess := parse_hess st; parse_proj_hess := parse_proj_hess st;
     hessian := hessian st; projected_hessian := projected_hessian st;
     parse_force := parse_force st; all_forces := all_forces st; forces :=
     forces st; data := data st; energies := v; frequencies := frequencies st;
     normal_frequencies := normal_frequencies st; corrections := corrections
     st; molecules := molecules st; structures := structures st; species :=
     species st; coords := coords st; lattice := lattice st; errors := errors
     st; basis_set := basis_set st; bset_header := bset_header st; parse_geom
     := parse_geom st; parse_freq := parse_freq st; parse_bset := parse_bset
     st; parse_projected_freq := parse_projected_freq st; job_type := job_type
     st; parse_time := parse_time st; time := time st |}.

Definition set_frequencies (v : option (list (Float * list Float))) (st : state) : state :=
  {| parse_hess := parse_hess st; parse_proj_hess := parse_proj_hess st;
     hessian := hessian st; projected_hessian := projected_hessian st;
     parse_force := parse_force st; all_forces := all_forces st; forces :=
     forces st; data := data st; energies := energies st; frequencies := v;
     normal_frequencies := normal_frequencies st; corrections := corrections
     st; molecules := molecules st; structures := structures st; species :=
     species st; coords := coords st; lattice := lattice st; errors := errors
     st; basis_set := basis_set st; bset_header := bset_header st; parse_geom
     := parse_geom st; parse_freq := parse_freq st; parse_bset := parse_bset
     st; parse_projected_freq := parse_projected_freq st; job_type := job_type
     st; parse_time := parse_time st; time := time st |}.

Definition set_normal_frequencies (v : option (list (Float * list Float))) (st : state) : state :=
  {| parse_hess := parse_hess st; parse_proj_hess := parse_proj_hess st;
     hessian := hessian st; projected_hessian := projected_hessian st;
     parse_force := parse_force st; all_forces := all_forces st; forces :=
     forces st; data := data st; energies := energies st; frequencies :=
     frequencies st; normal_frequencies := v; corrections := corrections st;
     molecules := molecules st; structures := structures st; species :=
     species st; coords := coords st; lattice := lattice st; errors := errors
     st; basis_set := basis_set st; bset_header := bset_header st; parse_geom
     := parse_geom st; parse_freq := parse_freq st; parse_bset := parse_bset
     st; parse_projected_freq := parse_projected_freq st; job_type := job_type
     st; parse_time := parse_time st; time := time st |}.

Definition set_corrections (v : gmap string Float) (st : state) : state :=
  {| parse_hess := parse_hess st; parse_proj_hess := parse_proj_hess st;
     hessian := hessian st; projected_hessian := projected_hessian st;
     parse_force := parse_force st; all_forces := all_forces st; forces :=
     forces st; data := data st; energies := energies st; frequencies :=
     frequencies st; normal_frequencies := normal_frequencies st; corrections
     := v; molecules := molecules st; structures := structures st; species :=
     species st; coords := coords st; lattice := lattice st; errors := errors
     st; basis_set := basis_set st; bset_header := bset_header st; parse_geom
     := parse_geom st; parse_freq := parse_freq st; parse_bset := parse_bset
     st; parse_projected_freq := parse_projected_freq st; job_type := job_type
     st; parse_time := parse_time st; time := time st |}.

Definition set_molecules (v : list Mol) (st : state) : state :=
  {| parse_hess := parse_hess st; parse_proj_hess := parse_proj_hess st;
     hessian := hessian st; projected_hessian := projected_hessian st;
     parse_force := parse_force st; all_forces := all_forces st; forces :=
     forces st; data := data st; energies := energies st; frequencies :=
     frequencies st; normal_frequencies := normal_frequencies st; corrections
     := corrections st; molecules := v; structures := structures st; species
     := species st; coords := coords st; lattice := lattice st; errors :=
     errors st; basis_set := basis_set st; bset_header := bset_header st;
     parse_geom := parse_geom st; parse_freq := parse_freq st; parse_bset :=
     parse_bset st; parse_projected_freq := parse_projected_freq st; job_type
     := job_type st; parse_time := parse_time st; time := time st |}.

Definition set_structures (v : list Struct) (st : state) : state :=
  {| parse_hess := parse_hess st; parse_proj_hess := parse_proj_hess st;
     hessian := hessian st; projected_hessian := projected_hessian st;
     parse_force := parse_force st; all_forces := all_forces st; forces :=
     forces st; data := data st; energies := energies st; frequencies :=
     frequencies st; normal_frequencies := normal_frequencies st; corrections
     := corrections st; molecules := molecules st; structures := v; species :=
     species st; coords := coords st; lattice := lattice st; errors := errors
     st; basis_set := basis_set st; bset_header := bset_header st; parse_geom
     := parse_geom st; parse_freq := parse_freq st; parse_bset := parse_bset
     st; parse_projected_freq := parse_projected_freq st; job_type := job_type
     st; parse_time := parse_time st; time := time st |}.

Definition set_species (v : list string) (st : state) : state :=
  {| parse_hess := parse_hess st; parse_proj_hess := parse_proj_hess st;
     hessian := hessian st; projected_hessian := projected_hessian st;
     parse_force := parse_force st; all_forces := all_forces st; forces :=
     forces st; data := data st; energies := energies st; frequencies :=
     frequencies st; normal_frequencies := normal_frequencies st; corrections
     := corrections st; molecules := molecules st; structures := structures
     st; species := v; coords := coords st; lattice := lattice st; errors :=
     errors st; basis_set := basis_set st; bset_header := bset_header st;
     parse_geom := parse_geom st; parse_freq := parse_freq st; parse_bset :=
     parse_bset st; parse_projected_freq := parse_projected_freq st; job_type
     := job_type st; parse_time := parse_time st; time := time st |}.

Definition set_coords (v : list (list Float)) (st : state) : state :=
  {| parse_hess := parse_hess st; parse_proj_hess := parse_proj_hess st;
     hessian := hessian st; projected_hessian := projected_hessian st;
     parse_force := parse_force st; all_forces := all_forces st; forces :=
     forces st; data := data st; energies := energies st; frequencies :=
     frequencies st; normal_frequencies := normal_frequencies st; corrections
     := corrections st; molecules := molecules st; structures := structures
     st; species := species st; coords := v; lattice := lattice st; errors :=
     errors st; basis_set := basis_set st; bset_header := bset_header st;
     parse_geom := parse_geom st; parse_freq := parse_freq st; parse_bset :=
     parse_bset st; parse_projected_freq := parse_projected_freq st; job_type
     := job_type st; parse_time := parse_time st; time := time st |}.

Definition set_lattice (v : list (list Float)) (st : state) : state :=
  {| parse_hess := parse_hess st; parse_proj_hess := parse_proj_hess st;
     hessian := hessian st; projected_hessian := projected_hessian st;
     parse_force := parse_force st; all_forces := all_forces st; forces :=
     forces st; data := data st; energies := energies st; frequencies :=
     frequencies st; normal_frequencies := normal_frequencies st; corrections
     := corrections st; molecules := molecules st; structures := structures
     st; species := species st; coords := coords st; lattice := v; errors :=
     errors st; basis_set := basis_set st; bset_header := bset_header st;
     parse_geom := parse_geom st; parse_freq := parse_freq st; parse_bset :=
     parse_bset st; parse_projected_freq := parse_projected_freq st; job_type
     := job_type st; parse_time := parse_time st; time := time st |}.

Definition set_errors (v : list string) (st : state) : state :=
  {| parse_hess := parse_hess st; parse_proj_hess := parse_proj_hess st;
     hessian := hessian st; projected_hessian := projected_hessian st;
     parse_force := parse_force st; all_forces := all_forces st; forces :=
     forces st; data := data st; energies := energies st; frequencies :=
     frequencies st; normal_frequencies := normal_frequencies st; corrections
     := corrections st; molecules := molecules st; structures := structures
     st; species := species st; coords := coords st; lattice := lattice st;
     errors := v; basis_set := basis_set st; bset_header := bset_header st;
     parse_geom := parse_geom st; parse_freq := parse_freq st; parse_bset :=
     parse_bset st; parse_projected_freq := parse_projected_freq st; job_type
     := job_type st; parse_time := parse_time st; time := time st |}.

Definition set_basis_set (v : gmap string (gmap string string)) (st : state) : state :=
  {| parse_hess := parse_hess st; parse_proj_hess := parse_proj_hess st;
     hessian := hessian st; projected_hessian := projected_hessian st;
     parse_force := parse_force st; all_forces := all_forces st; forces :=
     forces st; data := data st; energies := energies st; frequencies :=
     frequencies st; normal_frequencies := normal_frequencies st; corrections
     := corrections st; molecules := molecules st; structures := structures
     st; species := species st; coords := coords st; lattice := lattice st;
     errors := errors st; basis_set := v; bset_header := bset_header st;
     parse_geom := parse_geom st; parse_freq := parse_freq st; parse_bset :=
     parse_bset st; parse_projected_freq := parse_projected_freq st; job_type
     := job_type st; parse_time := parse_time st; time := time st |}.

Definition set_bset_header (v : list string) (st : state) : state :=
  {| parse_hess := parse_hess st; parse_proj_hess := parse_proj_hess st;
     hessian := hessian st; projected_hessian := projected_hessian st;
     parse_force := parse_force st; all_forces := all_forces st; forces :=
     forces st; data := data st; energies := energies st; frequencies :=
     frequencies st; normal_frequencies := normal_frequencies st; corrections
     := corrections st; molecules := molecules st; structures := structures
     st; species := species st; coords := coords st; lattice := lattice st;
     errors := errors st; basis_set := basis_set st; bset_header := v;
     parse_geom := parse_geom st; parse_freq := parse_freq st; parse_bset :=
     parse_bset st; parse_projected_freq := parse_projected_freq st; job_type
     := job_type st; parse_time := parse_time st; time := time st |}.

Definition set_parse_geom (v : bool) (st : state) : state :=
  {| parse_hess := parse_hess st; parse_proj_hess := parse_proj_hess st;
     hessian := hessian st; projected_hessian := projected_hessian st;
     parse_force := parse_force st; all_forces := all_forces st; forces :=
     forces st; data := data st; energies := energies st; frequencies :=
     frequencies st; normal_frequencies := normal_frequencies st; corrections
     := corrections st; molecules := molecules st; structures := structures
     st; species := species st; coords := coords st; lattice := lattice st;
     errors := errors st; basis_set := basis_set st; bset_header :=
     bset_header st; parse_geom := v; parse_freq := parse_freq st; parse_bset
     := parse_bset st; parse_projected_freq := parse_projected_freq st;
     job_type := job_type st; parse_time := parse_time st; time := time st |}.

Definition set_parse_freq (v : bool) (st : state) : state :=
  {| parse_hess := parse_hess st; parse_proj_hess := parse_proj_hess st;
     hessian := hessian st; projected_hessian := projected_hessian st;
     parse_force := parse_force st; all_forces := all_forces st; forces :=
     forces st; data := data st; energies := energies st; frequencies :=
     frequencies st; normal_frequencies := normal_frequencies st; corrections
     := corrections st; molecules := molecules st; structures := structures
     st; species := species st; coords := coords st; lattice := lattice st;
     errors := errors st; basis_set := basis_set st; bset_header :=
     bset_header st; parse_geom := parse_geom st; parse_freq := v; parse_bset
     := parse_bset st; parse_projected_freq := parse_projected_freq st;
     job_type := job_type st; parse_time := parse_time st; time := time st |}.

Definition set_parse_bset (v : bool) (st : state) : state :=
  {| parse_hess := parse_hess st; parse_proj_hess := parse_proj_hess st;
     hessian := hessian st; projected_hessian := projected_hessian st;
     parse_force := parse_force st; all_forces := all_forces st; forces :=
     forces st; data := data st; energies := energies st; frequencies :=
     frequencies st; normal_frequencies := normal_frequencies st; corrections
     := corrections st; molecules := molecules st; structures := structures
     st; species := species st; coords := coords st; lattice := lattice st;
     errors := errors st; basis_set := basis_set st; bset_header :=
     bset_header st; parse_geom := parse_geom st; parse_freq := parse_freq st;
     parse_bset := v; parse_projected_freq := parse_projected_freq st;
     job_type := job_type st; parse_time := parse_time st; time := time st |}.

Definition set_parse_projected_freq (v : bool) (st : state) : state :=
  {| parse_hess := parse_hess st; parse_proj_hess := parse_proj_hess st;
     hessian := hessian st; projected_hessian := projected_hessian st;
     parse_force := parse_force st; all_forces := all_forces st; forces :=
     forces st; data := data st; energies := energies st; frequencies :=
     frequencies st; normal_frequencies := normal_frequencies st; corrections
     := corrections st; molecules := molecules st; structures := structures
     st; species := species st; coords := coords st; lattice := lattice st;
     errors := errors st; basis_set := basis_set st; bset_header :=
     bset_header st; parse_geom := parse_geom st; parse_freq := parse_freq st;
     parse_bset := parse_bset st; parse_projected_freq := v; job_type :=
     job_type st; parse_time := parse_time st; time := time st |}.

Definition set_job_type (v : string) (st : state) : state :=
  {| parse_hess := parse_hess st; parse_proj_hess := parse_proj_hess st;
     hessian := hessian st; projected_hessian := projected_hessian st;
     parse_force := parse_force st; all_forces := all_forces st; forces :=
     forces st; data := data st; energies := energies st; frequencies :=
     frequencies st; normal_frequencies := normal_frequencies st; corrections
     := corrections st; molecules := molecules st; structures := structures
     st; species := species st; coords := coords st; lattice := lattice st;
     errors := errors st; basis_set := basis_set st; bset_header :=
     bset_header st; parse_geom := parse_geom st; parse_freq := parse_freq st;
     parse_bset := parse_bset st; parse_projected_freq := parse_projected_freq
     st; job_type := v; parse_time := parse_time st; time := time st |}.

Definition set_parse_time (v : bool) (st : state) : state :=
  {| parse_hess := parse_hess st; parse_proj_hess := parse_proj_hess st;
     hessian := hessian st; projected_hessian := projected_hessian st;
     parse_force := parse_force st; all_forces := all_forces st; forces :=
     forces st; data := data st; energies := energies st; frequencies :=
     frequencies st; normal_frequencies := normal_frequencies st; corrections
     := corrections st; molecules := molecules st; structures := structures
     st; species := species st; coords := coords st; lattice := lattice st;
     errors := errors st; basis_set := basis_set st; bset_header :=
     bset_header st; parse_geom := parse_geom st; parse_freq := parse_freq st;
     parse_bset := parse_bset st; parse_projected_freq := parse_projected_freq
     st; job_type := job_type st; parse_time := v; time := time st |}.

Definition set_time (v : pyval) (st : state) : state :=
  {| parse_hess := parse_hess st; parse_proj_hess := parse_proj_hess st;
     hessian := hessian st; projected_hessian := projected_hessian st;
     parse_force := parse_force st; all_forces := all_forces st; forces :=
     forces st; data := data st; energies := energies st; frequencies :=
     frequencies st; normal_frequencies := normal_frequencies st; corrections
     := corrections st; molecules := molecules st; structures := structures
     st; species := species st; coords := coords st; lattice := lattice st;
     errors := errors st; basis_set := basis_set st; bset_header :=
     bset_header st; parse_geom := parse_geom st; parse_freq := parse_freq st;
     parse_bset := parse_bset st; parse_projected_freq := parse_projected_freq
     st; job_type := job_type st; parse_time := parse_time st; time := v |}.

(** The job record; a field [r_k] is the entry under the key [k], and
    [r_data] holds the scalar keys. *)
Record job := {
  r_data : gmap string pyval;
  r_job_type : string;
  r_energies : list energy_entry;
  r_corrections : gmap string Float;
  r_molecules : list Mol;
  r_structures : list Struct;
  r_basis_set : gmap string (gmap string string);
  r_errors : list string;
  r_has_error : bool;
  r_frequencies : option (list (Float * list (Float * Float * Float)));
  r_normal_frequencies : option (list (Float * list (Float * Float * Float)));
  r_hessian : option (list (list Float));
  r_projected_hessian : option (list (list Float));
  r_forces : list (list Float);
  r_task_time : pyval
}.

(** The attributes of an [NwOutput] object. *)
Record nwoutput := {
  raw : string;
  job_info : gmap string string;
  jobs : list job
}.

(** A root is a dictionary with the key [energy] and, once the oscillator
    strength line was read, the key [osc_strength]. *)
Record root := {
  energy : Float;
  osc_strength : option Float
}.

Inductive multiplicity := Singlet | Triplet.

(** The dictionary [roots] with its two keys. *)
Record roots := {
  singlet : list root;
  triplet : list root
}.

(** The local variables of [parse_tddft]. *)
Record tddft_state := {
  mult : multiplicity;
  inside : bool;
  found : roots
}.

End Types.

Arguments pyval : clear implicits.
Arguments energy_entry : clear implicits.
Arguments state : clear implicits.
Arguments job : clear implicits.
Arguments nwoutput : clear implicits.
Arguments root : clear implicits.
Arguments roots : clear implicits.
Arguments tddft_state : clear implicits.

End Data.

Export Data.

(** ** The collaborators

    The builtin [float()] on a string ([None] is [ValueError]), the unit
    conversions [Energy(x, "Ha").to("eV")] and
    [FloatWithUnit(x, "kJ mol^-1").to("eV atom^-1")], and the constructors
    [Molecule(species, coords)] and
    [Structure(lattice, species, coords, coords_are_cartesian=True)], which
    validate their arguments and may raise. *)

Class Extern := {
  Float : Type;
  float : string -> option Float;
  Ha_to_eV : Float -> Float;
  kJmol_to_eV_atom : Float -> Float;
  Mol : Type;
  Struct : Type;
  Molecule : list string -> list (list Float) -> res Mol;
  Structure :
    list (list Float) -> list string -> list (list Float) -> res Struct
}.

(** The data over the types of the collaborators at hand. *)
Abbreviation pyval := (Data.pyval Float).
Abbreviation energy_entry := (Data.energy_entry Float).
Abbreviation state := (Data.state Float Mol Struct).
Abbreviation job := (Data.job Float Mol Struct).
Abbreviation nwoutput := (Data.nwoutput Float Mol Struct).
Abbreviation root := (Data.root Float).
Abbreviation roots := (Data.roots Float).
Abbreviation tddft_state := (Data.tddft_state Float).

Section Decoder.

Context {ext : Extern}.

(** ** The job decoder: one line *)

Definition float_res (s : string) : res Float := of_opt ValueError (float s).

(** [Energy(s, "Ha").to("eV")]: the constructor converts the text with
    [float()]. *)
Definition Energy_eV (s : string) : res Float :=
  x ← float_res s; Ok (Ha_to_eV x).

(** [FloatWithUnit(s, "kJ mol^-1").to("eV atom^-1")] *)
Definition Correction_eV (s : string) : res Float :=
  x ← float_res s; Ok (kJmol_to_eV_atom x).

Definition error_defs : list (string * string) :=
  [("calculations not reaching convergence", "Bad convergence");
   ("Calculation failed to converge", "Bad convergence");
   ("geom_binvr: #indep variables incorrect", "autoz error");
   ("dft optimize failed", "Geometry optimization failed")].

Definition fort2py (x : string) : string := PyStr.replace "D" "e" x.

(** True when the text has no decimal point (the source's name). *)
Definition isfloatstring (in_str : string) : bool :=
  negb (PyStr.contains "." in_str).

Definition is_blank (line : string) : bool :=
  String.eqb (PyStr.strip line) "".

(** The error signatures, tried on every line. *)
Definition scan_errors (line : string) (st : state) : state :=
  set_errors
    (errors st ++
     map snd (List.filter (fun ev => PyStr.contains (fst ev) line) error_defs))
    st.

(** The one-shot task time. *)
Definition scan_time (line : string) (st : state) : state :=
  if parse_time st then
    match Re.search Patt.time_patt line with
    | Some m => set_parse_time false (set_time (PStr (Re.group 1 m)) st)
    | None => st
    end
  else st.

Definition float3 (a b c : string) : res (list Float) :=
  x ← float_res a; y ← float_res b; z ← float_res c; Ok [x; y; z].

(** The geometry block; the line then goes on to the block chain below. *)
Definition scan_geom (line : string) (st : state) : res state :=
  if parse_geom st then
    if String.eqb (PyStr.strip line) "Atomic Mass" then
      st1 ← match lattice st with
            | [] =>
                m ← Molecule (species st) (coords st);
                Ok (set_molecules (molecules st ++ [m]) st)
            | _ =>
                s ← Structure (lattice st) (species st) (coords st);
                Ok (set_structures (structures st ++ [s]) st)
            end;
      Ok (set_parse_geom false
            (set_lattice [] (set_coords [] (set_species [] st1))))
    else
      st1 ← match Re.search Patt.coord_patt line with
            | Some m =>
                xyz ← float3 (Re.group 2 m) (Re.group 3 m) (Re.group 4 m);
                Ok (set_coords (coords st ++ [xyz])
                      (set_species
                         (species st ++ [PyStr.capitalize (Re.group 1 m)]) st))
            | None => Ok st
            end;
      match Re.search Patt.lat_vector_patt line with
      | Some m =>
          v ← float3 (Re.group 1 m) (Re.group 2 m) (Re.group 3 m);
          Ok (set_lattice (lattice st1 ++ [v]) st1)
      | None => Ok st1
      end
  else Ok st.

Definition scan_force (line : string) (st : state) : res state :=
  match Re.search Patt.force_patt line with
  | Some m =>
      fs ← mapM float_res [Re.group 6 m; Re.group 7 m; Re.group 8 m];
      Ok (set_forces (forces st ++ fs) st)
  | None =>
      match forces st with
      | [] => Ok st
      | _ =>
          Ok (set_parse_force false
                (set_forces [] (set_all_forces (all_forces st ++ [forces st]) st)))
      end
  end.

(** A vibrational mode while scanning: its frequency and the flat list of
    displacements read so far. *)
Definition mode : Type := Float * list Float.

(** [for mode, dis in zip(modes, vibs): mode[1].append(dis)] *)
Fixpoint zip_append (modes : list mode) (vibs : list Float) : list mode :=
  match modes, vibs with
  | (f, d) :: ms, v :: vs => (f, d ++ [v]) :: zip_append ms vs
  | _, _ => modes
  end.

(** The same loop over the slice [modes[-n_vibs:]], whose elements are the
    mode objects of [modes] themselves. *)
Definition distribute (modes : list mode) (vibs : list Float) : list mode :=
  let k := slice_start (length modes) (length vibs) in
  take k modes ++ zip_append (drop k modes) vibs.

(** The body shared by the normal and the projected frequency block: the
    updated mode list, and whether the block stays open. *)
Definition scan_modes (line : string) (fr : option (list mode))
  : res (option (list mode) * bool) :=
  if Nat.eqb (String.length (PyStr.strip line)) 0 then
    l ← of_opt TypeError fr;
    last ← py_last l;
    if Nat.eqb (length (snd last)) 0 then Ok (fr, true) else Ok (fr, false)
  else
    vibs ← mapM float_res (tail (PyStr.split_ws (PyStr.strip line)));
    l ← of_opt TypeError fr;
    Ok (Some (distribute l vibs), true).

Definition scan_freq (line : string) (st : state) : res state :=
  r ← scan_modes line (normal_frequencies st);
  Ok (set_parse_freq (snd r) (set_normal_frequencies (fst r) st)).

Definition scan_projected_freq (line : string) (st : state) : res state :=
  r ← scan_modes line (frequencies st);
  Ok (set_parse_projected_freq (snd r) (set_frequencies (fst r) st)).

Definition scan_bset (line : string) (st : state) : res state :=
  if is_blank line then Ok (set_parse_bset false st)
  else
    let tokens := PyStr.split_ws line in
    t0 ← py_get tokens 0;
    if negb (String.eqb t0 "Tag")
       && negb (bool_decide (is_Some (Re.match_at Patt.dashes_patt t0)))
    then
      Ok (set_basis_set
            (<[t0 := dict_zip (tail (bset_header st)) (tail tokens)]>
               (basis_set st)) st)
    else if String.eqb t0 "Tag" then
      h ← py_pop tokens 4;
      Ok (set_bset_header (map PyStr.lower h) st)
    else Ok st.

(** The row accumulation shared by the two hessian blocks.  [None] means
    that nothing was stored: the line has fewer than two tokens, or the
    source's [continue] was taken. *)
Definition hess_row (line : string) (oh : option (list (list Float)))
  : res (option (list (list Float))) :=
  let tokens := PyStr.split_ws (PyStr.strip line) in
  match tokens with
  | t0 :: t1 :: _ =>
      match PyStr.int t0 with
      | None => Ok None
      | Some row =>
          if isfloatstring t1 then Ok None
          else
            vals ← mapM (fun x => float_res (fort2py x)) (tail tokens);
            h ← of_opt TypeError oh;
            if (Z.of_nat (length h) <? row)%Z then Ok (Some (h ++ [vals]))
            else h' ← py_alter (fun r => r ++ vals) h (row - 1); Ok (Some h')
      end
  | _ => Ok None
  end.

Definition scan_hess (line : string) (st : state) : res state :=
  if is_blank line then Ok st
  else
    h ← of_opt TypeError (hessian st);
    if (0 <? length h)%nat && PyStr.contains "----------" line
    then Ok (set_parse_hess false st)
    else
      r ← hess_row line (hessian st);
      match r with
      | Some h' => Ok (set_hessian (Some h') st)
      | None => Ok st
      end.

Definition scan_proj_hess (line : string) (st : state) : res state :=
  if is_blank line then Ok st
  else
    h ← of_opt TypeError (hessian st);
    let nat3 := length h in
    r ← hess_row line (projected_hessian st);
    match r with
    | Some ph =>
        last ← py_last ph;
        let st' := set_projected_hessian (Some ph) st in
        if Nat.eqb (length last) nat3
        then Ok (set_parse_proj_hess false st')
        else Ok st'
    | None => Ok st
    end.

(** [if not h: h = []] *)
Definition or_empty {A} (h : option (list A)) : option (list A) :=
  match h with
  | Some (_ :: _) => h
  | _ => Some []
  end.

(** [if fr is None: fr = []] followed by
    [fr.extend([(float(freq), []) for freq in tokens])] *)
Definition open_modes (tokens : list string) (fr : option (list mode))
  : res (option (list mode)) :=
  fs ← mapM float_res tokens;
  Ok (Some (default [] fr ++ map (fun f => (f, [])) fs)).

(** The scalar keys: [match[1].replace("No. of ", "n").replace(" ", "_")],
    lowered. *)
Definition scalar_key (label : string) : string :=
  PyStr.lower (PyStr.replace " " "_" (PyStr.replace "No. of " "n" label)).

(** The headers [Geometry "geometry"] and [Summary of "ao basis"], with the
    quote written as its character code. *)
Definition dquote : string := String (ascii_of_nat 34) EmptyString.
Definition geometry_tag : string :=
  "Geometry " +:+ dquote +:+ "geometry" +:+ dquote.
Definition basis_tag : string :=
  "Summary of " +:+ dquote +:+ "ao basis" +:+ dquote.

(** No block is open: the scalar fields and the chain of block headers. *)
Definition scan_headers (output line : string) (st : state) : res state :=
  match Re.search Patt.preamble_patt line with
  | Some m =>
      let val := match PyStr.int (Re.group 2 m) with
                 | Some z => PInt z
                 | None => PStr (Re.group 2 m)
                 end in
      Ok (set_data (<[scalar_key (Re.group 1 m) := val]> (data st)) st)
  | None =>
      if PyStr.contains geometry_tag line then
        Ok (set_parse_geom true st)
      else if PyStr.contains basis_tag line then
        Ok (set_parse_bset true st)
      else if PyStr.contains "P.Frequency" line then
        fr ← open_modes (tail (PyStr.split_ws (PyStr.strip line)))
               (frequencies st);
        Ok (set_frequencies fr (set_parse_projected_freq true st))
      else if PyStr.contains "Frequency" line then
        let tokens := PyStr.split_ws (PyStr.strip line) in
        if (1 <? length tokens)%nat && String.eqb (hd "" tokens) "Frequency"
        then
          fr ← open_modes (tail tokens) (normal_frequencies st);
          Ok (set_normal_frequencies fr (set_parse_freq true st))
        else Ok st
      else if PyStr.contains "MASS-WEIGHTED NUCLEAR HESSIAN" line then
        Ok (set_hessian (or_empty (hessian st)) (set_parse_hess true st))
      else if PyStr.contains "MASS-WEIGHTED PROJECTED HESSIAN" line then
        Ok (set_projected_hessian (or_empty (projected_hessian st))
              (set_parse_proj_hess true st))
      else if PyStr.contains
                "atom               coordinates                        gradient"
                line then
        Ok (set_parse_force true st)
      else if String.eqb (job_type st) ""
              && PyStr.startswith "NWChem" (PyStr.strip line) then
        let jt := PyStr.strip line in
        if String.eqb jt "NWChem DFT Module"
           && PyStr.contains "COSMO solvation results" output
        then Ok (set_job_type (jt +:+ " COSMO") st)
        else Ok (set_job_type jt st)
      else
        match Re.search Patt.corrections_patt line with
        | Some m =>
            v ← Correction_eV (Re.group 2 m);
            Ok (set_corrections (<[Re.group 1 m := v]> (corrections st)) st)
        | None => Ok st
        end
  end.

(** [energies[-1] = f(energies[-1])] *)
Definition set_last_energy (e : energy_entry) (st : state) : state :=
  set_energies (alter (fun _ => e) (length (energies st) - 1) (energies st)) st.

Definition scan_gas (line : string) (st : state) : res state :=
  match Re.search Patt.energy_gas_patt line with
  | Some m =>
      cosmo_scf_energy ← py_last (energies st);
      v ← Energy_eV (Re.group 1 m);
      Ok (set_last_energy
            (EDict (dict_set "gas phase" (EScalar v)
                      (dict_set "cosmo scf" cosmo_scf_energy []))) st)
  | None => Ok st
  end.

Definition scan_sol (line : string) (st : state) : res state :=
  match Re.search Patt.energy_sol_patt line with
  | Some m =>
      last ← py_last (energies st);
      v ← Energy_eV (Re.group 1 m);
      match last with
      | EDict d =>
          Ok (set_last_energy (EDict (dict_set "sol phase" (EScalar v) d)) st)
      | EScalar _ => Raise TypeError
      end
  | None => Ok st
  end.

Definition scan_idle (output line : string) (st : state) : res state :=
  match Re.search Patt.energy_patt line with
  | Some m =>
      e ← Energy_eV (Re.group 1 m);
      Ok (set_parse_time true (set_energies (energies st ++ [EScalar e]) st))
  | None =>
      st1 ← scan_gas line st;
      st2 ← scan_sol line st1;
      scan_headers output line st2
  end.

(** The chain of block states: the first flag that is set decides how the
    line is read. *)
Definition scan_block (output line : string) (st : state) : res state :=
  if parse_force st then scan_force line st
  else if parse_freq st then scan_freq line st
  else if parse_projected_freq st then scan_projected_freq line st
  else if parse_bset st then scan_bset line st
  else if parse_hess st then scan_hess line st
  else if parse_proj_hess st then scan_proj_hess line st
  else scan_idle output line st.

(** The body of the loop over the lines. *)
Definition scan_line (output : string) (st : state) (line : string)
  : res state :=
  st1 ← scan_geom line (scan_time line (scan_errors line st));
  scan_block output line st1.

Definition scan (output : string) : res state :=
  foldM (scan_line output) init_state (PyStr.split (String "010" "") output).

(** ** The job decoder: after the loop *)

(** The regrouping [mode[:] = zip(it, it, it)] over one shared iterator [it]
    of the flat list: consecutive triples; a last group of fewer than three
    values is not produced. *)
Fixpoint reshape3 (l : list Float) : list (Float * Float * Float) :=
  match l with
  | x :: y :: z :: l' => (x, y, z) :: reshape3 l'
  | _ => []
  end.

Definition reshape_modes (fr : option (list mode))
  : option (list (Float * list (Float * Float * Float))) :=
  map (fun m => (fst m, reshape3 (snd m))) <$> fr.

(** [hessian[ii].append(hessian[jj][ii])] *)
Definition sym_step (ii : nat) (h : list (list Float)) (jj : nat)
  : res (list (list Float)) :=
  rj ← of_opt IndexError (h !! jj);
  x ← of_opt IndexError (rj !! ii);
  Ok (alter (fun r => r ++ [x]) ii h).

(** [for jj in range(ii + 1, len_hess)] *)
Definition sym_row (len_hess : nat) (h : list (list Float)) (ii : nat)
  : res (list (list Float)) :=
  foldM (sym_step ii) h (seq (S ii) (len_hess - S ii)).

(** [for ii in range(len_hess)] *)
Definition symmetrize (h : list (list Float)) : res (list (list Float)) :=
  foldM (sym_row (length h)) h (seq 0 (length h)).

(** [if h: ...]: only a hessian with at least one row is completed. *)
Definition symmetrize_opt (h : option (list (list Float)))
  : res (option (list (list Float))) :=
  match h with
  | Some ((_ :: _) as m) => m' ← symmetrize m; Ok (Some m')
  | _ => Ok h
  end.

Definition finish (st : state) : res job :=
  h ← symmetrize_opt (hessian st);
  ph ← symmetrize_opt (projected_hessian st);
  Ok {| r_data := data st;
        r_job_type := job_type st;
        r_energies := energies st;
        r_corrections := corrections st;
        r_molecules := molecules st;
        r_structures := structures st;
        r_basis_set := basis_set st;
        r_errors := errors st;
        r_has_error := (0 <? length (errors st))%nat;
        r_frequencies := reshape_modes (frequencies st);
        r_normal_frequencies := reshape_modes (normal_frequencies st);
        r_hessian := h;
        r_projected_hessian := ph;
        r_forces := all_forces st;
        r_task_time := time st |}.

(** [NwOutput._parse_job] *)
Definition parse_job (output : string) : res job :=
  st ← scan output; finish st.

(** ** The preamble and the job splitter *)

(** [NwOutput._parse_preamble] *)
Definition parse_preamble_line (info : gmap string string) (line : string)
  : gmap string string :=
  let tokens := PyStr.split "=" line in
  if (1 <? length tokens)%nat
  then <[PyStr.strip (hd EmptyString tokens) :=
           PyStr.strip (List.last tokens EmptyString)]> info
  else info.

Definition parse_preamble (preamble : string) : gmap string string :=
  foldl parse_preamble_line ∅ (PyStr.split (String "010" EmptyString) preamble).

(** [NwOutput.__init__], from the text read from the file. *)
Definition NwOutput_init (text : string) : res nwoutput :=
  let chunks := PyStr.split "NWChem Input Module" text in
  last_chunk ← py_last chunks;
  let chunks := if PyStr.contains "CITATION" last_chunk
                then removelast chunks else chunks in
  match chunks with
  | [] => Raise IndexError
  | preamble :: chunks' =>
      let info := parse_preamble preamble in
      js ← mapM parse_job chunks';
      Ok {| raw := text; job_info := info; jobs := js |}
  end.

(** ** The TDDFT root extractor *)

Definition get_roots (m : multiplicity) (r : roots) : list root :=
  match m with
  | Singlet => singlet r
  | Triplet => triplet r
  end.

Definition set_roots (m : multiplicity) (l : list root) (r : roots) : roots :=
  match m with
  | Singlet => {| singlet := l; triplet := triplet r |}
  | Triplet => {| singlet := singlet r; triplet := l |}
  end.

Definition tddft_init : tddft_state :=
  {| mult := Singlet; inside := false;
     found := {| singlet := []; triplet := [] |} |}.

Definition tddft_line (st : tddft_state) (raw_line : string) : res tddft_state :=
  let line := PyStr.strip raw_line in
  if PyStr.contains "Convergence criterion met" line then
    Ok {| mult := mult st; inside := true; found := found st |}
  else if PyStr.contains "Excited state energy" line then
    Ok {| mult := mult st; inside := false; found := found st |}
  else if PyStr.contains "singlet excited" line then
    Ok {| mult := Singlet; inside := inside st; found := found st |}
  else if PyStr.contains "triplet excited" line then
    Ok {| mult := Triplet; inside := inside st; found := found st |}
  else if inside st && PyStr.contains "Root" line && PyStr.contains "eV" line
  then
    tok ← py_get (PyStr.split_ws line) (-2);
    e ← float_res tok;
    let l := get_roots (mult st) (found st) in
    Ok {| mult := mult st; inside := inside st;
          found := set_roots (mult st)
                     (l ++ [{| energy := e; osc_strength := None |}])
                     (found st) |}
  else if inside st && PyStr.contains "Dipole Oscillator Strength" line then
    tok ← py_get (PyStr.split_ws line) (-1);
    osc ← float_res tok;
    let l := get_roots (mult st) (found st) in
    l' ← py_alter (fun r => {| energy := energy r; osc_strength := Some osc |})
           l (-1);
    Ok {| mult := mult st; inside := inside st;
          found := set_roots (mult st) l' (found st) |}
  else Ok st.

(** [NwOutput.parse_tddft], from the attribute [raw]. *)
Definition parse_tddft (raw_text : string) : res roots :=
  st ← foldM tddft_line tddft_init
         (PyStr.split (String "010" EmptyString) raw_text);
  Ok (found st).

(** ** The spectrum synthesizer *)

Context {ops : FloatOps Float}.

(** [epad], [emin], [emax] and the first [de]; [en] is not empty. *)
Definition spectrum_emin (en0 width : Float) : Float :=
  fsub en0 (fmul (of_dec 20) width).

Definition spectrum_emax (en_last width : Float) : Float :=
  fadd en_last (fmul (of_dec 20) width).

Definition spectrum_de (emin emax : Float) (npoints : Z) : Float :=
  fdiv (fsub emax emin) (of_int npoints).

(** The builtin [max] of two arguments: the second when it is greater than
    the first, the first otherwise. *)
Definition py_max (a b : Float) : Float := if flt a b then b else a.

(** [width = max(width, 2 * de)] *)
Definition effective_width (width de : Float) : Float :=
  py_max width (fmul (of_int 2) de).

(** [[emin + ie * de for ie in range(npoints)]] *)
Definition spectrum_grid (emin de : Float) (npoints : Z) : list Float :=
  map (fun ie => fadd emin (fmul (of_int (Z.of_nat ie)) de))
      (seq 0 (Z.to_nat npoints)).

(** [np.sum(stot[np.abs(xx0) <= cutoff])] for one grid energy, the terms
    added from left to right. *)
Definition lorentz_sum (en osc : list Float) (gamma_sqrd cutoff energy : Float)
  : Float :=
  foldl (fun acc eo =>
           let xx0 := fsub energy (fst eo) in
           if fle (fabs xx0) cutoff
           then fadd acc (fdiv (snd eo) (fadd (fmul xx0 xx0) gamma_sqrd))
           else acc)
        (of_int 0) (zip en osc).

(** [NwOutput.get_excitation_spectrum]; the result is the pair of lists
    given to [ExcitationSpectrum]. *)
Definition get_excitation_spectrum (raw_text : string) (width : Float)
    (npoints : Z) : res (list Float * list Float) :=
  rs ← parse_tddft raw_text;
  let data := singlet rs in
  let en := map energy data in
  osc ← mapM (fun d => of_opt KeyError (osc_strength d)) data;
  en0 ← py_get en 0;
  en_last ← py_get en (-1);
  let emin := spectrum_emin en0 width in
  let emax := spectrum_emax en_last width in
  let de := spectrum_de emin emax npoints in
  let width := effective_width width de in
  let energies := spectrum_grid emin de npoints in
  let cutoff := fmul (of_dec 20) width in
  let gamma := fmul (of_dec 0.5) width in
  let gamma_sqrd := fmul gamma gamma in
  e_last ← py_get energies (-1);
  e_first ← py_get energies 0;
  let de := fdiv (fsub e_last e_first)
                 (of_int (Z.of_nat (length energies) - 1)) in
  let prefac := fmul (fdiv gamma fpi) de in
  let y := map (fun energy =>
                  fmul (lorentz_sum en osc gamma_sqrd cutoff energy) prefac)
               energies in
  Ok (energies, y).

End Decoder.


(** ** A reference reading of the collaborators

    Used by the examples: a float is the exact rational its decimal text
    denotes (rounding to binary64 is left out), [float()] reads plain
    decimal texts with an optional exponent ([inf], [nan] and underscores
    between digits have no reading here), the constructors of molecules and
    structures accept everything, and the conversion factors are those of
    CODATA 2018. *)

Module Ref.

Fixpoint digits (s : string) (acc : Z) (n : nat) : Z * nat * string :=
  match s with
  | String c s' =>
      if PyStr.is_digit c
      then digits s' (acc * 10 + PyStr.digit_val c)%Z (S n)
      else (acc, n, s)
  | EmptyString => (acc, n, s)
  end.

Definition sign (s : string) : bool * string :=
  match s with
  | String "-" s' => (true, s')
  | String "+" s' => (false, s')
  | _ => (false, s)
  end.

(** [m * 10^e], with the sign. *)
Definition scale (neg : bool) (m e : Z) : Q :=
  let m := if neg then (- m)%Z else m in
  Qred (if (0 <=? e)%Z then inject_Z (m * 10 ^ e)
        else Qmake m (Z.to_pos (10 ^ (- e)))).

Definition dec_float (s : string) : option Q :=
  let '(neg, s1) := sign (PyStr.strip s) in
  let '(ip, ni, s2) := digits s1 0%Z 0 in
  let '(m, nf, s3) := match s2 with
                      | String "." s' => digits s' ip 0
                      | _ => (ip, 0, s2)
                      end in
  if Nat.eqb (ni + nf) 0 then None
  else
    match s3 with
    | EmptyString => Some (scale neg m (- Z.of_nat nf))
    | String c s' =>
        if Ascii.eqb c "e" || Ascii.eqb c "E" then
          let '(eneg, s4) := sign s' in
          let '(ev, ne, s5) := digits s4 0%Z 0 in
          match ne, s5 with
          | S _, EmptyString =>
              Some (scale neg m ((if eneg then - ev else ev) - Z.of_nat nf))
          | _, _ => None
          end
        else None
    end.

#[export] Instance ext : Extern := {|
  Float := Q;
  float := dec_float;
  Ha_to_eV x := Qred (x * 27.211386245988);
  kJmol_to_eV_atom x := Qred (x * 0.010364269656262174);
  Mol := list string * list (list Q);
  Struct := list (list Q) * list string * list (list Q);
  Molecule sp co := Ok (sp, co);
  Structure la sp co := Ok (la, sp, co)
|}.

#[export] Instance ops : FloatOps (@Float ext) := {|
  fadd x y := Qred (x + y);
  fsub x y := Qred (x - y);
  fmul x y := Qred (x * y);
  fdiv x y := Qred (x / y);
  fabs x := Qred (Qabs x);
  fle x y := Qle_bool x y;
  flt x y := negb (Qle_bool y x);
  of_int z := inject_Z z;
  of_dec q := Qred q;
  fpi := 884279719003555 # 281474976710656
|}.

End Ref.

Example dec_float_ex :
  Ref.dec_float "2.5" = Some (5 # 2) /\
  Ref.dec_float "-0.30" = Some (-3 # 10) /\
  Ref.dec_float (fort2py "4.5D+01") = Some (45 # 1) /\
  Ref.dec_float "abc" = None /\ Ref.dec_float "1.2.3" = None /\
  Ref.dec_float "." = None.
Proof. repeat split; reflexivity. Qed.

(** * Properties *)

(** ** The result monad *)

Lemma bind_ok {A B} (m : res A) (f : A -> res B) (b : B) :
  m ≫= f = Ok b -> exists a, m = Ok a /\ f a = Ok b.
Proof. destruct m as [a|e]; simpl; [eauto | discriminate]. Qed.

Lemma bind_of_ok {A B} (m : res A) (f : A -> res B) (a : A) :
  m = Ok a -> m ≫= f = f a.
Proof. intros ->. reflexivity. Qed.


(** Splits an equation [m ≫= f = Ok b] of the context into its steps. *)
Ltac res_inv :=
  repeat match goal with
         | H : Ok _ = Ok _ |- _ => injection H as H; try subst
         | H : Raise _ = Ok _ |- _ => discriminate H
         | H : _ ≫= _ = Ok _ |- _ =>
             let a := fresh "a" in
             let E := fresh "E" in
             apply bind_ok in H as (a & E & H)
         end.

(** ** Splitting text *)

Lemma append_cons (c : ascii) (s t : string) :
  String c s +:+ t = String c (s +:+ t).
Proof. reflexivity. Qed.

Lemma append_nil_r (s : string) : s +:+ EmptyString = s.
Proof.
  induction s as [|c s IH]; [reflexivity | now rewrite append_cons, IH].
Qed.

Lemma append_assoc (s1 s2 s3 : string) :
  (s1 +:+ s2) +:+ s3 = s1 +:+ (s2 +:+ s3).
Proof.
  induction s1 as [|c s1 IH]; [reflexivity | now rewrite !append_cons, IH].
Qed.

Lemma rev_onto_app (s acc : string) :
  PyStr.rev_onto s acc = PyStr.rev_onto s EmptyString +:+ acc.
Proof.
  revert acc. induction s as [|c s IH]; intros acc; simpl; [reflexivity|].
  rewrite IH, (IH (String c EmptyString)).
  rewrite append_assoc. reflexivity.
Qed.

Lemma rev_cons (c : ascii) (s : string) :
  PyStr.rev (String c s) = PyStr.rev s +:+ String c EmptyString.
Proof. unfold PyStr.rev. simpl. apply rev_onto_app. Qed.

Lemma contains_cons (sub : string) (c : ascii) (s : string) :
  PyStr.contains sub (String c s) = false ->
  PyStr.startswith sub (String c s) = false /\ PyStr.contains sub s = false.
Proof.
  simpl PyStr.contains. intros H. apply orb_false_elim in H. exact H.
Qed.

Lemma split_go_absent (sep : string) (s cur : string) :
  PyStr.contains sep s = false ->
  PyStr.split_go sep 0 cur s = [PyStr.rev cur +:+ s].
Proof.
  revert cur. induction s as [|c s IH]; intros cur H.
  - rewrite append_nil_r. reflexivity.
  - destruct (contains_cons _ _ _ H) as [Hp Hc].
    cbn [PyStr.split_go]. rewrite Hp, (IH _ Hc), rev_cons.
    rewrite append_assoc. reflexivity.
Qed.

(** A text in which the separator does not occur is not cut. *)
Lemma split_absent (sep s : string) :
  PyStr.contains sep s = false -> PyStr.split sep s = [s].
Proof. intros H. unfold PyStr.split. now rewrite split_go_absent. Qed.


(** Every character of the text satisfies [p]. *)
Fixpoint all_chars (p : ascii -> bool) (s : string) : bool :=
  match s with
  | EmptyString => true
  | String c s' => p c && all_chars p s'
  end.

Lemma all_chars_app (p : ascii -> bool) (s t : string) :
  all_chars p (s +:+ t) = all_chars p s && all_chars p t.
Proof.
  induction s as [|c s IH]; [reflexivity|].
  rewrite append_cons. simpl. now rewrite IH, andb_assoc.
Qed.

Lemma all_chars_rev (p : ascii -> bool) (s : string) :
  all_chars p (PyStr.rev s) = all_chars p s.
Proof.
  induction s as [|c s IH]; [reflexivity|].
  rewrite rev_cons, all_chars_app, IH. simpl.
  now rewrite andb_true_r, andb_comm.
Qed.

Lemma split_go_all_chars (p : ascii -> bool) (sep s : string) :
  forall (skip : nat) (cur : string),
  all_chars p cur = true -> all_chars p s = true ->
  Forall (fun l => all_chars p l = true) (PyStr.split_go sep skip cur s).
Proof.
  induction s as [|c s IH]; intros skip cur Hcur Hs.
  - destruct skip; simpl; repeat constructor; now rewrite all_chars_rev.
  - simpl in Hs. apply andb_prop in Hs as [Hc Hs].
    destruct skip as [|k]; cbn [PyStr.split_go].
    + destruct (PyStr.startswith sep (String c s)).
      * constructor; [now rewrite all_chars_rev | now apply IH].
      * apply IH; [simpl; now rewrite Hc, Hcur | exact Hs].
    + now apply IH.
Qed.

Lemma contains_char (c : ascii) (s : string) :
  PyStr.contains (String c EmptyString) s
  = negb (all_chars (fun a => negb (Ascii.eqb c a)) s).
Proof.
  induction s as [|a s IH]; [reflexivity|].
  simpl PyStr.contains. simpl all_chars. rewrite IH.
  destruct (Ascii.eqb c a); simpl; [reflexivity|].
  now destruct s.
Qed.


(** Case analysis of the scanners that returned, down to the assignments. *)
Ltac scan_cases :=
  repeat match goal with
         | H : Ok _ = Ok _ |- _ => injection H as <-
         | H : Raise _ = Ok _ |- _ => discriminate H
         | H : _ ≫= _ = Ok _ |- _ =>
             let a := fresh "a" in
             let E := fresh "E" in
             apply bind_ok in H as (a & E & H)
         | H : ?l = Ok _ |- _ =>
             match l with
             | context [match ?x with _ => _ end] => destruct x eqn:?
             end
         end;
  simpl; auto.

(** Closes a goal between terms that evaluate to the same value. *)
Ltac by_eval := vm_compute; reflexivity.

Section Facts.

Context {ext : Extern}.

(** ** The always-on checks leave the block flags alone *)

Lemma scan_errors_time_flags (line : string) (st : state) :
  let st' := scan_time line (scan_errors line st) in
  parse_geom st' = parse_geom st /\ parse_force st' = parse_force st /\
  parse_freq st' = parse_freq st /\
  parse_projected_freq st' = parse_projected_freq st /\
  parse_bset st' = parse_bset st /\ parse_hess st' = parse_hess st /\
  parse_proj_hess st' = parse_proj_hess st /\
  hessian st' = hessian st /\ projected_hessian st' = projected_hessian st.
Proof.
  unfold scan_time, scan_errors; simpl.
  destruct (parse_time st); [destruct (Re.search _ _)|]; simpl; tauto.
Qed.

(** ** C10: a projected hessian with no hessian before it *)

Definition proj_hess_header : string := "MASS-WEIGHTED PROJECTED HESSIAN".

(** C10.  A job chunk whose first line is the header
    [MASS-WEIGHTED PROJECTED HESSIAN] and whose second line is not blank, so
    that no [MASS-WEIGHTED NUCLEAR HESSIAN] block precedes, is not decoded:
    [_parse_job] raises [TypeError], from [len(hessian)] with [hessian] still
    [None]. *)
Theorem projected_hessian_without_hessian_raises
    (output l : string) (rest : list string) :
  PyStr.split (String "010" EmptyString) output = proj_hess_header :: l :: rest ->
  is_blank l = false ->
  parse_job output = Raise TypeError.
Proof.
  intros Hsplit Hl. unfold parse_job, scan. rewrite Hsplit.
  change (foldM (scan_line output) init_state (proj_hess_header :: l :: rest))
    with (scan_line output init_state proj_hess_header ≫=
            fun s => foldM (scan_line output) s (l :: rest)).
  assert (H1 : scan_line output init_state proj_hess_header
               = Ok (set_projected_hessian (Some [])
                       (set_parse_proj_hess true init_state)))
    by (vm_compute; reflexivity).
  rewrite H1. simpl mbind.
  change (foldM (scan_line output) ?s (l :: rest))
    with (scan_line output s l ≫= fun s' => foldM (scan_line output) s' rest).
  unfold scan_line.
  set (st0 := set_projected_hessian _ _).
  destruct (scan_errors_time_flags l st0)
    as (Hg & Hf & Hq & Hp & Hb & Hh & Hph & Hhe & _).
  set (st1 := scan_time l (scan_errors l st0)) in *.
  unfold scan_geom. rewrite Hg. simpl.
  unfold scan_block. rewrite Hf, Hq, Hp, Hb, Hh, Hph. simpl.
  unfold scan_proj_hess. rewrite Hl, Hhe. reflexivity.
Qed.

(** ** C5: a text without the job marker *)

Lemma parse_preamble_no_equals (text : string) :
  PyStr.contains "=" text = false -> parse_preamble text = ∅.
Proof.
  intros H. rewrite contains_char in H. apply negb_false_iff in H.
  unfold parse_preamble, PyStr.split.
  pose proof (split_go_all_chars _ (String "010" EmptyString) text 0
                EmptyString eq_refl H) as HF.
  induction HF as [|l ls Hl _ IH]; [reflexivity|].
  simpl. unfold parse_preamble_line at 2.
  rewrite split_absent.
  - exact IH.
  - rewrite contains_char. now rewrite Hl.
Qed.

(** C5, as the code has it.  A text in which neither the job marker
    [NWChem Input Module] nor [CITATION] occurs is constructed without an
    exception into a document with zero jobs; its preamble mapping is what
    the preamble parser reads from the entire text, which is the empty
    mapping when the text has no [=]. *)
Theorem no_marker_no_jobs (text : string) :
  PyStr.contains "NWChem Input Module" text = false ->
  PyStr.contains "CITATION" text = false ->
  NwOutput_init text
  = Ok {| raw := text; job_info := parse_preamble text; jobs := [] |}
  /\ (PyStr.contains "=" text = false -> parse_preamble text = ∅).
Proof.
  intros Hm Hc. split; [|apply parse_preamble_no_equals].
  unfold NwOutput_init. rewrite (split_absent _ _ Hm).
  change (py_last [text]) with (Ok (A := string) text).
  simpl mbind. rewrite Hc. reflexivity.
Qed.


(** ** C3: the regrouping of the displacements *)

(** The scalars of a list of triples, in order. *)
Definition flatten3 (l : list (Float * Float * Float)) : list Float :=
  concat (map (fun t => [t.1.1; t.1.2; t.2]) l).

Lemma triples_ind (P : list Float -> Prop) :
  P [] -> (forall x, P [x]) -> (forall x y, P [x; y]) ->
  (forall x y z l, P l -> P (x :: y :: z :: l)) ->
  forall l, P l.
Proof.
  intros H0 H1 H2 H3.
  fix IH 1.
  intros [|x [|y [|z l]]];
    [exact H0 | apply H1 | apply H2 | apply H3; apply IH].
Qed.

Lemma reshape3_length (l : list Float) :
  length (reshape3 l) = length l / 3.
Proof.
  induction l as [|x|x y|x y z l IH] using triples_ind; try reflexivity.
  cbn [reshape3 length]. rewrite IH.
  change (S (S (S (length l)))) with (3 + length l).
  replace (3 + length l) with (length l + 1 * 3) by lia.
  rewrite Nat.div_add by lia. lia.
Qed.

Lemma reshape3_flatten (l : list Float) :
  flatten3 (reshape3 l) = take (3 * (length l / 3)) l.
Proof.
  induction l as [|x|x y|x y z l IH] using triples_ind; try reflexivity.
  cbn [reshape3 length].
  change (S (S (S (length l)))) with (3 + length l).
  replace (3 + length l) with (length l + 1 * 3) by lia.
  rewrite Nat.div_add by lia.
  replace (3 * (length l / 3 + 1)) with (S (S (S (3 * (length l / 3))))) by lia.
  unfold flatten3 in *. cbn [map concat app take]. simpl. now rewrite IH.
Qed.

(** What the regrouping makes of one mode. *)
Definition regrouped (m : mode) (m' : Float * list (Float * Float * Float))
  : Prop :=
  m'.1 = m.1 /\ m'.2 = reshape3 m.2 /\
  length m'.2 = length m.2 / 3 /\
  flatten3 m'.2 = take (3 * (length m.2 / 3)) m.2.

Lemma reshape_modes_regrouped (fr : option (list mode)) (ms : list mode) :
  fr = Some ms ->
  exists ms', reshape_modes fr = Some ms' /\ Forall2 regrouped ms ms'.
Proof.
  intros ->. eexists; split; [reflexivity|].
  induction ms as [|m ms IH]; constructor; [|exact IH].
  repeat split; [apply reshape3_length | apply reshape3_flatten].
Qed.

(** C3, as the code has it.  In every decoded job record each collected
    mode, projected or normal, holds the consecutive triples of its flat
    displacement list: as many triples as a third of the number of scalars
    read, rounded down, made of the first scalars in order; one or two
    scalars left at the end are dropped.  The number of triples is the atom
    count only when three scalars per atom were read. *)
Theorem modes_regrouped_in_triples (output : string) (j : job) :
  parse_job output = Ok j ->
  exists st, scan output = Ok st /\
    (forall ms, frequencies st = Some ms ->
       exists ms', r_frequencies j = Some ms' /\ Forall2 regrouped ms ms') /\
    (forall ms, normal_frequencies st = Some ms ->
       exists ms', r_normal_frequencies j = Some ms' /\
                   Forall2 regrouped ms ms').
Proof.
  unfold parse_job. intros H. apply bind_ok in H as (st & Hst & H).
  exists st. split; [exact Hst|].
  unfold finish in H. res_inv. simpl.
  split; intros ms Hms; now apply reshape_modes_regrouped.
Qed.


(** ** C1: the completed hessian is symmetric *)

(** [h[i][j]] *)
Definition entry (h : list (list Float)) (i j : nat) : option Float :=
  h !! i ≫= fun r => r !! j.




(** The column [i] below the diagonal. *)
Definition below (h : list (list Float)) (i : nat) : list Float :=
  omap (fun j => entry h j i) (seq (S i) (length h - S i)).

(** The matrix once the rows before [k] are completed. *)
Definition sym_upto (k : nat) (h : list (list Float)) : list (list Float) :=
  imap (fun i r => if decide (i < k) then r ++ below h i else r) h.

Lemma sym_upto_lookup (k : nat) (h : list (list Float)) (i : nat) :
  sym_upto k h !! i
  = (fun r => if decide (i < k) then r ++ below h i else r) <$> h !! i.
Proof. unfold sym_upto. apply list_lookup_imap. Qed.

Lemma sym_upto_0 (h : list (list Float)) : sym_upto 0 h = h.
Proof.
  apply list_eq. intros i. rewrite sym_upto_lookup.
  destruct (h !! i); simpl; [|reflexivity].
  destruct (decide (i < 0)); [lia | reflexivity].
Qed.

Lemma sym_step_ok (ii jj : nat) (h : list (list Float)) (x : Float) :
  entry h jj ii = Some x ->
  sym_step ii h jj = Ok (alter (fun r => r ++ [x]) ii h).
Proof.
  unfold entry, sym_step. destruct (h !! jj) as [rj|]; [|discriminate].
  simpl. intros ->. reflexivity.
Qed.

Lemma sym_steps (ii : nat) (js : list nat) :
  forall (xs : list Float) (h : list (list Float)),
  Forall2 (fun j x => j <> ii /\ entry h j ii = Some x) js xs ->
  foldM (sym_step ii) h js = Ok (alter (fun r => r ++ xs) ii h).
Proof.
  induction js as [|j js IH]; intros xs h HF.
  - apply Forall2_nil_inv_l in HF as ->. simpl.
    rewrite list_alter_id; [reflexivity | intros; apply app_nil_r].
  - apply Forall2_cons_inv_l in HF as (x & xs' & [Hj Hx] & HF & ->).
    cbn [foldM]. rewrite (sym_step_ok _ _ _ _ Hx). simpl mbind.
    rewrite (IH xs').
    + rewrite list_alter_alter_eq. f_equal.
      apply list_alter_ext; [|reflexivity].
      intros r _. simpl. now rewrite <- app_assoc.
    + eapply Forall2_impl; [exact HF|].
      intros j' x' [Hj' Hx']. split; [exact Hj'|].
      unfold entry in *. rewrite list_lookup_alter_ne by congruence.
      exact Hx'.
Qed.

Lemma omap_total {A B} (f : A -> option B) (P : A -> Prop) (l : list A) :
  (forall a, a ∈ l -> P a /\ is_Some (f a)) ->
  Forall2 (fun a b => P a /\ f a = Some b) l (omap f l).
Proof.
  induction l as [|a l IH]; intros H; [constructor|].
  destruct (H a) as [HP [b Hb]]; [left|].
  simpl. rewrite Hb. constructor; [auto|].
  apply IH. intros a' Ha'. apply H. now right.
Qed.















(** ** C9: the basis summary *)

Lemma rep_is_Some {A} (p : ascii -> bool) (k : string -> option A) :
  (forall s, is_Some (k s)) -> forall s, is_Some (Re.rep p s k).
Proof.
  intros Hk. induction s as [|c s IH]; simpl; [apply Hk|].
  destruct (p c); [|apply Hk].
  destruct IH as [a ->]. eauto.
Qed.

(** [re.match(r"-+", t)] succeeds exactly on a text that starts with a dash. *)
Lemma dashes_match (t : string) :
  bool_decide (is_Some (Re.match_at Patt.dashes_patt t))
  = PyStr.startswith "-" t.
Proof.
  destruct t as [|c t]; [reflexivity|].
  unfold Re.match_at, Patt.dashes_patt. cbn [Re.run PyStr.startswith].
  destruct (Ascii.eqb "-" c); simpl; [|reflexivity].
  apply bool_decide_eq_true. apply rep_is_Some. eauto.
Qed.

Definition basis_example : string :=
  basis_tag +:+ "
  Tag  Description  Shells  Functions  Other  Type
  C  description  2  3  s
".

(** C9, as the code has it.  A line of the basis summary that is not blank
    and whose first token is [t0]: when [t0] is [Tag] and the row has at
    least five tokens, the row without its fifth token, lowered, becomes the
    header; when [t0] is [Tag] and the row has fewer than five tokens, the
    line raises [IndexError]; when [t0] starts with a dash, whatever
    follows, the row is ignored; any other row stores under [t0] the mapping
    from the header names after the first to the row's tokens after the
    first, as strings, paired in order up to the shorter of the two.  With
    the header row [Tag Description Shells Functions Other Type] and the
    data row [C description 2 3 s] the job record maps [C] to a mapping
    with exactly the keys description, shells, functions and type. *)
Theorem basis_summary_rows (st : state) (line t0 : string)
    (rest : list string) :
  is_blank line = false ->
  PyStr.split_ws line = t0 :: rest ->
  (t0 = "Tag" -> 4 <= length rest ->
     scan_bset line st
     = Ok (set_bset_header (map PyStr.lower (delete 4 (t0 :: rest))) st)) /\
  (t0 = "Tag" -> length rest < 4 -> scan_bset line st = Raise IndexError) /\
  (PyStr.startswith "-" t0 = true -> scan_bset line st = Ok st) /\
  (t0 <> "Tag" -> PyStr.startswith "-" t0 = false ->
     scan_bset line st
     = Ok (set_basis_set
             (<[t0 := dict_zip (tail (bset_header st)) rest]> (basis_set st))
             st)) /\
  (exists j, parse_job basis_example = Ok j /\
     r_basis_set j
     = {[ "C" := <["description" := "description"]>
                   (<["shells" := "2"]>
                      (<["functions" := "3"]> {[ "type" := "s" ]})) ]} /\
     forall m, r_basis_set j !! "C" = Some m ->
       dom m = ({[ "description"; "shells"; "functions"; "type" ]}
                  : gset string)).
Proof.
  intros Hb Hs.
  assert (Hscan : scan_bset line st =
            if negb (String.eqb t0 "Tag") && negb (PyStr.startswith "-" t0)
            then Ok (set_basis_set
                       (<[t0 := dict_zip (tail (bset_header st)) rest]>
                          (basis_set st)) st)
            else if String.eqb t0 "Tag" then
              h ← py_pop (t0 :: rest) 4;
              Ok (set_bset_header (map PyStr.lower h) st)
            else Ok st).
  { unfold scan_bset. rewrite Hb, Hs.
    change (py_get (t0 :: rest) 0) with (Ok (A := string) t0).
    simpl mbind. rewrite dashes_match. reflexivity. }
  split; [|split; [|split; [|split]]].
  - intros -> Hlen. rewrite Hscan. simpl.
    unfold py_pop. cbn [length].
    destruct (Nat.ltb_spec 4 (S (length rest))); [reflexivity | lia].
  - intros -> Hlen. rewrite Hscan. simpl.
    unfold py_pop. cbn [length].
    destruct (Nat.ltb_spec 4 (S (length rest))); [lia | reflexivity].
  - intros Hd. rewrite Hscan, Hd, andb_false_r.
    destruct (String.eqb_spec t0 "Tag") as [->|]; [discriminate | reflexivity].
  - intros Hne Hd. rewrite Hscan, Hd.
    destruct (String.eqb_spec t0 "Tag"); [contradiction | reflexivity].
  - match goal with
    | |- exists j, _ /\ r_basis_set j = ?M /\ _ =>
        assert (exists j, parse_job basis_example = Ok j /\ r_basis_set j = M)
          as (j & Hj & HM)
          by (eexists; split; vm_compute; reflexivity)
    end.
    exists j. split; [exact Hj|]. split; [exact HM|].
    intros m. rewrite HM, lookup_singleton_eq. intros [= <-].
    rewrite !dom_insert_L, dom_singleton_L. set_solver.
Qed.


(** ** C4: the TDDFT roots *)

Lemma py_get_last {A} (l : list A) (a : A) : py_last (l ++ [a]) = Ok a.
Proof.
  unfold py_last, py_get, py_pos. rewrite length_app. simpl length.
  destruct (Z.leb_spec 0 (-1)); [lia|]. cbn [andb].
  destruct (Z.leb_spec (- Z.of_nat (length l + 1)) (-1)); [|lia].
  simpl andb. simpl mbind.
  replace (Z.to_nat (Z.of_nat (length l + 1) + -1)) with (length l + 0) by lia.
  rewrite lookup_app_r by lia.
  replace (length l + 0 - length l) with 0 by lia. reflexivity.
Qed.

Lemma py_alter_last {A} (f : A -> A) (l : list A) (a : A) :
  py_alter f (l ++ [a]) (-1) = Ok (l ++ [f a]).
Proof.
  unfold py_alter, py_pos. rewrite length_app. simpl length.
  destruct (Z.leb_spec 0 (-1)); [lia|]. cbn [andb].
  destruct (Z.leb_spec (- Z.of_nat (length l + 1)) (-1)); [|lia].
  simpl andb. simpl mbind.
  replace (Z.to_nat (Z.of_nat (length l + 1) + -1)) with (length l + 0) by lia.
  now rewrite alter_app_r.
Qed.

Lemma get_set_roots (m : multiplicity) (l : list root) (r : roots) :
  get_roots m (set_roots m l r) = l.
Proof. now destruct m. Qed.

Lemma set_set_roots (m : multiplicity) (l l' : list root) (r : roots) :
  set_roots m l' (set_roots m l r) = set_roots m l' r.
Proof. now destruct m. Qed.

(** The line is none of the four tag lines, which come first in the chain. *)
Definition no_tag (line : string) : Prop :=
  PyStr.contains "Convergence criterion met" line = false /\
  PyStr.contains "Excited state energy" line = false /\
  PyStr.contains "singlet excited" line = false /\
  PyStr.contains "triplet excited" line = false.

Definition tddft_example : string :=
  "Convergence criterion met
singlet excited
Root 1 singlet a 0.09 a.u. 2.5 eV
Dipole Oscillator Strength 0.3
Excited state energy".

(** C4, as the code has it.  With the converged-root flag set, a line
    with [Root] and [eV] and none of the four tags tried before, whose
    second-to-last token converts, appends a root with that energy and no
    oscillator strength to the list of the current label, the singlet list
    under the singlet label and the triplet list under the triplet label,
    and leaves the other list as it is.  A line with [Dipole Oscillator
    Strength], none of the tags and not both [Root] and [eV], whose last
    token converts, stores that float as the oscillator strength of the last
    root of the list of the current label, and changes nothing else.  The
    crafted text yields one singlet root with energy 2.5 and oscillator
    strength 0.3, and no triplet root. *)
Theorem tddft_root_and_strength
    (st st' : tddft_state) (l1 l2 tok1 tok2 : string) (e o : Float)
    (rs : list root) (r : root) :
  inside st = true ->
  no_tag (PyStr.strip l1) ->
  PyStr.contains "Root" (PyStr.strip l1) = true ->
  PyStr.contains "eV" (PyStr.strip l1) = true ->
  py_get (PyStr.split_ws (PyStr.strip l1)) (-2) = Ok tok1 ->
  float tok1 = Some e ->
  inside st' = true ->
  no_tag (PyStr.strip l2) ->
  PyStr.contains "Root" (PyStr.strip l2) && PyStr.contains "eV" (PyStr.strip l2)
  = false ->
  PyStr.contains "Dipole Oscillator Strength" (PyStr.strip l2) = true ->
  py_get (PyStr.split_ws (PyStr.strip l2)) (-1) = Ok tok2 ->
  float tok2 = Some o ->
  (mult st = Singlet ->
   tddft_line st l1
   = Ok {| mult := Singlet; inside := true;
           found := {| singlet := singlet (found st)
                                  ++ [{| energy := e; osc_strength := None |}];
                       triplet := triplet (found st) |} |}) /\
  (mult st = Triplet ->
   tddft_line st l1
   = Ok {| mult := Triplet; inside := true;
           found := {| singlet := singlet (found st);
                       triplet := triplet (found st)
                                  ++ [{| energy := e;
                                         osc_strength := None |}] |} |}) /\
  (mult st' = Singlet -> singlet (found st') = rs ++ [r] ->
   tddft_line st' l2
   = Ok {| mult := Singlet; inside := true;
           found := {| singlet := rs ++ [{| energy := energy r;
                                            osc_strength := Some o |}];
                       triplet := triplet (found st') |} |}) /\
  (mult st' = Triplet -> triplet (found st') = rs ++ [r] ->
   tddft_line st' l2
   = Ok {| mult := Triplet; inside := true;
           found := {| singlet := singlet (found st');
                       triplet := rs ++ [{| energy := energy r;
                                            osc_strength := Some o |}] |} |}) /\
  (forall e25 o03, float "2.5" = Some e25 -> float "0.3" = Some o03 ->
     parse_tddft tddft_example
     = Ok {| singlet := [{| energy := e25; osc_strength := Some o03 |}];
             triplet := [] |}).
Proof.
  intros Hin (T1 & T2 & T3 & T4) HR HeV Htok1 He
         Hin' (U1 & U2 & U3 & U4) Hnot HD Htok2 Ho.
  assert (H1 : tddft_line st l1
               = Ok {| mult := mult st; inside := true;
                       found := set_roots (mult st)
                                  (get_roots (mult st) (found st)
                                     ++ [{| energy := e;
                                            osc_strength := None |}])
                                  (found st) |}).
  { unfold tddft_line. rewrite T1, T2, T3, T4, Hin, HR, HeV. cbn [andb].
    rewrite Htok1. simpl mbind. unfold float_res. rewrite He. reflexivity. }
  assert (H2 : get_roots (mult st') (found st') = rs ++ [r] ->
               tddft_line st' l2
               = Ok {| mult := mult st'; inside := true;
                       found := set_roots (mult st')
                                  (rs ++ [{| energy := energy r;
                                             osc_strength := Some o |}])
                                  (found st') |}).
  { intros Hrs. unfold tddft_line. rewrite U1, U2, U3, U4, Hin', HD.
    cbn [andb]. rewrite Hnot, Htok2. simpl mbind. unfold float_res.
    rewrite Ho. simpl mbind. rewrite Hrs, py_alter_last. reflexivity. }
  split; [|split; [|split; [|split]]].
  - intros Hm. rewrite H1, Hm. reflexivity.
  - intros Hm. rewrite H1, Hm. reflexivity.
  - intros Hm Hrs. rewrite H2; rewrite Hm; [reflexivity | exact Hrs].
  - intros Hm Hrs. rewrite H2; rewrite Hm; [reflexivity | exact Hrs].
  - intros e25 o03 H25 H03. vm_compute in H25, H03. vm_compute.
    rewrite H25, H03. reflexivity.
Qed.


(** ** A line read with no block open *)

Definition no_block (st : state) : Prop :=
  parse_geom st = false /\ parse_force st = false /\
  parse_freq st = false /\ parse_projected_freq st = false /\
  parse_bset st = false /\ parse_hess st = false /\
  parse_proj_hess st = false.

Lemma scan_line_no_block (output line : string) (st : state) :
  no_block st ->
  scan_line output st line
  = scan_idle output line (scan_time line (scan_errors line st)).
Proof.
  intros (Hg & Hf & Hq & Hp & Hb & Hh & Hph). unfold scan_line.
  destruct (scan_errors_time_flags line st)
    as (Fg & Ff & Fq & Fp & Fb & Fh & Fph & _).
  set (s0 := scan_time line (scan_errors line st)) in *.
  unfold scan_geom. rewrite Fg, Hg. simpl mbind.
  unfold scan_block.
  now rewrite Ff, Hf, Fq, Hq, Fp, Hp, Fb, Hb, Fh, Hh, Fph, Hph.
Qed.

Lemma scan_idle_energy (output line : string) (st : state) (m : Re.caps)
    (x : Float) :
  Re.search Patt.energy_patt line = Some m ->
  float (Re.group 1 m) = Some x ->
  scan_idle output line st
  = Ok (set_parse_time true
          (set_energies (energies st ++ [EScalar (Ha_to_eV x)]) st)).
Proof.
  intros Hm Hx. unfold scan_idle, Energy_eV, float_res.
  now rewrite Hm, Hx.
Qed.

Lemma scan_idle_other (output line : string) (st : state) :
  Re.search Patt.energy_patt line = None ->
  scan_idle output line st
  = scan_gas line st ≫= fun st1 =>
    scan_sol line st1 ≫= fun st2 => scan_headers output line st2.
Proof. intros Hm. unfold scan_idle. now rewrite Hm. Qed.

(** ** C7: the energies of a solvated run *)

Lemma set_last_energy_app (st : state) (es : list energy_entry)
    (e0 e : energy_entry) :
  energies st = es ++ [e0] ->
  set_last_energy e st = set_energies (es ++ [e]) st.
Proof.
  intros H. unfold set_last_energy. rewrite H, length_app. simpl length.
  replace (length es + 1 - 1) with (length es + 0) by lia.
  now rewrite alter_app_r.
Qed.

Definition solvated_example : string :=
  "Total DFT energy = -1.0
gas phase energy = -2.0
sol phase energy = -3.0".

(** C7.  A gas phase energy line replaces the last entry [e0] of
    [energies], the one just appended, by the dictionary with [e0] under
    [cosmo scf] and the converted value under [gas phase]; a sol phase line
    that finds a dictionary as last entry adds to it the converted value
    under [sol phase].  After a total energy line, a gas phase line and a
    sol phase line the one entry is the dictionary with the three keys. *)
Theorem gas_and_sol_phase_energies
    (st st' : state) (line line' : string) (m m' : Re.caps)
    (es es' : list energy_entry) (e0 : energy_entry)
    (d : list (string * energy_entry)) (g s : Float) :
  energies st = es ++ [e0] ->
  Re.search Patt.energy_gas_patt line = Some m ->
  float (Re.group 1 m) = Some g ->
  energies st' = es' ++ [EDict d] ->
  Re.search Patt.energy_sol_patt line' = Some m' ->
  float (Re.group 1 m') = Some s ->
  scan_gas line st
  = Ok (set_energies
          (es ++ [EDict [("cosmo scf", e0);
                         ("gas phase", EScalar (Ha_to_eV g))]]) st) /\
  scan_sol line' st'
  = Ok (set_energies
          (es' ++ [EDict (dict_set "sol phase" (EScalar (Ha_to_eV s)) d)])
          st') /\
  dict_set "sol phase" (EScalar (Ha_to_eV s))
    [("cosmo scf", e0); ("gas phase", EScalar (Ha_to_eV g))]
  = [("cosmo scf", e0); ("gas phase", EScalar (Ha_to_eV g));
     ("sol phase", EScalar (Ha_to_eV s))] /\
  (forall a b c,
     float "-1.0" = Some a -> float "-2.0" = Some b ->
     float "-3.0" = Some c ->
     exists j, parse_job solvated_example = Ok j /\
       r_energies j
       = [EDict [("cosmo scf", EScalar (Ha_to_eV a));
                 ("gas phase", EScalar (Ha_to_eV b));
                 ("sol phase", EScalar (Ha_to_eV c))]]).
Proof.
  intros He Hm Hg He' Hm' Hs. split; [|split; [|split]].
  - unfold scan_gas. rewrite Hm, He, py_get_last. simpl mbind.
    unfold Energy_eV, float_res. rewrite Hg. simpl mbind.
    now rewrite (set_last_energy_app _ _ _ _ He).
  - unfold scan_sol. rewrite Hm', He', py_get_last. simpl mbind.
    unfold Energy_eV, float_res. rewrite Hs. simpl mbind.
    now rewrite (set_last_energy_app _ _ _ _ He').
  - reflexivity.
  - intros a b c Ha Hb Hc.
    set (l1 := "Total DFT energy = -1.0").
    set (l2 := "gas phase energy = -2.0").
    set (l3 := "sol phase energy = -3.0").
    set (e1 := EScalar (Ha_to_eV a)).
    set (d2 := [("cosmo scf", e1); ("gas phase", EScalar (Ha_to_eV b))]).
    set (d3 := d2 ++ [("sol phase", EScalar (Ha_to_eV c))]).
    set (s1 := set_parse_time true (set_energies [e1] init_state) : state).
    set (s2 := set_energies [EDict d2] s1).
    set (s3 := set_energies [EDict d3] s2).
    assert (H1 : scan_line solvated_example init_state l1 = Ok s1).
    { rewrite scan_line_no_block by (repeat split).
      assert (Hm1 : Re.search Patt.energy_patt l1 = Some [(1, "-1.0")])
        by by_eval.
      rewrite (scan_idle_energy solvated_example l1 _ _ a Hm1 Ha).
      by_eval. }
    assert (H2 : scan_line solvated_example s1 l2 = Ok s2).
    { rewrite scan_line_no_block by (repeat split).
      rewrite scan_idle_other by by_eval.
      replace (scan_time l2 (scan_errors l2 s1)) with s1 by by_eval.
      assert (Hgas : scan_gas l2 s1 = Ok s2).
      { unfold scan_gas.
        replace (Re.search Patt.energy_gas_patt l2)
          with (Some [(1, "-2.0")]) by by_eval.
        unfold Energy_eV, float_res. simpl Re.group. rewrite Hb.
        reflexivity. }
      rewrite Hgas. simpl mbind.
      replace (scan_sol l2 s2) with (Ok s2) by by_eval.
      by_eval. }
    assert (H3 : scan_line solvated_example s2 l3 = Ok s3).
    { rewrite scan_line_no_block by (repeat split).
      rewrite scan_idle_other by by_eval.
      replace (scan_time l3 (scan_errors l3 s2)) with s2 by by_eval.
      replace (scan_gas l3 s2) with (Ok s2) by by_eval.
      simpl mbind.
      assert (Hsol : scan_sol l3 s2 = Ok s3).
      { unfold scan_sol.
        replace (Re.search Patt.energy_sol_patt l3)
          with (Some [(1, "-3.0")]) by by_eval.
        unfold Energy_eV, float_res. simpl Re.group. rewrite Hc.
        reflexivity. }
      rewrite Hsol. simpl mbind. by_eval. }
    exists {| r_data := ∅; r_job_type := EmptyString;
              r_energies := [EDict d3]; r_corrections := ∅;
              r_molecules := []; r_structures := []; r_basis_set := ∅;
              r_errors := []; r_has_error := false;
              r_frequencies := None; r_normal_frequencies := None;
              r_hessian := None; r_projected_hessian := None;
              r_forces := []; r_task_time := PInt 0 |}.
    split; [|reflexivity].
    unfold parse_job, scan.
    replace (PyStr.split (String "010" EmptyString) solvated_example)
      with [l1; l2; l3] by by_eval.
    cbn [foldM]. rewrite H1. simpl mbind. rewrite H2. simpl mbind.
    rewrite H3. reflexivity.
Qed.


(** ** C8: the task time *)


(** What a block scanner leaves alone. *)
Definition keeps_time (st st' : state) : Prop :=
  time st' = time st /\ parse_time st' = parse_time st.













Lemma scan_errors_time (line : string) (st : state) :
  keeps_time st (scan_errors line st).
Proof. split; reflexivity. Qed.











(** ** C2: which malformed lines are skipped *)

(** A line that the hessian blocks do not read as a row of values: fewer
    than two tokens, a first token that is not an integer, or a second token
    without a decimal point. *)
Definition not_data_row (line : string) : Prop :=
  match PyStr.split_ws (PyStr.strip line) with
  | t0 :: t1 :: _ => PyStr.int t0 = None \/ isfloatstring t1 = true
  | _ => True
  end.

Lemma hess_row_skips (line : string) (oh : option (list (list Float))) :
  not_data_row line -> hess_row line oh = Ok None.
Proof.
  unfold not_data_row, hess_row.
  destruct (PyStr.split_ws (PyStr.strip line)) as [|t0 [|t1 ts]];
    [reflexivity | reflexivity |].
  intros [-> | Hf]; [reflexivity|].
  destruct (PyStr.int t0); [now rewrite Hf | reflexivity].
Qed.


End Facts.

(** ** The spectrum synthesizer, step by step *)

Section SpectrumSteps.

Context {ext : Extern} {ops : FloatOps Float}.

(** The result of the synthesizer once every lookup it makes succeeds. *)
Lemma get_excitation_spectrum_ok
    (raw_text : string) (rs : roots) (osc : list Float)
    (en0 en_last e_first e_last width : Float) (npoints : Z) :
  parse_tddft raw_text = Ok rs ->
  mapM (fun d => of_opt KeyError (osc_strength d)) (singlet rs) = Ok osc ->
  py_get (map energy (singlet rs)) 0 = Ok en0 ->
  py_get (map energy (singlet rs)) (-1) = Ok en_last ->
  let emin := spectrum_emin en0 width in
  let emax := spectrum_emax en_last width in
  let de := spectrum_de emin emax npoints in
  let W := effective_width width de in
  let energies := spectrum_grid emin de npoints in
  py_get energies (-1) = Ok e_last ->
  py_get energies 0 = Ok e_first ->
  exists prefac,
    get_excitation_spectrum raw_text width npoints
    = Ok (energies,
          map (fun x =>
                 fmul (lorentz_sum (map energy (singlet rs)) osc
                         (fmul (fmul (of_dec 0.5) W) (fmul (of_dec 0.5) W))
                         (fmul (of_dec 20) W) x)
                      prefac) energies).
Proof.
  intros Hrs Hosc H0 H1 emin emax de W energies Hl Hf.
  unfold get_excitation_spectrum.
  rewrite (bind_of_ok _ _ _ Hrs), (bind_of_ok _ _ _ Hosc).
  rewrite (bind_of_ok _ _ _ H0), (bind_of_ok _ _ _ H1).
  fold emin emax de W energies.
  rewrite (bind_of_ok _ _ _ Hl), (bind_of_ok _ _ _ Hf).
  eexists. reflexivity.
Qed.

End SpectrumSteps.


(** ** C6: the energy grid of the spectrum *)

Section Spectrum.

Context {ext : Extern} {ops : FloatOps Float}.

Lemma py_get_head {A} (a : A) (l : list A) : py_get (a :: l) 0 = Ok a.
Proof.
  unfold py_get, py_pos. cbn [length].
  destruct (Z.ltb_spec 0 (Z.of_nat (S (length l)))); [reflexivity | lia].
Qed.

Lemma grid_length (emin de : Float) (npoints : Z) :
  length (spectrum_grid emin de npoints) = Z.to_nat npoints.
Proof. unfold spectrum_grid. now rewrite length_map, length_seq. Qed.

Lemma grid_lookup (emin de : Float) (npoints : Z) (i : nat) :
  (i < Z.to_nat npoints)%nat ->
  spectrum_grid emin de npoints !! i
  = Some (fadd emin (fmul (of_int (Z.of_nat i)) de)).
Proof.
  intros Hi. unfold spectrum_grid. rewrite list_lookup_fmap.
  now rewrite lookup_seq_lt by exact Hi.
Qed.

Lemma py_get_nonneg {A} (l : list A) (i : nat) :
  (i < length l)%nat -> py_get l (Z.of_nat i) = of_opt IndexError (l !! i).
Proof.
  intros Hi. unfold py_get, py_pos.
  destruct (Z.leb_spec 0 (Z.of_nat i)); [|lia].
  destruct (Z.ltb_spec (Z.of_nat i) (Z.of_nat (length l))); [|lia].
  simpl. now rewrite Nat2Z.id.
Qed.

Lemma py_get_neg {A} (l : list A) (k : nat) :
  (0 < k <= length l)%nat ->
  py_get l (- Z.of_nat k) = of_opt IndexError (l !! (length l - k)%nat).
Proof.
  intros Hk. unfold py_get, py_pos.
  destruct (Z.leb_spec 0 (- Z.of_nat k)); [lia|]. cbn [andb].
  destruct (Z.leb_spec (- Z.of_nat (length l)) (- Z.of_nat k)); [|lia].
  destruct (Z.ltb_spec (- Z.of_nat k) 0); [|lia].
  simpl. f_equal. f_equal. lia.
Qed.

Lemma py_get_first_energy (data : list root) (r : root) :
  data !! 0%nat = Some r -> py_get (map energy data) 0 = Ok (energy r).
Proof.
  intros H. destruct data as [|r' data]; [discriminate|].
  injection H as ->. apply py_get_head.
Qed.

Lemma py_get_last_energy (pre : list root) (r : root) :
  py_get (map energy (pre ++ [r])) (-1) = Ok (energy r).
Proof. rewrite map_app. apply (py_get_last (map energy pre)). Qed.

(** C6, as the code has it, in the arithmetic of the floats whatever it
    is.  For singlet roots that all carry an oscillator strength and at
    least one point, the synthesizer returns a grid of the requested number
    of points whose point [i] is [emin + i * de], where [emin] is the energy
    of the first root minus 20 times the width, [emax] the energy of the
    last root plus 20 times the width and [de = (emax - emin) / npoints],
    each operation being the one of the floats: the grid starts from
    [emin + 0 * de] and its last point is [emin + (npoints - 1) * de].  The
    width [W] it uses, for the cutoff [20 * W] and for
    [gamma = 0.5 * W], is [2 * de] when the supplied width is less than
    [2 * de], and the supplied width otherwise. *)
Theorem spectrum_grid_and_width
    (raw_text : string) (rs : roots) (r_first r_last : root)
    (pre : list root) (osc : list Float) (width : Float) (npoints : Z) :
  parse_tddft raw_text = Ok rs ->
  singlet rs !! 0%nat = Some r_first ->
  singlet rs = pre ++ [r_last] ->
  mapM (fun d => of_opt KeyError (osc_strength d)) (singlet rs) = Ok osc ->
  (1 <= npoints)%Z ->
  let emin := fsub (energy r_first) (fmul (of_dec 20) width) in
  let emax := fadd (energy r_last) (fmul (of_dec 20) width) in
  let de := fdiv (fsub emax emin) (of_int npoints) in
  let W := if flt width (fmul (of_int 2) de)
           then fmul (of_int 2) de else width in
  exists (xs ys : list Float) (prefac : Float),
    get_excitation_spectrum raw_text width npoints = Ok (xs, ys) /\
    length xs = Z.to_nat npoints /\
    (forall i, (i < Z.to_nat npoints)%nat ->
       xs !! i = Some (fadd emin (fmul (of_int (Z.of_nat i)) de))) /\
    ys = map (fun x =>
                fmul (lorentz_sum (map energy (singlet rs)) osc
                        (fmul (fmul (of_dec 0.5) W) (fmul (of_dec 0.5) W))
                        (fmul (of_dec 20) W) x)
                     prefac) xs.
Proof.
  intros Hrs Hfirst Hlast Hosc Hn emin emax de W.
  pose proof (grid_lookup emin de npoints 0) as H0.
  pose proof (grid_lookup emin de npoints (Z.to_nat npoints - 1)) as H1.
  destruct (get_excitation_spectrum_ok raw_text rs osc
              (energy r_first) (energy r_last)
              (fadd emin (fmul (of_int (Z.of_nat 0)) de))
              (fadd emin (fmul (of_int (Z.of_nat (Z.to_nat npoints - 1))) de))
              width npoints)
    as [prefac Hget].
  { exact Hrs. }
  { exact Hosc. }
  { exact (py_get_first_energy _ _ Hfirst). }
  { rewrite Hlast. apply py_get_last_energy. }
  { change (spectrum_grid (spectrum_emin (energy r_first) width)
              (spectrum_de (spectrum_emin (energy r_first) width)
                 (spectrum_emax (energy r_last) width) npoints) npoints)
      with (spectrum_grid emin de npoints).
    rewrite (py_get_neg _ 1) by (rewrite grid_length; lia).
    rewrite grid_length, H1 by lia. reflexivity. }
  { change (spectrum_grid (spectrum_emin (energy r_first) width)
              (spectrum_de (spectrum_emin (energy r_first) width)
                 (spectrum_emax (energy r_last) width) npoints) npoints)
      with (spectrum_grid emin de npoints).
    rewrite (py_get_nonneg _ 0) by (rewrite grid_length; lia).
    rewrite H0 by lia. reflexivity. }
  exists (spectrum_grid emin de npoints). eexists. exists prefac.
  split; [exact Hget|]. split; [apply grid_length|].
  split; [intros i Hi; now apply grid_lookup | reflexivity].
Qed.

End Spectrum.

(** * The claims at concrete inputs

    The collaborators are read as in [Ref]. *)

Section Examples.

#[local] Existing Instance Ref.ext.
#[local] Existing Instance Ref.ops.

(** ** C1 *)

Definition hessian_example : string :=
  " MASS-WEIGHTED NUCLEAR HESSIAN (Hartree/Bohr/Bohr/Kamu)
 ----------------------------------------------------


               1            2            3
   ----- ----- ----- ----- -----
    1    4.0D+01
    2    1.5D+00  2.0D+01
    3    2.5D+00  3.5D+00  5.0D+00
 ------------------------------------
".




Example hessian_example_decoded :
  exists j, parse_job hessian_example = Ok j /\
    r_hessian j
    = Some [[40 # 1; 3 # 2; 5 # 2]; [3 # 2; 20 # 1; 7 # 2];
            [5 # 2; 7 # 2; 5 # 1]].
Proof. eexists. split; by_eval. Qed.

(** ** C2 *)

Definition bad_frequency_example : string :=
  " Frequency   1.0
   1  abc".

(** C2 fails: a frequency row with a token that is not a number makes the
    decode raise [ValueError]. *)
Lemma unparseable_frequency_row_raises :
  parse_job bad_frequency_example = Raise ValueError.
Proof. by_eval. Qed.

(** ** C3 *)

Definition frequency_example : string :=
  "  No. of atoms     :     2
 Frequency   1.0

   1  0.1
   2  0.2
   3  0.3
   4  0.4

".

(** C3 fails: with an atom count of 2 and four scalars read, the mode has
    one triple, and the fourth scalar is dropped. *)
Lemma displacements_not_atom_count :
  exists j, parse_job frequency_example = Ok j /\
    r_data j !! "natoms" = Some (PInt 2) /\
    r_normal_frequencies j
    = Some [(1 # 1, [(1 # 10, 1 # 5, 3 # 10)])].
Proof. eexists. split; [by_eval|]. split; by_eval. Qed.

Lemma modes_regrouped_in_triples_witness :
  exists st, scan frequency_example = Ok st /\
    forall ms, normal_frequencies st = Some ms ->
      exists ms', Forall2 regrouped ms ms'.
Proof.
  assert (E : exists j, parse_job frequency_example = Ok j)
    by (eexists; by_eval).
  destruct E as (j & Hj).
  destruct (modes_regrouped_in_triples frequency_example j Hj)
    as (st & Hst & _ & Hn).
  exists st. split; [exact Hst|].
  intros ms Hms. destruct (Hn ms Hms) as (ms' & _ & HF).
  exists ms'. exact HF.
Defined.

(** ** C4 *)

Definition singlet_root_example : root :=
  {| energy := 7 # 2; osc_strength := Some (1 # 10) |}.

Lemma tddft_root_and_strength_witness :
  parse_tddft tddft_example
  = Ok {| singlet := [{| energy := 5 # 2; osc_strength := Some (3 # 10) |}];
          triplet := [] |} /\
  tddft_line {| mult := Triplet; inside := true;
                found := {| singlet := [singlet_root_example];
                            triplet := [] |} |}
    "Root 1 triplet a 0.09 a.u. 2.5 eV"
  = Ok {| mult := Triplet; inside := true;
          found := {| singlet := [singlet_root_example];
                      triplet := [{| energy := 5 # 2;
                                     osc_strength := None |}] |} |} /\
  tddft_line {| mult := Triplet; inside := true;
                found := {| singlet := [singlet_root_example];
                            triplet := [{| energy := 5 # 2;
                                           osc_strength := None |}] |} |}
    "Dipole Oscillator Strength 0.3"
  = Ok {| mult := Triplet; inside := true;
          found := {| singlet := [singlet_root_example];
                      triplet := [{| energy := 5 # 2;
                                     osc_strength := Some (3 # 10) |}] |} |}.
Proof.
  pose (r := {| energy := 5 # 2; osc_strength := None |} : root).
  pose (st := {| mult := Triplet; inside := true;
                 found := {| singlet := [singlet_root_example];
                             triplet := [] |} |}
              : tddft_state).
  pose (st' := {| mult := Triplet; inside := true;
                  found := {| singlet := [singlet_root_example];
                              triplet := [r] |} |}
               : tddft_state).
  destruct (tddft_root_and_strength st st'
              "Root 1 triplet a 0.09 a.u. 2.5 eV"
              "Dipole Oscillator Strength 0.3" "2.5" "0.3"
              (5 # 2) (3 # 10) [] r) as (_ & H1 & _ & H2 & H).
  - reflexivity.
  - split; [by_eval|]. split; [by_eval|]. split; by_eval.
  - by_eval.
  - by_eval.
  - by_eval.
  - by_eval.
  - reflexivity.
  - split; [by_eval|]. split; [by_eval|]. split; by_eval.
  - by_eval.
  - by_eval.
  - by_eval.
  - by_eval.
  - split; [exact (H (5 # 2) (3 # 10) eq_refl eq_refl)|].
    split; [exact (H1 eq_refl) | exact (H2 eq_refl eq_refl)].
Defined.

(** C4 fails as it is worded: with the flag set, a line with [Root] and
    [eV] that also has a tag is read as the tag and appends no root, and a
    root line whose second-to-last token is no number raises
    [ValueError]. *)
Lemma root_line_with_tag_appends_nothing :
  tddft_line {| mult := Triplet; inside := true;
                found := {| singlet := []; triplet := [] |} |}
    "Root 1 singlet excited 2.5 eV"
  = Ok {| mult := Singlet; inside := true;
          found := {| singlet := []; triplet := [] |} |} /\
  parse_tddft "Convergence criterion met
Root eV" = Raise ValueError.
Proof. split; by_eval. Qed.

(** ** C5 *)

(** C5 fails: a text without the job marker can have a preamble mapping
    that is not empty. *)
Lemma no_marker_preamble_not_empty :
  PyStr.contains "NWChem Input Module" "a = b" = false /\
  exists d, NwOutput_init "a = b" = Ok d /\ jobs d = [] /\
            job_info d !! "a" = Some "b".
Proof.
  split; [by_eval|]. eexists. split; [by_eval|]. split; by_eval.
Qed.

Lemma no_marker_no_jobs_witness :
  NwOutput_init "a = b"
  = Ok {| raw := "a = b"; job_info := parse_preamble "a = b"; jobs := [] |}.
Proof. apply (no_marker_no_jobs "a = b"); by_eval. Defined.

(** ** C6 *)

Definition spectrum_example : string :=
  "Convergence criterion met
Root 1 singlet a 0.11 a.u. 3.0 eV
Dipole Oscillator Strength 1.0
Root 2 singlet a 0.04 a.u. 1.0 eV
Dipole Oscillator Strength 1.0
".

(** C6 fails: with the roots at 3 and 1, a width of 1/2 and four points,
    the grid starts at [3 - 10], the first root's energy minus the pad, and
    not at the least energy minus the pad, [1 - 10]; and it ends at
    [13/2], one step before [1 + 10], and not at the greatest energy plus
    the pad, [3 + 10]. *)
Lemma grid_from_first_root_not_least :
  (exists rs, parse_tddft spectrum_example = Ok rs /\
     map energy (singlet rs) = [3 # 1; 1 # 1]) /\
  (exists ys, get_excitation_spectrum spectrum_example (1 # 2) 4
              = Ok ([-7 # 1; -5 # 2; 2 # 1; 13 # 2], ys)) /\
  ~ (-7 # 1 == (1 # 1) - 20 * (1 # 2))%Q /\
  ~ (13 # 2 == (3 # 1) + 20 * (1 # 2))%Q.
Proof.
  split; [eexists; split; by_eval|].
  split; [eexists; by_eval|].
  split; intros H; vm_compute in H; discriminate H.
Qed.

Lemma spectrum_grid_and_width_witness :
  exists xs ys, get_excitation_spectrum spectrum_example (1 # 2) 4
                = Ok (xs, ys) /\
    xs = [-7 # 1; -5 # 2; 2 # 1; 13 # 2].
Proof.
  pose (r1 := {| energy := 3 # 1; osc_strength := Some (1 # 1) |} : root).
  pose (r2 := {| energy := 1 # 1; osc_strength := Some (1 # 1) |} : root).
  destruct (spectrum_grid_and_width (ext := Ref.ext) (ops := Ref.ops)
              spectrum_example
              {| singlet := [r1; r2]; triplet := [] |} r1 r2 [r1]
              [1 # 1; 1 # 1] (1 # 2) 4)
    as (xs & ys & prefac & Hget & Hlen & Hx & _).
  - by_eval.
  - reflexivity.
  - reflexivity.
  - reflexivity.
  - lia.
  - exists xs, ys. split; [exact Hget|].
    apply list_eq. intros i.
    destruct (Nat.lt_ge_cases i 4) as [Hi | Hi].
    + rewrite (Hx i Hi).
      destruct i as [|[|[|[|i]]]]; [by_eval | by_eval | by_eval | by_eval | lia].
    + rewrite !lookup_ge_None_2; [reflexivity | simpl; lia | lia].
Defined.

(** ** C7 *)

Lemma gas_and_sol_phase_energies_witness :
  exists j, parse_job solvated_example = Ok j /\
    r_energies j
    = [EDict [("cosmo scf", EScalar (Ha_to_eV (-1 # 1)));
              ("gas phase", EScalar (Ha_to_eV (-2 # 1)));
              ("sol phase", EScalar (Ha_to_eV (-3 # 1)))]].
Proof.
  pose (e0 := EScalar (Ha_to_eV (-1 # 1)) : energy_entry).
  pose (d := [("cosmo scf", e0);
              ("gas phase", EScalar (Ha_to_eV (-2 # 1)))]
             : list (string * energy_entry)).
  destruct (gas_and_sol_phase_energies
              (set_energies [e0] init_state)
              (set_energies [EDict d] init_state)
              "gas phase energy = -2.0" "sol phase energy = -3.0"
              [(1, "-2.0")] [(1, "-3.0")] [] [] e0 d (-2 # 1) (-3 # 1))
    as (_ & _ & _ & H).
  - reflexivity.
  - by_eval.
  - by_eval.
  - reflexivity.
  - by_eval.
  - by_eval.
  - exact (H (-1 # 1) (-2 # 1) (-3 # 1) eq_refl eq_refl eq_refl).
Defined.

(** ** C8 *)



(** ** C9 *)

Lemma basis_summary_rows_witness :
  scan_bset "  C  description  2  3  s"
    (set_bset_header ["tag"; "description"; "shells"; "functions"; "type"]
       init_state)
  = Ok (set_basis_set
          {[ "C" := dict_zip ["description"; "shells"; "functions"; "type"]
                      ["description"; "2"; "3"; "s"] ]}
          (set_bset_header
             ["tag"; "description"; "shells"; "functions"; "type"]
             init_state) : state).
Proof.
  refine (eq_trans
            (proj1 (proj2 (proj2 (proj2
               (basis_summary_rows
                  (set_bset_header
                     ["tag"; "description"; "shells"; "functions"; "type"]
                     init_state)
                  "  C  description  2  3  s" "C"
                  ["description"; "2"; "3"; "s"] _ _)))) _ _) _).
  - by_eval.
  - by_eval.
  - discriminate.
  - reflexivity.
  - by_eval.
Defined.

Definition dash_row_example : string :=
  basis_tag +:+ "
  Tag  Description  Shells  Functions  Other  Type
  -C  description  2  3  s
".

(** C9 fails: the row [-C description 2 3 s] is no row of dashes, and it
    is ignored: the job record has no basis set entry. *)
Lemma dash_prefixed_row_not_mapped :
  exists j, parse_job dash_row_example = Ok j /\ r_basis_set j = ∅.
Proof. eexists. split; by_eval. Qed.

(** ** C10 *)

Definition projected_only_example : string :=
  "MASS-WEIGHTED PROJECTED HESSIAN
    1    4.0D+01".

Lemma projected_hessian_without_hessian_raises_witness :
  parse_job projected_only_example = Raise TypeError.
Proof.
  apply (projected_hessian_without_hessian_raises projected_only_example
           "    1    4.0D+01" []); by_eval.
Defined.


End Examples.

(** * Further properties of the decoder *)

Section Invariants.

Context {ext : Extern}.

(** ** The error tags *)

(** The tags of the signatures found in a line, in the order of the table. *)
Definition error_tags (line : string) : list string :=
  map snd (List.filter (fun ev => PyStr.contains (fst ev) line) error_defs).

Lemma scan_geom_errors (line : string) (st st' : state) :
  scan_geom line st = Ok st' -> errors st' = errors st.
Proof. unfold scan_geom, float3. intros H. scan_cases. Qed.

Lemma scan_block_errors (output line : string) (st st' : state) :
  scan_block output line st = Ok st' -> errors st' = errors st.
Proof.
  unfold scan_block, scan_force, scan_freq, scan_projected_freq, scan_bset,
    scan_hess, scan_proj_hess, scan_idle, scan_gas, scan_sol, scan_headers,
    open_modes.
  intros H. scan_cases.
Qed.

Lemma scan_line_errors (output line : string) (st st' : state) :
  scan_line output st line = Ok st' ->
  errors st' = errors st ++ error_tags line.
Proof.
  unfold scan_line. intros H. apply bind_ok in H as (s1 & E1 & H).
  apply scan_geom_errors in E1. apply scan_block_errors in H.
  rewrite H, E1. unfold scan_time.
  destruct (parse_time _); [destruct (Re.search _ _)|]; reflexivity.
Qed.

Lemma scan_lines_errors (output : string) (ls : list string) :
  forall st st', foldM (scan_line output) st ls = Ok st' ->
  errors st' = errors st ++ concat (map error_tags ls).
Proof.
  induction ls as [|l ls IH]; intros st st' H.
  - injection H as <-. simpl. now rewrite app_nil_r.
  - cbn [foldM] in H. apply bind_ok in H as (s1 & E1 & H).
    rewrite (IH _ _ H), (scan_line_errors _ _ _ _ E1).
    simpl. now rewrite app_assoc.
Qed.


(** A line carries one of the failure signatures. *)
Definition has_signature (line : string) : bool :=
  existsb (fun ev => PyStr.contains (fst ev) line) error_defs.

Lemma error_tags_nil (line : string) :
  error_tags line = [] <-> has_signature line = false.
Proof.
  unfold error_tags, has_signature.
  induction error_defs as [|ev l IH]; simpl; [tauto|].
  destruct (PyStr.contains ev.1 line); simpl; [|exact IH].
  split; discriminate.
Qed.

Lemma error_tags_some (ls : list string) :
  0 < length (concat (map error_tags ls))
  <-> Exists (fun l => has_signature l = true) ls.
Proof.
  induction ls as [|l ls IH]; simpl.
  - split; [lia | intros H; inversion H].
  - rewrite length_app, Exists_cons, <- IH.
    destruct (has_signature l) eqn:E.
    + destruct (error_tags l) eqn:Et.
      * apply error_tags_nil in Et. congruence.
      * simpl. split; [auto | lia].
    + apply error_tags_nil in E. rewrite E. simpl.
      split; [auto | intros [H|H]; [discriminate | exact H]].
Qed.

(** X1.  The error tags of a decoded job are those of the signatures found in
    its lines, line by line, whatever block a line belongs to; and the job
    is flagged exactly when some line carries a signature. *)
Theorem errors_collected_on_every_line (output : string) (j : job) :
  parse_job output = Ok j ->
  let lines := PyStr.split (String "010" EmptyString) output in
  r_errors j = concat (map error_tags lines) /\
  (r_has_error j = true <-> Exists (fun l => has_signature l = true) lines).
Proof.
  intros H lines. unfold parse_job in H.
  apply bind_ok in H as (st & Hst & H).
  unfold scan in Hst. apply scan_lines_errors in Hst. simpl in Hst.
  fold lines in Hst.
  unfold finish in H. apply bind_ok in H as (h & _ & H).
  apply bind_ok in H as (ph & _ & H). injection H as <-. simpl.
  split; [exact Hst|]. rewrite Hst, Nat.ltb_lt. apply error_tags_some.
Qed.

(** ** What holds of every state of the scan *)

Lemma foldM_invariant {A S} (f : S -> A -> res S) (P : S -> Prop) :
  (forall s a s', P s -> f s a = Ok s' -> P s') ->
  forall l s s', P s -> foldM f s l = Ok s' -> P s'.
Proof.
  intros Hstep. induction l as [|a l IH]; intros s s' Hs H.
  - injection H as <-. exact Hs.
  - cbn [foldM] in H. apply bind_ok in H as (s1 & E1 & H).
    eapply IH; [|exact H]. eapply Hstep; eauto.
Qed.

(** The number of block flags of the chain that are set. *)
Definition open_blocks (st : state) : nat :=
  Nat.b2n (parse_force st) + Nat.b2n (parse_freq st) +
  Nat.b2n (parse_projected_freq st) + Nat.b2n (parse_bset st) +
  Nat.b2n (parse_hess st) + Nat.b2n (parse_proj_hess st).

(** A scanner that sets no block flag of the chain. *)
Definition sets_no_flag (st st' : state) : Prop :=
  (parse_force st' = true -> parse_force st = true) /\
  (parse_freq st' = true -> parse_freq st = true) /\
  (parse_projected_freq st' = true -> parse_projected_freq st = true) /\
  (parse_bset st' = true -> parse_bset st = true) /\
  (parse_hess st' = true -> parse_hess st = true) /\
  (parse_proj_hess st' = true -> parse_proj_hess st = true).

Lemma sets_no_flag_open_blocks (st st' : state) :
  sets_no_flag st st' -> open_blocks st' <= open_blocks st.
Proof.
  unfold sets_no_flag, open_blocks. intros (H1 & H2 & H3 & H4 & H5 & H6).
  destruct (parse_force st'), (parse_freq st'), (parse_projected_freq st'),
    (parse_bset st'), (parse_hess st'), (parse_proj_hess st');
    try rewrite (H1 eq_refl); try rewrite (H2 eq_refl);
    try rewrite (H3 eq_refl); try rewrite (H4 eq_refl);
    try rewrite (H5 eq_refl); try rewrite (H6 eq_refl); simpl; lia.
Qed.

Ltac no_flag :=
  unfold sets_no_flag; intros H; scan_cases;
  repeat split; intros; congruence.

Lemma scan_geom_flags (line : string) (st st' : state) :
  scan_geom line st = Ok st' -> sets_no_flag st st'.
Proof. unfold scan_geom, float3. no_flag. Qed.

Lemma scan_force_flags (line : string) (st st' : state) :
  scan_force line st = Ok st' -> sets_no_flag st st'.
Proof. unfold scan_force. no_flag. Qed.

Lemma scan_freq_flags (line : string) (st st' : state) :
  parse_freq st = true -> scan_freq line st = Ok st' -> sets_no_flag st st'.
Proof. unfold scan_freq. intros Hq. no_flag. Qed.

Lemma scan_projected_freq_flags (line : string) (st st' : state) :
  parse_projected_freq st = true ->
  scan_projected_freq line st = Ok st' -> sets_no_flag st st'.
Proof. unfold scan_projected_freq. intros Hq. no_flag. Qed.

Lemma scan_bset_flags (line : string) (st st' : state) :
  scan_bset line st = Ok st' -> sets_no_flag st st'.
Proof. unfold scan_bset. no_flag. Qed.

Lemma scan_hess_flags (line : string) (st st' : state) :
  scan_hess line st = Ok st' -> sets_no_flag st st'.
Proof. unfold scan_hess. no_flag. Qed.

Lemma scan_proj_hess_flags (line : string) (st st' : state) :
  scan_proj_hess line st = Ok st' -> sets_no_flag st st'.
Proof. unfold scan_proj_hess. no_flag. Qed.

Lemma scan_idle_flags (output line : string) (st st' : state) :
  open_blocks st = 0 ->
  scan_idle output line st = Ok st' -> open_blocks st' <= 1.
Proof.
  unfold open_blocks. intros H0.
  destruct (parse_force st) eqn:F1; [simpl in H0; lia|].
  destruct (parse_freq st) eqn:F2; [simpl in H0; lia|].
  destruct (parse_projected_freq st) eqn:F3; [simpl in H0; lia|].
  destruct (parse_bset st) eqn:F4; [simpl in H0; lia|].
  destruct (parse_hess st) eqn:F5; [simpl in H0; lia|].
  destruct (parse_proj_hess st) eqn:F6; [simpl in H0; lia|].
  unfold scan_idle, scan_gas, scan_sol, scan_headers, open_modes.
  intros H. scan_cases; rewrite ?F1, ?F2, ?F3, ?F4, ?F5, ?F6; simpl; lia.
Qed.

Lemma scan_block_open_blocks (output line : string) (st st' : state) :
  open_blocks st <= 1 ->
  scan_block output line st = Ok st' -> open_blocks st' <= 1.
Proof.
  intros H1 H. unfold scan_block in H.
  destruct (parse_force st) eqn:F1.
  { apply scan_force_flags, sets_no_flag_open_blocks in H. lia. }
  destruct (parse_freq st) eqn:F2.
  { apply scan_freq_flags, sets_no_flag_open_blocks in H; [lia | exact F2]. }
  destruct (parse_projected_freq st) eqn:F3.
  { apply scan_projected_freq_flags, sets_no_flag_open_blocks in H;
      [lia | exact F3]. }
  destruct (parse_bset st) eqn:F4.
  { apply scan_bset_flags, sets_no_flag_open_blocks in H. lia. }
  destruct (parse_hess st) eqn:F5.
  { apply scan_hess_flags, sets_no_flag_open_blocks in H. lia. }
  destruct (parse_proj_hess st) eqn:F6.
  { apply scan_proj_hess_flags, sets_no_flag_open_blocks in H. lia. }
  eapply scan_idle_flags; [|exact H].
  unfold open_blocks. now rewrite F1, F2, F3, F4, F5, F6.
Qed.

Lemma scan_line_open_blocks (output line : string) (st st' : state) :
  open_blocks st <= 1 ->
  scan_line output st line = Ok st' -> open_blocks st' <= 1.
Proof.
  intros H1 H. unfold scan_line in H. apply bind_ok in H as (s1 & E1 & H).
  eapply scan_block_open_blocks; [|exact H].
  apply scan_geom_flags, sets_no_flag_open_blocks in E1.
  destruct (scan_errors_time_flags line st)
    as (_ & Ff & Fq & Fp & Fb & Fh & Fph & _).
  unfold open_blocks in *. rewrite Ff, Fq, Fp, Fb, Fh, Fph in E1. lia.
Qed.

(** X2.  At every point of the scan at most one of the six blocks of the chain
    (forces, normal and projected frequencies, basis summary, normal and
    projected hessian) is open; the geometry block is apart. *)
Theorem at_most_one_block_open (output : string) (ls : list string)
    (st : state) :
  foldM (scan_line output) init_state ls = Ok st -> open_blocks st <= 1.
Proof.
  apply (foldM_invariant (scan_line output) (fun s => open_blocks s <= 1)).
  - intros s a s'. apply scan_line_open_blocks.
  - unfold open_blocks. simpl. lia.
Qed.

(** ** The pending accumulators *)

(** Outside the geometry block nothing is pending for a geometry, and
    outside the force block no force row is pending. *)
Definition nothing_pending (st : state) : Prop :=
  (parse_geom st = false ->
   species st = [] /\ coords st = [] /\ lattice st = []) /\
  (parse_force st = false -> forces st = []).

Lemma scan_geom_pending (line : string) (st st' : state) :
  nothing_pending st -> scan_geom line st = Ok st' -> nothing_pending st'.
Proof.
  unfold nothing_pending, scan_geom, float3. intros [Hg Hf] H.
  scan_cases; simpl; (split; [|exact Hf]); intros; try discriminate;
    try congruence; auto.
Qed.

Lemma scan_block_pending (output line : string) (st st' : state) :
  nothing_pending st -> scan_block output line st = Ok st' ->
  nothing_pending st'.
Proof.
  unfold nothing_pending, scan_block, scan_force, scan_freq,
    scan_projected_freq, scan_bset, scan_hess, scan_proj_hess, scan_idle,
    scan_gas, scan_sol, scan_headers, open_modes.
  intros [Hg Hf] H.
  scan_cases; simpl; split; intros; try discriminate; try congruence; auto.
Qed.

Lemma scan_line_pending (output line : string) (st st' : state) :
  nothing_pending st -> scan_line output st line = Ok st' ->
  nothing_pending st'.
Proof.
  intros Hp H. unfold scan_line in H. apply bind_ok in H as (s1 & E1 & H).
  eapply scan_block_pending; [|exact H].
  eapply scan_geom_pending; [|exact E1].
  unfold nothing_pending, scan_time, scan_errors in *.
  destruct (parse_time _); [destruct (Re.search _ _)|]; simpl; exact Hp.
Qed.

(** X3.  Every molecule, structure and force table is made of the rows of its
    own block only: at every point of the scan where the geometry block is
    closed the pending species, coordinates and lattice rows are empty, and
    where the force block is closed the pending force row is empty. *)
Theorem accumulators_empty_outside_blocks (output : string)
    (ls : list string) (st : state) :
  foldM (scan_line output) init_state ls = Ok st -> nothing_pending st.
Proof.
  apply (foldM_invariant (scan_line output) nothing_pending).
  - intros s a s'. apply scan_line_pending.
  - split; intros; auto.
Qed.

(** ** An open block has its accumulator *)

(** As [scan_cases], also for equations between results that hold options
    or pairs. *)
Ltac scan_inv :=
  repeat match goal with
         | H : Ok _ = Ok _ |- _ =>
             first [ injection H as <-
                   | injection H as H; first [discriminate H | subst] ]
         | H : Some _ = Some _ |- _ => injection H as H; subst
         | H : Some _ = None |- _ => discriminate H
         | H : None = Some _ |- _ => discriminate H
         | H : (_, _) = (_, _) |- _ => injection H as ? ?; subst
         | H : Raise _ = Ok _ |- _ => discriminate H
         | H : _ ≫= _ = Ok _ |- _ =>
             let a := fresh "a" in
             let E := fresh "E" in
             apply bind_ok in H as (a & E & H)
         | H : of_opt _ ?o = Ok _ |- _ =>
             destruct o eqn:?; simpl in H
         | H : ?l = Ok _ |- _ =>
             match l with
             | context [match ?x with _ => _ end] => destruct x eqn:?
             end
         end;
  simpl; eauto.

Lemma zip_append_length (ms : list mode) (vs : list Float) :
  length (zip_append ms vs) = length ms.
Proof.
  revert vs. induction ms as [|[f d] ms IH]; intros [|v vs]; simpl; auto.
Qed.

Lemma distribute_length (ms : list mode) (vs : list Float) :
  length (distribute ms vs) = length ms.
Proof.
  unfold distribute.
  rewrite length_app, zip_append_length, length_take, length_drop. lia.
Qed.

Lemma scan_modes_some (line : string) (fr fr' : option (list mode))
    (keep : bool) :
  scan_modes line fr = Ok (fr', keep) ->
  exists ms ms', fr = Some ms /\ fr' = Some ms' /\ length ms' = length ms.
Proof.
  unfold scan_modes. intros H.
  destruct (Nat.eqb _ 0).
  - apply bind_ok in H as (l & El & H). apply bind_ok in H as (x & _ & H).
    destruct fr as [ms|]; [|discriminate]. injection El as <-.
    exists ms, ms. destruct (Nat.eqb _ 0); injection H as <- _; auto.
  - apply bind_ok in H as (vs & _ & H). apply bind_ok in H as (l & El & H).
    destruct fr as [ms|]; [|discriminate]. injection El as <-.
    injection H as <- _. eexists _, _.
    split; [reflexivity|]. split; [reflexivity|]. apply distribute_length.
Qed.

Lemma mapM_length {A B} (f : A -> res B) (l : list A) (l' : list B) :
  mapM f l = Ok l' -> length l' = length l.
Proof.
  revert l'. induction l as [|a l IH]; intros l' H.
  - injection H as <-. reflexivity.
  - cbn [mapM] in H. apply bind_ok in H as (b & _ & H).
    apply bind_ok in H as (bs & E & H). injection H as <-.
    simpl. f_equal. now apply IH.
Qed.

Lemma open_modes_some (tokens : list string) (fr fr' : option (list mode)) :
  open_modes tokens fr = Ok fr' ->
  exists ms, fr' = Some ms /\
             length ms = length (default [] fr) + length tokens.
Proof.
  unfold open_modes. intros H. apply bind_ok in H as (fs & E & H).
  injection H as <-. eexists. split; [reflexivity|].
  now rewrite length_app, length_map, (mapM_length _ _ _ E).
Qed.

(** The accumulator a block works on is there while the block is open. *)
Definition open_block_has_data (st : state) : Prop :=
  (parse_freq st = true ->
   exists ms, normal_frequencies st = Some ms /\ ms <> []) /\
  (parse_projected_freq st = true -> is_Some (frequencies st)) /\
  (parse_hess st = true -> is_Some (hessian st)) /\
  (parse_proj_hess st = true -> is_Some (projected_hessian st)).

Lemma nonempty_length {A} (l : list A) : l <> [] <-> 0 < length l.
Proof. destruct l; simpl; split; (congruence || lia). Qed.

Lemma hess_row_some (line : string) (oh : option (list (list Float)))
    (h' : list (list Float)) :
  hess_row line oh = Ok (Some h') -> is_Some oh.
Proof.
  unfold hess_row. intros H. scan_inv.
Qed.

(** A scanner that leaves the four accumulators as they are. *)
Definition keeps_data (st st' : state) : Prop :=
  normal_frequencies st' = normal_frequencies st /\
  frequencies st' = frequencies st /\
  hessian st' = hessian st /\
  projected_hessian st' = projected_hessian st.

Lemma has_data_frame (st st' : state) :
  open_block_has_data st -> sets_no_flag st st' -> keeps_data st st' ->
  open_block_has_data st'.
Proof.
  unfold open_block_has_data, sets_no_flag, keeps_data.
  intros (D1 & D2 & D3 & D4) (_ & F2 & F3 & _ & F5 & F6) (-> & -> & -> & ->).
  repeat split; intros; auto.
Qed.

Ltac keeps := unfold keeps_data; intros H; scan_cases; auto.

Lemma scan_geom_keeps (line : string) (st st' : state) :
  scan_geom line st = Ok st' -> keeps_data st st'.
Proof. unfold scan_geom, float3. keeps. Qed.

Lemma scan_force_keeps (line : string) (st st' : state) :
  scan_force line st = Ok st' -> keeps_data st st'.
Proof. unfold scan_force. keeps. Qed.

Lemma scan_bset_keeps (line : string) (st st' : state) :
  scan_bset line st = Ok st' -> keeps_data st st'.
Proof. unfold scan_bset. keeps. Qed.

Lemma scan_gas_keeps (line : string) (st st' : state) :
  scan_gas line st = Ok st' -> keeps_data st st' /\ sets_no_flag st st'.
Proof.
  unfold scan_gas. intros H. split; revert H; [keeps | no_flag].
Qed.

Lemma scan_sol_keeps (line : string) (st st' : state) :
  scan_sol line st = Ok st' -> keeps_data st st' /\ sets_no_flag st st'.
Proof.
  unfold scan_sol. intros H. split; revert H; [keeps | no_flag].
Qed.

Lemma scan_freq_data (line : string) (st st' : state) :
  parse_freq st = true ->
  open_block_has_data st -> scan_freq line st = Ok st' ->
  open_block_has_data st'.
Proof.
  unfold open_block_has_data. intros F2 (D1 & D2 & D3 & D4) H.
  unfold scan_freq in H. apply bind_ok in H as ([fr' k] & E & H).
  injection H as <-. simpl.
  apply scan_modes_some in E as (ms & ms' & E1 & -> & Hl).
  destruct (D1 F2) as (ms0 & E0 & Hne).
  rewrite E1 in E0. injection E0 as <-.
  split; [|auto]. intros _. exists ms'. split; [reflexivity|].
  apply nonempty_length. apply nonempty_length in Hne.
  exact (eq_ind_r (fun n => 0 < n) Hne Hl).
Qed.

Lemma scan_projected_freq_data (line : string) (st st' : state) :
  open_block_has_data st -> scan_projected_freq line st = Ok st' ->
  open_block_has_data st'.
Proof.
  unfold open_block_has_data. intros (D1 & D2 & D3 & D4) H.
  unfold scan_projected_freq in H.
  apply bind_ok in H as ([fr' k] & E & H). injection H as <-. simpl.
  apply scan_modes_some in E as (ms & ms' & E1 & -> & Hl).
  split; [exact D1|]. split; [eauto | auto].
Qed.

Lemma scan_hess_data (line : string) (st st' : state) :
  open_block_has_data st -> scan_hess line st = Ok st' ->
  open_block_has_data st'.
Proof.
  unfold open_block_has_data. intros (D1 & D2 & D3 & D4) H.
  unfold scan_hess in H.
  scan_inv; (split; [exact D1|]); (split; [exact D2|]);
    (split; [|exact D4]); intros; eauto; discriminate.
Qed.

Lemma scan_proj_hess_data (line : string) (st st' : state) :
  open_block_has_data st -> scan_proj_hess line st = Ok st' ->
  open_block_has_data st'.
Proof.
  unfold open_block_has_data. intros (D1 & D2 & D3 & D4) H.
  unfold scan_proj_hess in H.
  scan_inv; (split; [exact D1|]); (split; [exact D2|]);
    (split; [exact D3|]); intros; eauto; discriminate.
Qed.

Lemma or_empty_some {A} (h : option (list A)) : is_Some (or_empty h).
Proof. destruct h as [[|a l]|]; simpl; eauto. Qed.

Lemma scan_headers_data (output line : string) (st st' : state) :
  parse_freq st = false -> parse_projected_freq st = false ->
  parse_hess st = false -> parse_proj_hess st = false ->
  scan_headers output line st = Ok st' -> open_block_has_data st'.
Proof.
  intros F2 F3 F5 F6 H. unfold scan_headers in H.
  pose proof (or_empty_some (hessian st)) as Oh.
  pose proof (or_empty_some (projected_hessian st)) as Oph.
  unfold open_block_has_data.
  scan_cases;
    repeat match goal with
           | E : open_modes _ _ = Ok _ |- _ =>
               apply open_modes_some in E as (? & -> & ?)
           end;
    simpl; rewrite ?F2, ?F3, ?F5, ?F6;
    (split; [|split; [|split]]); intros; try discriminate; eauto.
  eexists. split; [reflexivity|]. apply nonempty_length.
  match goal with
  | Hlen : length _ = ?n + length (tail ?t), Hb : _ && _ = true |- _ =>
      apply andb_prop in Hb as [Hb _]; apply Nat.ltb_lt in Hb;
      assert (Hpos : 0 < n + length (tail t))
        by (destruct t as [|? [|? ?]]; simpl in *; lia);
      exact (eq_ind_r (fun k => 0 < k) Hpos Hlen)
  end.
Qed.

Lemma scan_block_data (output line : string) (st st' : state) :
  open_block_has_data st -> scan_block output line st = Ok st' ->
  open_block_has_data st'.
Proof.
  intros HD H. unfold scan_block in H.
  destruct (parse_force st) eqn:F1.
  { eapply has_data_frame;
      [exact HD | eapply scan_force_flags | eapply scan_force_keeps]; eauto. }
  destruct (parse_freq st) eqn:F2.
  { eapply scan_freq_data; eauto. }
  destruct (parse_projected_freq st) eqn:F3.
  { eapply scan_projected_freq_data; eauto. }
  destruct (parse_bset st) eqn:F4.
  { eapply has_data_frame;
      [exact HD | eapply scan_bset_flags | eapply scan_bset_keeps]; eauto. }
  destruct (parse_hess st) eqn:F5.
  { eapply scan_hess_data; eauto. }
  destruct (parse_proj_hess st) eqn:F6.
  { eapply scan_proj_hess_data; eauto. }
  unfold scan_idle in H.
  destruct (Re.search Patt.energy_patt line).
  - apply bind_ok in H as (e & _ & H). injection H as <-.
    unfold open_block_has_data in *. simpl. exact HD.
  - apply bind_ok in H as (s1 & E1 & H). apply bind_ok in H as (s2 & E2 & H).
    apply scan_gas_keeps in E1 as [(K1 & K2 & K3 & K4) N1].
    apply scan_sol_keeps in E2 as [(L1 & L2 & L3 & L4) N2].
    destruct N1 as (_ & A2 & A3 & _ & A5 & A6).
    destruct N2 as (_ & B2 & B3 & _ & B5 & B6).
    eapply scan_headers_data; [| | | |exact H].
    + destruct (parse_freq s2) eqn:E; [|reflexivity].
      rewrite (A2 (B2 eq_refl)) in F2. discriminate.
    + destruct (parse_projected_freq s2) eqn:E; [|reflexivity].
      rewrite (A3 (B3 eq_refl)) in F3. discriminate.
    + destruct (parse_hess s2) eqn:E; [|reflexivity].
      rewrite (A5 (B5 eq_refl)) in F5. discriminate.
    + destruct (parse_proj_hess s2) eqn:E; [|reflexivity].
      rewrite (A6 (B6 eq_refl)) in F6. discriminate.
Qed.

Lemma scan_line_data (output line : string) (st st' : state) :
  open_block_has_data st -> scan_line output st line = Ok st' ->
  open_block_has_data st'.
Proof.
  intros HD H. unfold scan_line in H. apply bind_ok in H as (s1 & E1 & H).
  eapply scan_block_data; [|exact H].
  eapply has_data_frame;
    [| eapply scan_geom_flags; exact E1 | eapply scan_geom_keeps; exact E1].
  unfold open_block_has_data, scan_time, scan_errors in *.
  destruct (parse_time _); [destruct (Re.search _ _)|]; simpl; exact HD.
Qed.

(** X4.  While a block is open the list it fills exists: in the normal
    frequency block the mode list is there and not empty, in the projected
    frequency block the mode list is there, and in each hessian block its
    matrix is there.  So the only [None] a block can meet is the normal
    hessian whose length the projected block takes. *)
Theorem open_block_has_its_data (output : string) (ls : list string)
    (st : state) :
  foldM (scan_line output) init_state ls = Ok st -> open_block_has_data st.
Proof.
  apply (foldM_invariant (scan_line output) open_block_has_data).
  - intros s a s'. apply scan_line_data.
  - repeat split; intros; discriminate.
Qed.

End Invariants.

(** * C2: the lines the hessian blocks skip *)

Section Skipped.

Context {ext : Extern}.

(** After any lines read without an exception at most one block of the
    chain is open and an open block has its accumulator. *)
Lemma scan_lines_blocks (output : string) (ls : list string) (st : state) :
  foldM (scan_line output) init_state ls = Ok st ->
  open_blocks st <= 1 /\ open_block_has_data st.
Proof.
  intros H. split.
  - revert H.
    apply (foldM_invariant (scan_line output) (fun s => open_blocks s <= 1)).
    + intros s a s'. apply scan_line_open_blocks.
    + unfold open_blocks. simpl. lia.
  - revert H.
    apply (foldM_invariant (scan_line output) open_block_has_data).
    + intros s a s'. apply scan_line_data.
    + repeat split; intros; discriminate.
Qed.

(** C2, as the code has it.  Decoding does not protect itself in general;
    what is skipped is this.  Let [st] be the state after some lines read
    without an exception, with no geometry block open, and let the next line
    be no row of values: blank, or with fewer than two tokens, or with a
    first token that is not an integer, or with no decimal point in its
    second token.  In the normal hessian block the matrix is a list and the
    line does not raise: it changes nothing but what the checks made on
    every line record, the error tags and the task time, except that a line
    that is not blank and contains ten dashes closes the block once the
    matrix has a row.  In the projected hessian block the line changes
    nothing but the same records when it is blank or when a normal hessian
    was read before, and raises [TypeError] otherwise. *)
Theorem hessian_non_rows_skipped
    (output line : string) (pre : list string) (st : state) :
  foldM (scan_line output) init_state pre = Ok st ->
  parse_geom st = false ->
  not_data_row line ->
  let s0 := scan_time line (scan_errors line st) in
  (parse_hess st = true ->
   exists h, hessian st = Some h /\
     scan_line output st line
     = Ok (if negb (is_blank line) && (0 <? length h)%nat
              && PyStr.contains "----------" line
           then set_parse_hess false s0 else s0)) /\
  (parse_proj_hess st = true ->
   scan_line output st line
   = match hessian st with
     | Some _ => Ok s0
     | None => if is_blank line then Ok s0 else Raise TypeError
     end).
Proof.
  intros Hpre Hg Hrow s0.
  destruct (scan_lines_blocks _ _ _ Hpre) as [Hone (_ & _ & Hh & _)].
  destruct (scan_errors_time_flags line st)
    as (Fg & Ff & Fq & Fp & Fb & Fh & Fph & Fhe & _).
  fold s0 in Fg, Ff, Fq, Fp, Fb, Fh, Fph, Fhe.
  unfold open_blocks in Hone.
  split.
  - intros Hhess. destruct (Hh Hhess) as [h Eh]. exists h.
    split; [exact Eh|].
    rewrite Hhess in Hone.
    destruct (parse_force st) eqn:Hf; [simpl in Hone; lia|].
    destruct (parse_freq st) eqn:Hq; [simpl in Hone; lia|].
    destruct (parse_projected_freq st) eqn:Hp; [simpl in Hone; lia|].
    destruct (parse_bset st) eqn:Hb; [simpl in Hone; lia|].
    unfold scan_line. fold s0.
    unfold scan_geom. rewrite Fg, Hg. simpl mbind.
    unfold scan_block. rewrite Ff, Fq, Fp, Fb, Fh, Hhess.
    unfold scan_hess. destruct (is_blank line); [reflexivity|].
    rewrite Fhe, Eh. simpl mbind. cbn [negb andb].
    destruct ((0 <? length h)%nat && PyStr.contains "----------" line);
      [reflexivity|].
    now rewrite (hess_row_skips _ _ Hrow).
  - intros Hproj. rewrite Hproj in Hone.
    destruct (parse_force st) eqn:Hf; [simpl in Hone; lia|].
    destruct (parse_freq st) eqn:Hq; [simpl in Hone; lia|].
    destruct (parse_projected_freq st) eqn:Hp; [simpl in Hone; lia|].
    destruct (parse_bset st) eqn:Hb; [simpl in Hone; lia|].
    destruct (parse_hess st) eqn:Hhess; [simpl in Hone; lia|].
    unfold scan_line. fold s0.
    unfold scan_geom. rewrite Fg, Hg. simpl mbind.
    unfold scan_block. rewrite Ff, Fq, Fp, Fb, Fh, Fph, Hproj.
    unfold scan_proj_hess. rewrite Fhe.
    destruct (hessian st) as [h|]; destruct (is_blank line);
      try reflexivity.
    simpl mbind. now rewrite (hess_row_skips _ _ Hrow).
Qed.

End Skipped.

Section SkippedExamples.

#[local] Existing Instance Ref.ext.
#[local] Existing Instance Ref.ops.

Definition hessian_block_start : list string :=
  [" MASS-WEIGHTED NUCLEAR HESSIAN (Hartree/Bohr/Bohr/Kamu)";
   "    1    4.0D+01"].

Definition hessian_block_state : state :=
  set_hessian (Some [[40 # 1]]) (set_parse_hess true init_state).

(** After the header and one row, a line of text is skipped and a line of
    dashes closes the block. *)
Lemma hessian_non_rows_skipped_witness :
  foldM (scan_line EmptyString) init_state hessian_block_start
  = Ok hessian_block_state /\
  scan_line EmptyString hessian_block_state "  no row here"
  = Ok hessian_block_state /\
  scan_line EmptyString hessian_block_state "   --------------------"
  = Ok (set_parse_hess false hessian_block_state).
Proof.
  assert (Hst : foldM (scan_line EmptyString) init_state hessian_block_start
                = Ok hessian_block_state) by by_eval.
  split; [exact Hst|]. split.
  - assert (Hrow : not_data_row "  no row here")
      by (vm_compute; left; reflexivity).
    destruct (proj1 (hessian_non_rows_skipped EmptyString "  no row here"
                       hessian_block_start hessian_block_state
                       Hst eq_refl Hrow) eq_refl)
      as (h & Eh & ->).
    injection Eh as <-. by_eval.
  - assert (Hrow : not_data_row "   --------------------")
      by (vm_compute; exact I).
    destruct (proj1 (hessian_non_rows_skipped EmptyString
                       "   --------------------"
                       hessian_block_start hessian_block_state
                       Hst eq_refl Hrow) eq_refl)
      as (h & Eh & ->).
    injection Eh as <-. by_eval.
Defined.

End SkippedExamples.
(** * Edge behaviour *)

Section Edges.

Context {ext : Extern}.

(** ** A displacement row *)

Lemma zip_append_lookup (ms : list mode) (vs : list Float) (i : nat) :
  zip_append ms vs !! i
  = (fun m => (fst m, snd m ++ option_list (vs !! i))) <$> ms !! i.
Proof.
  unfold mode in *.
  revert vs i. induction ms as [|[f d] ms IH]; intros vs i; [reflexivity|].
  destruct vs as [|v vs].
  - simpl zip_append. rewrite lookup_nil. simpl option_list.
    destruct (((f, d) :: ms) !! i) as [[f' d']|]; simpl;
      rewrite ?app_nil_r; reflexivity.
  - destruct i as [|i]; simpl; [reflexivity | apply IH].
Qed.

Lemma zip_append_fst (ms : list mode) (vs : list Float) :
  map fst (zip_append ms vs) = map fst ms.
Proof.
  revert vs. induction ms as [|[f d] ms IH]; intros [|v vs]; simpl;
    try reflexivity.
  now rewrite IH.
Qed.

Lemma distribute_lookup (ms : list mode) (vs : list Float) (i : nat)
    (m : mode) :
  let k := slice_start (length ms) (length vs) in
  ms !! i = Some m ->
  distribute ms vs !! i
  = Some (fst m,
          snd m ++ (if decide (k <= i) then option_list (vs !! (i - k))
                    else [])).
Proof.
  intros k Hm. unfold mode in *.
  assert (Hk : k <= length ms).
  { unfold k, slice_start. destruct (Nat.eqb _ 0); lia. }
  pose proof (lookup_lt_Some _ _ _ Hm) as Hi.
  unfold distribute. unfold mode. fold k.
  destruct (decide (k <= i)) as [Hle|Hlt].
  - rewrite lookup_app_r by (rewrite length_take; lia).
    rewrite length_take, Nat.min_l by lia.
    rewrite zip_append_lookup, lookup_drop.
    replace (k + (i - k)) with i by lia. now rewrite Hm.
  - rewrite lookup_app_l by (rewrite length_take; lia).
    rewrite lookup_take_lt by lia. rewrite Hm.
    destruct m. simpl. now rewrite app_nil_r.
Qed.

(** X5.  What a row of values does to the modes.  No mode is added, removed or
    given another frequency.  A row of [n] values, with [n] at least one
    and at most the number of modes, leaves the modes before the last [n]
    as they are and appends to each of the last [n] modes one value, in
    order: the mode at position [i] receives the value at position
    [i - (length ms - n)].  A row with no value changes nothing.  A row
    with more values than modes gives the mode at position [i] the value
    at position [i]; the values after these are dropped. *)
Theorem displacement_row_distributed (ms : list mode) (vs : list Float) :
  length (distribute ms vs) = length ms /\
  map fst (distribute ms vs) = map fst ms /\
  (0 < length vs <= length ms ->
   forall i m, ms !! i = Some m ->
     (i < length ms - length vs -> distribute ms vs !! i = Some m) /\
     (length ms - length vs <= i ->
      exists v, vs !! (i - (length ms - length vs)) = Some v /\
                distribute ms vs !! i = Some (fst m, snd m ++ [v]))) /\
  (length vs = 0 -> distribute ms vs = ms) /\
  (length ms < length vs ->
   forall i m, ms !! i = Some m ->
     exists v, vs !! i = Some v /\
               distribute ms vs !! i = Some (fst m, snd m ++ [v])).
Proof.
  pose proof (distribute_length ms vs) as Hlen.
  pose proof (distribute_lookup ms vs) as Hlook.
  unfold mode in *.
  split; [exact Hlen|]. split; [|split; [|split]].
  - unfold distribute. rewrite map_app, zip_append_fst, <- map_app.
    now rewrite take_drop.
  - intros Hn i m Hm. pose proof (lookup_lt_Some _ _ _ Hm) as Hi.
    specialize (Hlook i m Hm). simpl in Hlook.
    assert (Hk : slice_start (length ms) (length vs)
                 = length ms - length vs).
    { unfold slice_start. destruct (Nat.eqb_spec (length vs) 0); lia. }
    rewrite Hk in Hlook. split.
    + intros Hlt. rewrite Hlook.
      destruct (decide (length ms - length vs <= i)); [lia|].
      destruct m. simpl. now rewrite app_nil_r.
    + intros Hle.
      destruct (lookup_lt_is_Some_2 vs (i - (length ms - length vs)))
        as [v Hv]; [lia|].
      exists v. split; [exact Hv|]. rewrite Hlook, Hv.
      destruct (decide (length ms - length vs <= i)); [reflexivity | lia].
  - intros Hn. destruct vs; [|discriminate].
    unfold distribute, slice_start. simpl. now destruct ms as [|[f d] ms].
  - intros Hn i m Hm. pose proof (lookup_lt_Some _ _ _ Hm) as Hi.
    specialize (Hlook i m Hm). simpl in Hlook.
    assert (Hk : slice_start (length ms) (length vs) = 0).
    { unfold slice_start. destruct (Nat.eqb_spec (length vs) 0); lia. }
    rewrite Hk in Hlook.
    destruct (lookup_lt_is_Some_2 vs i) as [v Hv]; [lia|].
    exists v. split; [exact Hv|]. rewrite Hlook.
    destruct (decide (0 <= i)); [|lia].
    now rewrite Nat.sub_0_r, Hv.
Qed.

(** ** The basis summary and the solvation energies *)

(** X6.  A header row [Tag] with fewer than five columns is fatal: [pop(4)]
    raises [IndexError]. *)
Theorem short_basis_header_raises (st : state) (line : string)
    (rest : list string) :
  is_blank line = false ->
  PyStr.split_ws line = "Tag" :: rest ->
  length rest < 4 ->
  scan_bset line st = Raise IndexError.
Proof.
  intros Hb Hs Hlen. unfold scan_bset. rewrite Hb, Hs.
  change (py_get ("Tag" :: rest) 0) with (Ok (A := string) "Tag").
  simpl. unfold py_pop. cbn [length].
  destruct (Nat.ltb_spec 4 (S (length rest))); [lia | reflexivity].
Qed.

(** X7.  A gas phase line with no energy read before raises [IndexError]; a sol
    phase line raises [IndexError] with no energy read before, and
    [TypeError] when the last entry is a plain energy, that is when no gas
    phase line came first. *)
Theorem solvation_lines_need_their_entry (st : state) (line : string)
    (m : Re.caps) :
  (Re.search Patt.energy_gas_patt line = Some m -> energies st = [] ->
   scan_gas line st = Raise IndexError) /\
  (Re.search Patt.energy_sol_patt line = Some m -> energies st = [] ->
   scan_sol line st = Raise IndexError) /\
  (forall es x v,
     Re.search Patt.energy_sol_patt line = Some m ->
     energies st = es ++ [EScalar x] ->
     float (Re.group 1 m) = Some v ->
     scan_sol line st = Raise TypeError).
Proof.
  split; [|split].
  - intros Hm He. unfold scan_gas. now rewrite Hm, He.
  - intros Hm He. unfold scan_sol. now rewrite Hm, He.
  - intros es x v Hm He Hv. unfold scan_sol.
    rewrite Hm, He, py_get_last. simpl.
    unfold Energy_eV, float_res. now rewrite Hv.
Qed.

(** ** The job splitter *)

(** X8.  A text without the job marker in which [CITATION] occurs cannot be
    constructed: the one chunk is dropped, and taking the preamble from the
    empty list raises [IndexError]. *)
Theorem citation_without_marker_raises (text : string) :
  PyStr.contains "NWChem Input Module" text = false ->
  PyStr.contains "CITATION" text = true ->
  NwOutput_init text = Raise IndexError.
Proof.
  intros Hm Hc. unfold NwOutput_init. rewrite (split_absent _ _ Hm).
  change (py_last [text]) with (Ok (A := string) text).
  simpl. now rewrite Hc.
Qed.

(** ** The TDDFT roots *)

(** Outside a converged block no line raises, and none changes the roots. *)
Lemma tddft_line_outside (st : tddft_state) (line : string) :
  inside st = false ->
  exists st', tddft_line st line = Ok st' /\ found st' = found st /\
    (inside st' = true ->
     PyStr.contains "Convergence criterion met" (PyStr.strip line) = true).
Proof.
  intros Hin. unfold tddft_line. rewrite Hin. cbn [andb].
  destruct (PyStr.contains "Convergence criterion met" _);
    [eexists; split; [reflexivity|]; auto|].
  destruct (PyStr.contains "Excited state energy" _);
    [eexists; split; [reflexivity|]; simpl; split; [auto | discriminate]|].
  destruct (PyStr.contains "singlet excited" _);
    [eexists; split; [reflexivity|]; simpl; split; [auto | congruence]|].
  destruct (PyStr.contains "triplet excited" _);
    [eexists; split; [reflexivity|]; simpl; split; [auto | congruence]|].
  eexists; split; [reflexivity|]; split; [auto | congruence].
Qed.

(** X9.  A text none of whose lines has [Convergence criterion met] yields no
    root at all, and its extraction does not raise, whatever [Root] and
    [Dipole Oscillator Strength] lines it has. *)
Theorem no_convergence_no_roots (raw_text : string) :
  Forall (fun l => PyStr.contains "Convergence criterion met" (PyStr.strip l)
                   = false)
         (PyStr.split (String "010" EmptyString) raw_text) ->
  parse_tddft raw_text = Ok {| singlet := []; triplet := [] |}.
Proof.
  intros HF. unfold parse_tddft.
  assert (H : forall ls st,
            Forall (fun l => PyStr.contains "Convergence criterion met"
                               (PyStr.strip l) = false) ls ->
            inside st = false ->
            exists st', foldM tddft_line st ls = Ok st' /\
                        found st' = found st).
  { induction ls as [|l ls IH]; intros st Hls Hin.
    - exists st. split; reflexivity.
    - apply Forall_cons in Hls as [Hl Hls].
      destruct (tddft_line_outside st l Hin) as (s1 & E1 & F1 & I1).
      destruct (IH s1 Hls) as (s2 & E2 & F2).
      + destruct (inside s1); [|reflexivity].
        rewrite (I1 eq_refl) in Hl. discriminate.
      + exists s2. cbn [foldM]. rewrite E1. simpl. split; congruence. }
  destruct (H _ tddft_init HF eq_refl) as (st' & E & F).
  rewrite E. simpl. now rewrite F.
Qed.

(** X10.  In a converged block a [Dipole Oscillator Strength] line with no root
    yet under the current label raises [IndexError]. *)
Theorem strength_without_root_raises (st : tddft_state) (line tok : string)
    (o : Float) :
  inside st = true ->
  no_tag (PyStr.strip line) ->
  PyStr.contains "Root" (PyStr.strip line)
  && PyStr.contains "eV" (PyStr.strip line) = false ->
  PyStr.contains "Dipole Oscillator Strength" (PyStr.strip line) = true ->
  py_get (PyStr.split_ws (PyStr.strip line)) (-1) = Ok tok ->
  float tok = Some o ->
  get_roots (mult st) (found st) = [] ->
  tddft_line st line = Raise IndexError.
Proof.
  intros Hin (T1 & T2 & T3 & T4) Hnot HD Htok Ho Hrs.
  unfold tddft_line. rewrite T1, T2, T3, T4, Hin, HD. cbn [andb].
  rewrite Hnot, Htok. simpl. unfold float_res. rewrite Ho. simpl.
  now rewrite Hrs.
Qed.

(** ** The spectrum synthesizer *)

Context {ops : FloatOps Float}.

Lemma mapM_osc_missing (data : list root) :
  Exists (fun d => osc_strength d = None) data ->
  mapM (fun d => of_opt KeyError (osc_strength d)) data = Raise KeyError.
Proof.
  induction 1 as [d l Hd | d l _ IH]; cbn [mapM].
  - now rewrite Hd.
  - destruct (osc_strength d); simpl; [now rewrite IH | reflexivity].
Qed.

Lemma mapM_osc_present (data : list root) :
  Forall (fun d => is_Some (osc_strength d)) data ->
  exists osc, mapM (fun d => of_opt KeyError (osc_strength d)) data = Ok osc.
Proof.
  induction 1 as [|d l [o Hd] _ [osc IH]]; cbn [mapM].
  - eexists. reflexivity.
  - rewrite Hd, IH. eexists. reflexivity.
Qed.

Lemma py_get_nonempty {A} (l : list A) (i : Z) :
  l <> [] -> (i = 0 \/ i = -1)%Z -> exists a, py_get l i = Ok a.
Proof.
  intros Hne Hi.
  destruct l as [|a l]; [congruence|].
  destruct Hi as [-> | ->].
  - exists a. reflexivity.
  - destruct (exists_last (l := a :: l)) as (l' & b & ->); [discriminate|].
    exists b. apply py_get_last.
Qed.

(** X11.  The synthesizer raises [IndexError] when there is no singlet root,
    [KeyError] when a singlet root has no oscillator strength, and
    [IndexError] when the roots are complete and the number of points is
    not positive. *)
Theorem spectrum_needs_roots_and_points (raw_text : string) (rs : roots)
    (width : Float) (npoints : Z) :
  parse_tddft raw_text = Ok rs ->
  (singlet rs = [] ->
   get_excitation_spectrum raw_text width npoints = Raise IndexError) /\
  (Exists (fun d => osc_strength d = None) (singlet rs) ->
   get_excitation_spectrum raw_text width npoints = Raise KeyError) /\
  (singlet rs <> [] ->
   Forall (fun d => is_Some (osc_strength d)) (singlet rs) ->
   (npoints <= 0)%Z ->
   get_excitation_spectrum raw_text width npoints = Raise IndexError).
Proof.
  intros Hrs. unfold get_excitation_spectrum.
  rewrite (bind_of_ok _ _ _ Hrs). split; [|split].
  - intros ->. reflexivity.
  - intros HE. now rewrite (mapM_osc_missing _ HE).
  - intros Hne HF Hn.
    destruct (mapM_osc_present _ HF) as (osc & Hosc).
    rewrite (bind_of_ok _ _ _ Hosc).
    assert (Hen : map energy (singlet rs) <> []).
    { destruct (singlet rs); [congruence | discriminate]. }
    destruct (py_get_nonempty _ 0 Hen) as (e0 & H0); [auto|].
    destruct (py_get_nonempty _ (-1) Hen) as (e1 & H1); [auto|].
    rewrite (bind_of_ok _ _ _ H0), (bind_of_ok _ _ _ H1).
    unfold spectrum_grid.
    replace (Z.to_nat npoints) with 0 by lia. reflexivity.
Qed.

End Edges.

(** * The completion of a hessian, in general *)

Section Completion.

Context {ext : Extern}.

(** Every row has the columns before its diagonal: what the completion
    reads. *)
Definition has_lower_part (h : list (list Float)) : Prop :=
  forall i j r, i < j -> h !! j = Some r -> i < length r.

Lemma lower_part_entry (h : list (list Float)) (i j : nat) :
  has_lower_part h -> i < j < length h -> is_Some (entry h j i).
Proof.
  intros Hl [Hij Hj]. unfold entry.
  destruct (lookup_lt_is_Some_2 h j Hj) as [r Hr]. rewrite Hr. simpl.
  apply lookup_lt_is_Some_2. now apply (Hl i j r).
Qed.

Lemma entry_sym_upto_below (h : list (list Float)) (k i j : nat) :
  k <= j -> entry (sym_upto k h) j i = entry h j i.
Proof.
  intros Hk. unfold entry. rewrite sym_upto_lookup.
  destruct (h !! j); simpl; [|reflexivity].
  destruct (decide (j < k)); [lia | reflexivity].
Qed.

Lemma sym_upto_alter (h : list (list Float)) (k : nat) :
  alter (fun r => r ++ below h k) k (sym_upto k h) = sym_upto (S k) h.
Proof.
  apply list_eq. intros i.
  destruct (decide (i = k)) as [->|Hne].
  - rewrite list_lookup_alter_eq, !sym_upto_lookup.
    destruct (h !! k); simpl; [|reflexivity].
    destruct (decide (k < k)); [lia|].
    destruct (decide (k < S k)); [reflexivity | lia].
  - rewrite list_lookup_alter_ne by congruence.
    rewrite !sym_upto_lookup.
    destruct (h !! i); simpl; [|reflexivity].
    destruct (decide (i < k)), (decide (i < S k)); (reflexivity || lia).
Qed.

(** The column [k] is there below the diagonal. *)
Definition column_below (h : list (list Float)) (k : nat) : Prop :=
  forall j, k < j < length h -> is_Some (entry h j k).

Lemma sym_row_column (h : list (list Float)) (k : nat) :
  column_below h k ->
  sym_row (length h) (sym_upto k h) k = Ok (sym_upto (S k) h).
Proof.
  intros Hc. unfold sym_row.
  rewrite (sym_steps k _ (below h k)).
  - now rewrite sym_upto_alter.
  - unfold below. eapply Forall2_impl.
    + apply (omap_total (fun j => entry h j k) (fun j => k < j < length h)).
      intros j Hj. apply elem_of_seq in Hj. split; [lia|].
      apply Hc. lia.
    + intros j x [Hj Hx]. split; [lia|].
      rewrite entry_sym_upto_below by lia. exact Hx.
Qed.

Lemma sym_step_inv (ii jj : nat) (h h' : list (list Float)) :
  sym_step ii h jj = Ok h' -> is_Some (entry h jj ii).
Proof.
  unfold sym_step, entry. destruct (h !! jj) as [rj|]; simpl; [|discriminate].
  destruct (rj !! ii); simpl; [eauto | discriminate].
Qed.

Lemma sym_step_raises (ii jj : nat) (h : list (list Float)) (e : exn) :
  sym_step ii h jj = Raise e -> e = IndexError.
Proof.
  unfold sym_step. destruct (h !! jj) as [rj|]; simpl; [|congruence].
  destruct (rj !! ii); simpl; congruence.
Qed.

Lemma foldM_raises {A S} (f : S -> A -> res S) (e0 : exn) :
  (forall s a e, f s a = Raise e -> e = e0) ->
  forall l s e, foldM f s l = Raise e -> e = e0.
Proof.
  intros Hf. induction l as [|a l IH]; intros s e H; [discriminate|].
  cbn [foldM] in H. destruct (f s a) as [s1|e1] eqn:E; simpl in H.
  - eapply IH; exact H.
  - injection H as <-. eapply Hf; exact E.
Qed.

Lemma symmetrize_raises (h : list (list Float)) (e : exn) :
  symmetrize h = Raise e -> e = IndexError.
Proof.
  apply foldM_raises. intros s a e'. apply foldM_raises.
  intros s' a' e''. apply sym_step_raises.
Qed.

Lemma sym_steps_inv (ii : nat) (js : list nat) :
  forall h h' : list (list Float),
  Forall (fun j => j <> ii) js ->
  foldM (sym_step ii) h js = Ok h' ->
  Forall (fun j => is_Some (entry h j ii)) js.
Proof.
  induction js as [|j js IH]; intros h h' Hne H; [constructor|].
  apply Forall_cons in Hne as [Hj Hne].
  cbn [foldM] in H. apply bind_ok in H as (h1 & E1 & H).
  pose proof (sym_step_inv _ _ _ _ E1) as [x Hx].
  constructor; [eauto|].
  rewrite (sym_step_ok _ _ _ _ Hx) in E1. injection E1 as <-.
  apply IH in H; [|exact Hne].
  eapply Forall_impl; [apply Forall_and; split; [exact H | exact Hne]|].
  intros j' [Hs Hj']. simpl in *. unfold entry in *.
  rewrite list_lookup_alter_ne in Hs by congruence. exact Hs.
Qed.

Lemma sym_row_inv (h h' : list (list Float)) (k : nat) :
  sym_row (length h) (sym_upto k h) k = Ok h' -> column_below h k.
Proof.
  unfold sym_row. intros H j Hj.
  apply sym_steps_inv in H.
  - rewrite Forall_forall in H.
    rewrite <- (entry_sym_upto_below h k k j) by lia.
    apply H. apply elem_of_seq. lia.
  - apply Forall_forall. intros j' Hj'. apply elem_of_seq in Hj'. lia.
Qed.

Lemma sym_rows_inv (h : list (list Float)) (m : nat) :
  forall k h', k + m = length h ->
  foldM (sym_row (length h)) (sym_upto k h) (seq k m) = Ok h' ->
  forall i, k <= i -> column_below h i.
Proof.
  induction m as [|m IH]; intros k h' Hk H i Hi.
  - intros j Hj. lia.
  - cbn [seq foldM] in H. apply bind_ok in H as (h1 & E1 & H).
    pose proof (sym_row_inv _ _ _ E1) as Hc.
    rewrite (sym_row_column _ _ Hc) in E1. injection E1 as <-.
    destruct (decide (i = k)) as [->|Hne]; [exact Hc|].
    eapply (IH (S k)); [lia | exact H | lia].
Qed.

Lemma sym_rows_column (h : list (list Float)) (m : nat) :
  (forall i, column_below h i) ->
  forall k, k + m = length h ->
  foldM (sym_row (length h)) (sym_upto k h) (seq k m)
  = Ok (sym_upto (length h) h).
Proof.
  intros Hc. induction m as [|m IH]; intros k Hk.
  - simpl. do 2 f_equal. lia.
  - cbn [seq foldM]. rewrite sym_row_column by apply Hc. simpl.
    apply IH. lia.
Qed.

Lemma lower_part_columns (h : list (list Float)) :
  has_lower_part h <-> forall i, column_below h i.
Proof.
  split.
  - intros Hl i j Hj. now apply lower_part_entry.
  - intros Hc i j r Hij Hr.
    pose proof (lookup_lt_Some _ _ _ Hr) as Hj.
    destruct (Hc i j) as [x Hx]; [lia|].
    unfold entry in Hx. rewrite Hr in Hx. simpl in Hx.
    now apply lookup_lt_Some in Hx.
Qed.

(** X12.  The completion succeeds exactly on the matrices each row [j] of which
    has the columns before [j]: then row [i] receives the entries of column
    [i] of the rows after it, whatever its own length, and nothing else is
    changed; on every other matrix it raises [IndexError]. *)
Theorem completion_reads_below_diagonal (h : list (list Float)) :
  (has_lower_part h ->
   symmetrize h
   = Ok (imap (fun i r =>
                 r ++ omap (fun j => entry h j i)
                        (seq (S i) (length h - S i))) h)) /\
  (~ has_lower_part h -> symmetrize h = Raise IndexError).
Proof.
  split.
  - intros Hl. unfold symmetrize. rewrite <- (sym_upto_0 h) at 2.
    rewrite (sym_rows_column h (length h)); [|now apply lower_part_columns
                                             |reflexivity].
    f_equal. apply list_eq. intros i.
    rewrite sym_upto_lookup, list_lookup_imap.
    destruct (h !! i) eqn:E; simpl; [|reflexivity].
    apply lookup_lt_Some in E.
    destruct (decide (i < length h)); [reflexivity | lia].
  - intros Hn. destruct (symmetrize h) as [h'|e] eqn:E.
    + exfalso. apply Hn. apply lower_part_columns. intros i.
      unfold symmetrize in E. rewrite <- (sym_upto_0 h) in E at 2.
      eapply (sym_rows_inv h (length h) 0); [reflexivity | exact E | lia].
    + f_equal. now apply symmetrize_raises in E.
Qed.

End Completion.

(** * The chunks of a text, in general *)

Section Splitting.

Context {ext : Extern}.

Lemma startswith_app (p s : string) : PyStr.startswith p (p +:+ s) = true.
Proof.
  induction p as [|a p IH]; [reflexivity|].
  rewrite append_cons. simpl. now rewrite Ascii.eqb_refl, IH.
Qed.

Lemma startswith_app_l (p s y : string) :
  PyStr.startswith p s = true -> PyStr.startswith p (s +:+ y) = true.
Proof.
  revert s. induction p as [|a p IH]; intros s H; [reflexivity|].
  destruct s as [|b s]; [discriminate|].
  rewrite append_cons. simpl in *.
  apply andb_prop in H as [-> H]. simpl. now apply IH.
Qed.

(** Whether [p] starts a text is decided by its first [length p]
    characters. *)
Lemma startswith_app_long (p s y : string) :
  String.length p <= String.length s ->
  PyStr.startswith p (s +:+ y) = PyStr.startswith p s.
Proof.
  revert s. induction p as [|a p IH]; intros s H; [reflexivity|].
  destruct s as [|b s]; [simpl in H; lia|].
  rewrite append_cons. simpl in *. f_equal. apply IH. lia.
Qed.

Lemma length_append (s t : string) :
  String.length (s +:+ t) = String.length s + String.length t.
Proof.
  induction s as [|c s IH]; [reflexivity|].
  rewrite append_cons. simpl. now rewrite IH.
Qed.

Lemma contains_app_l (sep s y : string) :
  PyStr.contains sep (s +:+ y) = false -> PyStr.contains sep s = false.
Proof.
  induction s as [|c s IH]; intros H.
  - destruct sep; [|reflexivity].
    destruct y; discriminate.
  - rewrite append_cons in H. apply contains_cons in H as [Hp Hc].
    simpl PyStr.contains. rewrite (IH Hc), orb_false_r.
    destruct (PyStr.startswith sep (String c s)) eqn:E; [|reflexivity].
    apply (startswith_app_l _ _ y) in E. rewrite append_cons in E.
    congruence.
Qed.

Lemma split_go_skip (sep x b cur : string) :
  PyStr.split_go sep (String.length x) cur (x +:+ b)
  = PyStr.split_go sep 0 cur b.
Proof.
  induction x as [|c x IH]; [reflexivity|].
  rewrite append_cons. simpl String.length. cbn [PyStr.split_go]. exact IH.
Qed.

(** The cut at the first occurrence of a separator [p1 +:+ c]: no
    occurrence starts within [a] when none lies in [a +:+ p1]. *)
Lemma split_go_at_first (p1 : string) (c : ascii) (b : string) :
  forall a cur : string,
  PyStr.contains (p1 +:+ String c EmptyString) (a +:+ p1) = false ->
  PyStr.split_go (p1 +:+ String c EmptyString) 0 cur
    (a +:+ (p1 +:+ String c EmptyString) +:+ b)
  = (PyStr.rev cur +:+ a)
    :: PyStr.split_go (p1 +:+ String c EmptyString) 0 EmptyString b.
Proof.
  set (sep := p1 +:+ String c EmptyString).
  induction a as [|c0 a IH]; intros cur H.
  - rewrite append_nil_r. change (EmptyString +:+ sep +:+ b) with (sep +:+ b).
    pose proof (startswith_app sep b) as Hs.
    subst sep. destruct p1 as [|c1 p1].
    + simpl in *. cbn [PyStr.split_go]. simpl. now rewrite Ascii.eqb_refl.
    + rewrite !append_cons in *. cbn [PyStr.split_go]. rewrite Hs.
      f_equal.
      replace (String.length (String c1 (p1 +:+ String c EmptyString)) - 1)
        with (String.length (p1 +:+ String c EmptyString)) by (simpl; lia).
      apply split_go_skip.
  - rewrite append_cons in H. apply contains_cons in H as [Hp Hc].
    rewrite !append_cons. cbn [PyStr.split_go].
    assert (E : PyStr.startswith sep (String c0 (a +:+ sep +:+ b)) = false).
    { rewrite <- Hp. subst sep.
      rewrite <- (startswith_app_long _ (String c0 (a +:+ p1))
                    (String c EmptyString +:+ b)).
      - rewrite append_cons, !append_assoc. reflexivity.
      - simpl. rewrite !length_append. simpl. lia. }
    rewrite E, IH by exact Hc.
    rewrite rev_cons, append_assoc. reflexivity.
Qed.

(** ** The jobs of a text *)

Definition marker_stem : string := "NWChem Input Modul".
Definition marker : string := "NWChem Input Module".

(** The text made of a preamble and of job texts, each after a marker. *)
Definition with_markers (preamble : string) (bodies : list string) : string :=
  preamble +:+ foldr (fun b acc => marker +:+ b +:+ acc) EmptyString bodies.

(** No marker starts within the text, also when a marker follows it. *)
Definition marker_free (s : string) : Prop :=
  PyStr.contains marker (s +:+ marker_stem) = false.

Lemma split_with_markers (bodies : list string) :
  forall (preamble cur : string),
  Forall marker_free (preamble :: bodies) ->
  PyStr.split_go marker 0 cur (with_markers preamble bodies)
  = (PyStr.rev cur +:+ preamble) :: bodies.
Proof.
  unfold with_markers.
  induction bodies as [|b bodies IH]; intros preamble cur HF.
  - simpl. rewrite append_nil_r. apply split_go_absent.
    apply Forall_cons in HF as [H _]. exact (contains_app_l _ _ _ H).
  - apply Forall_cons in HF as [Hp HF]. cbn [foldr].
    change marker with (marker_stem +:+ String "e" EmptyString) at 1 2.
    rewrite (split_go_at_first marker_stem "e") by exact Hp.
    f_equal. apply (IH b EmptyString HF).
Qed.

(** X13.  The jobs of a text are decoded from the texts between the markers, the
    one before the first marker is the preamble, and a last text in which
    [CITATION] occurs is no job. *)
Theorem jobs_between_markers (preamble : string) (bodies : list string)
    (b : string) :
  Forall marker_free (preamble :: bodies ++ [b]) ->
  NwOutput_init (with_markers preamble (bodies ++ [b]))
  = js ← mapM parse_job
           (if PyStr.contains "CITATION" b then bodies else bodies ++ [b]);
    Ok {| raw := with_markers preamble (bodies ++ [b]);
          job_info := parse_preamble preamble;
          jobs := js |}.
Proof.
  intros HF. unfold NwOutput_init, PyStr.split. cbv zeta.
  fold marker. rewrite (split_with_markers _ _ _ HF).
  change (PyStr.rev EmptyString +:+ preamble) with preamble.
  rewrite app_comm_cons, py_get_last, removelast_last. simpl mbind.
  destruct (PyStr.contains "CITATION" b); reflexivity.
Qed.

(** ** The lines of a preamble *)

Definition nl : string := String "010" EmptyString.

Lemma split_go_char_last (c : ascii) (l : string) :
  PyStr.contains (String c EmptyString) l = false ->
  forall t cur : string,
  PyStr.split_go (String c EmptyString) 0 cur
    (t +:+ String c EmptyString +:+ l)
  = PyStr.split_go (String c EmptyString) 0 cur t ++ [l].
Proof.
  intros Hl. induction t as [|c0 t IH]; intros cur.
  - simpl. rewrite Ascii.eqb_refl. simpl.
    rewrite (split_go_absent _ _ _ Hl). reflexivity.
  - rewrite !append_cons. cbn [PyStr.split_go PyStr.startswith].
    destruct (Ascii.eqb c c0); simpl andb; cbv iota.
    + simpl String.length. simpl Nat.sub. rewrite IH. reflexivity.
    + apply IH.
Qed.

(** X14.  The last line of a preamble, when it has the form [k=v] or [k=m=v]
    with no [=] in [k] and [v], puts the stripped [v] under the stripped
    [k], whatever the lines before it say. *)
Theorem preamble_last_line_decides (t k m v line : string) :
  line = k +:+ "=" +:+ v \/ line = k +:+ "=" +:+ m +:+ "=" +:+ v ->
  PyStr.contains "=" k = false ->
  PyStr.contains "=" v = false ->
  PyStr.contains nl line = false ->
  parse_preamble (t +:+ nl +:+ line) !! PyStr.strip k
  = Some (PyStr.strip v).
Proof.
  intros Hline Hk Hv Hnl. unfold parse_preamble, PyStr.split.
  fold nl. unfold nl at 1 2.
  rewrite (split_go_char_last "010" line Hnl), foldl_app. cbn [foldl].
  set (info := foldl _ _ _). unfold parse_preamble_line, PyStr.split.
  assert (E : exists mid, PyStr.split_go "=" 0 EmptyString line
                          = k :: mid ++ [v]).
  { destruct Hline as [-> | ->].
    - exists []. change "="%string with (EmptyString +:+ String "=" EmptyString).
      rewrite (split_go_at_first EmptyString "=")
        by (now rewrite append_nil_r).
      now rewrite (split_go_absent _ _ _ Hv).
    - change "="%string with (EmptyString +:+ String "=" EmptyString) at 1 2.
      rewrite (split_go_at_first EmptyString "=")
        by (now rewrite append_nil_r).
      change (EmptyString +:+ String "=" EmptyString) with "="%string.
      rewrite (split_go_char_last "=" v Hv). eexists. reflexivity. }
  destruct E as (mid & ->).
  assert (Hlen : (1 <? length (k :: mid ++ [v]))%nat = true).
  { apply Nat.ltb_lt. simpl. rewrite length_app. simpl. lia. }
  rewrite Hlen. simpl hd.
  rewrite app_comm_cons, last_last. apply lookup_insert_eq.
Qed.

End Splitting.

(** * NWChem input ([pymatgen.io.nwchem.NwTask], [NwInput.from_str])

    The task record with its validation and its dict form, and the reader
    of an input text.  Conventions beside those above.
    - [NwInputError] is a value of [exn_in], which also holds the builtin
      exceptions.
    - The arguments of [NwTask.__init__] are typed as its documentation
      has them: the theory, the operation and the title are text, the
      basis set and the directives are dicts keyed by text; the charge, the
      spin multiplicity and the basis set option are stored as they come
      and have any type.  The warnings about [NWCHEM_BASIS_LIBRARY] change
      no value and are left out.
    - A loop over [lines.pop(0)] is a recursion on the list of the lines
      still to be read; the outer loop of [from_str], whose body reads any
      number of lines, runs on fuel, and the number of lines is enough
      fuel. *)

Module Input.

Inductive exn_in := NwInputError | Builtin (e : exn).

Inductive ires (A : Type) :=
| IOk (a : A)
| IRaise (e : exn_in).
Arguments IOk {A} a.
Arguments IRaise {A} e.

#[global] Instance ires_ret : MRet ires := fun A a => IOk a.

#[global] Instance ires_bind : MBind ires := fun A B f m =>
  match m with
  | IOk a => f a
  | IRaise e => IRaise e
  end.

(** A builtin operation inside the input code. *)
Definition builtin {A} (m : res A) : ires A :=
  match m with
  | Ok a => IOk a
  | Raise e => IRaise (Builtin e)
  end.

(** ** Text primitives of the reader *)

(** [s[n:]] *)
Fixpoint drop (n : nat) (s : string) : string :=
  match n, s with
  | S k, String _ s' => drop k s'
  | _, _ => s
  end.

(** [s.lstrip(c)], [s.rstrip(c)] and [s.strip(c)] for a single character *)
Fixpoint lstrip_char (c : ascii) (s : string) : string :=
  match s with
  | String a s' => if Ascii.eqb a c then lstrip_char c s' else s
  | EmptyString => EmptyString
  end.

Definition rstrip_char (c : ascii) (s : string) : string :=
  PyStr.rev (lstrip_char c (PyStr.rev s)).

Definition strip_char (c : ascii) (s : string) : string :=
  rstrip_char c (lstrip_char c s).

(** The double quote. *)
Definition dq : ascii := ascii_of_nat 34.

(** [sep.join(l)] *)
Fixpoint join (sep : string) (l : list string) : string :=
  match l with
  | [] => EmptyString
  | [s] => s
  | s :: l' => s +:+ sep +:+ join sep l'
  end.

(** ** [NwTask] *)

(** [NwTask.theories] *)
Definition theories : list (string * string) :=
  [("g3gn", "some description");
   ("scf", "Hartree-Fock");
   ("dft", "DFT");
   ("esp", "ESP");
   ("sodft", "Spin-Orbit DFT");
   ("mp2", "MP2 using a semi-direct algorithm");
   ("direct_mp2", "MP2 using a full-direct algorithm");
   ("rimp2", "MP2 using the RI approximation");
   ("ccsd", "Coupled-cluster single and double excitations");
   ("ccsd(t)", "Coupled-cluster linearized triples approximation");
   ("ccsd+t(ccsd)", "Fourth order triples contribution");
   ("mcscf", "Multiconfiguration SCF");
   ("selci", "Selected CI with perturbation correction");
   ("md", "Classical molecular dynamics simulation");
   ("pspw", "Pseudopotential plane-wave DFT for molecules and insulating solids using NWPW");
   ("band", "Pseudopotential plane-wave DFT for solids using NWPW");
   ("tce", "Tensor Contraction Engine");
   ("tddft", "Time Dependent DFT")].

(** [NwTask.operations] *)
Definition operations : list (string * string) :=
  [("energy", "Evaluate the single point energy.");
   ("gradient", "Evaluate the derivative of the energy with respect to nuclear coordinates.");
   ("optimize", "Minimize the energy by varying the molecular structure.");
   ("saddle", "Conduct a search for a transition state (or saddle point).");
   ("hessian", "Compute second derivatives.");
   ("frequencies", "Compute second derivatives and print out an analysis of molecular vibrations.");
   ("freq", "Same as frequencies.");
   ("vscf", "Compute anharmonic contributions to the vibrational modes.");
   ("property", "Calculate the properties for the wave function.");
   ("dynamics", "Perform classical molecular dynamics.");
   ("thermodynamics", "Perform multi-configuration thermodynamic integration using classical MD.");
   ("", "dummy")].

(** [k in d] for a class table *)
Definition has_key (k : string) (d : list (string * string)) : bool :=
  existsb (String.eqb k) (map fst d).

Section Task.

(** The types of the charge, of the spin multiplicity, of the basis set
    option and of the values of the directives. *)
Context {C M O D : Type}.

Record NwTask := {
  charge : C;
  spin_multiplicity : M;
  title : string;
  theory : string;
  basis_set : gmap string string;
  basis_set_option : O;
  operation : string;
  theory_directives : gmap string D;
  alternate_directives : gmap string (gmap string D)
}.

(** [x or {}] for a dict or [None] *)
Definition or_dict {K V} `{Countable K} (d : option (gmap K V)) : gmap K V :=
  match d with
  | Some m => m
  | None => ∅
  end.

(** [NwTask.__init__] *)
Definition NwTask_init (charge : C) (spin_multiplicity : M)
    (basis_set : option (gmap string string)) (basis_set_option : O)
    (title : option string) (theory operation : string)
    (theory_directives : option (gmap string D))
    (alternate_directives : option (gmap string (gmap string D)))
  : ires NwTask :=
  if negb (has_key (PyStr.lower theory) theories) then IRaise NwInputError
  else if negb (has_key (PyStr.lower operation) operations)
  then IRaise NwInputError
  else
    IOk {| charge := charge;
           spin_multiplicity := spin_multiplicity;
           title := match title with
                    | Some t => t
                    | None => theory +:+ " " +:+ operation
                    end;
           theory := theory;
           basis_set := or_dict basis_set;
           basis_set_option := basis_set_option;
           operation := operation;
           theory_directives := or_dict theory_directives;
           alternate_directives := or_dict alternate_directives |}.

(** The entries of a dict that [from_dict] reads: [None] is an absent key,
    and a value that may be [None] is an option under it. *)
Record task_dict := {
  d_charge : option C;
  d_spin_multiplicity : option M;
  d_title : option (option string);
  d_theory : option string;
  d_operation : option string;
  d_basis_set : option (option (gmap string string));
  d_basis_set_option : option O;
  d_theory_directives : option (option (gmap string D));
  d_alternate_directives : option (option (gmap string (gmap string D)))
}.

(** [NwTask.as_dict], without the entries [@module] and [@class] *)
Definition as_dict (t : NwTask) : task_dict :=
  {| d_charge := Some (charge t);
     d_spin_multiplicity := Some (spin_multiplicity t);
     d_title := Some (Some (title t));
     d_theory := Some (theory t);
     d_operation := Some (operation t);
     d_basis_set := Some (Some (basis_set t));
     d_basis_set_option := Some (basis_set_option t);
     d_theory_directives := Some (Some (theory_directives t));
     d_alternate_directives := Some (Some (alternate_directives t)) |}.

(** [dct[key]] *)
Definition item {A} (o : option A) : ires A :=
  builtin (of_opt KeyError o).

(** [NwTask.from_dict] *)
Definition from_dict (dct : task_dict) : ires NwTask :=
  charge ← item (d_charge dct);
  spin_multiplicity ← item (d_spin_multiplicity dct);
  title ← item (d_title dct);
  theory ← item (d_theory dct);
  operation ← item (d_operation dct);
  basis_set ← item (d_basis_set dct);
  basis_set_option ← item (d_basis_set_option dct);
  theory_directives ← item (d_theory_directives dct);
  alternate_directives ← item (d_alternate_directives dct);
  NwTask_init charge spin_multiplicity basis_set basis_set_option title
    theory operation theory_directives alternate_directives.

End Task.

Arguments NwTask : clear implicits.
Arguments task_dict : clear implicits.

(** ** [NwInput.from_str] *)

(** The records of the reader, over the types of floats and of
    molecules. *)
Module Rec.

Section Types.

Context {Float Mol : Type}.

(** The tasks that [from_str] makes: the charge is an [int] or [None], the
    spin multiplicity a [float] or [None], the basis set option text or
    [None], and the directives have text values. *)
Definition task : Type :=
  NwTask (option Z) (option Float) (option string) string.

Record NwInput := {
  _mol : option Mol;
  tasks : list task;
  directives : list (list string);
  geometry_options : option (list string);
  symmetry_options : option (list string);
  memory_options : option string
}.

(** The local variables of [from_str]. *)
Record locals := {
  v_directives : list (list string);
  v_tasks : list task;
  v_charge : option Z;
  v_spin_multiplicity : option Float;
  v_title : option string;
  v_basis_set : option (gmap string string);
  v_basis_set_option : option string;
  v_mol : option Mol;
  v_theory_directives : gmap string (gmap string string);
  v_geom_options : option (list string);
  v_symmetry_options : option (list string);
  v_memory_options : option string
}.

Definition init_locals : locals :=
  {| v_directives := [];
     v_tasks := [];
     v_charge := None;
     v_spin_multiplicity := None;
     v_title := None;
     v_basis_set := None;
     v_basis_set_option := None;
     v_mol := None;
     v_theory_directives := ∅;
     v_geom_options := None;
     v_symmetry_options := None;
     v_memory_options := None |}.

End Types.

Arguments task : clear implicits.
Arguments NwInput : clear implicits.
Arguments locals : clear implicits.
Arguments init_locals : clear implicits.

End Rec.

Export Rec.

Abbreviation task := (Rec.task Float).
Abbreviation NwInput := (Rec.NwInput Float Mol).
Abbreviation locals := (Rec.locals Float Mol).
Abbreviation init_locals := (Rec.init_locals Float Mol).

Section Reader.

Context {ext : Extern}.

(** [lines.pop(0)] *)
Definition pop0 (lines : list string) : ires (string * list string) :=
  match lines with
  | l :: lines' => IOk (l, lines')
  | [] => IRaise (Builtin IndexError)
  end.

Definition is_end (line : string) : bool :=
  String.eqb (PyStr.lower line) "end".

(** The rows of a geometry block, from the stripped [line] at hand:
    [while line.lower() != "end"]. *)
Fixpoint geometry_rows (lines : list string) (line : string)
    (species : list string) (coords : list (list Float))
  : ires (list string * list (list Float) * list string) :=
  if is_end line then IOk (species, coords, lines)
  else
    let tokens := PyStr.split_ws line in
    t0 ← builtin (py_get tokens 0);
    row ← builtin (mapM float_res (tail tokens));
    match lines with
    | l :: lines' =>
        geometry_rows lines' (PyStr.strip l) (species ++ [t0]) (coords ++ [row])
    | [] => IRaise (Builtin IndexError)
    end.

(** The rows of a basis block. *)
Fixpoint basis_rows (lines : list string) (line : string)
    (basis_set : gmap string string)
  : ires (gmap string string * list string) :=
  if is_end line then IOk (basis_set, lines)
  else
    let tokens := PyStr.split_ws line in
    t0 ← builtin (py_get tokens 0);
    tl ← builtin (py_get tokens (-1));
    match lines with
    | l :: lines' =>
        basis_rows lines' (PyStr.strip l)
          (<[t0 := strip_char dq tl]> basis_set)
    | [] => IRaise (Builtin IndexError)
    end.

(** The rows of a theory block: the directives of the theory and the spin
    multiplicity. *)
Fixpoint theory_rows (lines : list string) (line : string)
    (dirs : gmap string string) (spin_multiplicity : option Float)
  : ires (gmap string string * option Float * list string) :=
  if is_end line then IOk (dirs, spin_multiplicity, lines)
  else
    let tokens := PyStr.split_ws line in
    t0 ← builtin (py_get tokens 0);
    tl ← builtin (py_get tokens (-1));
    spin_multiplicity ←
      (if String.eqb t0 "mult"
       then t1 ← builtin (py_get tokens 1);
            x ← builtin (float_res t1);
            IOk (Some x)
       else IOk spin_multiplicity);
    match lines with
    | l :: lines' =>
        theory_rows lines' (PyStr.strip l) (<[t0 := tl]> dirs) spin_multiplicity
    | [] => IRaise (Builtin IndexError)
    end.

(** The body of the outer loop for a stripped line that is not empty and
    for the lines after it: the lines left and the variables. *)
Definition read_line (line : string) (lines : list string) (s : locals)
  : ires (list string * locals) :=
  let tokens := PyStr.split_ws line in
  t0 ← builtin (py_get tokens 0);
  let key := PyStr.lower t0 in
  if String.eqb key "geometry" then
    let geom_options := tail tokens in
    '(l1, lines1) ← pop0 lines;
    let line1 := PyStr.strip l1 in
    let tokens1 := PyStr.split_ws line1 in
    t1 ← builtin (py_get tokens1 0);
    '(symmetry_options, line2, lines2) ←
      (if String.eqb (PyStr.lower t1) "symmetry"
       then '(l2, lines2) ← pop0 lines1;
            IOk (Some (tail tokens1), PyStr.strip l2, lines2)
       else IOk (v_symmetry_options s, line1, lines1));
    '(species, coords, rest) ← geometry_rows lines2 line2 [] [];
    mol ← builtin (Molecule species coords);
    IOk (rest,
         {| v_directives := v_directives s;
            v_tasks := v_tasks s;
            v_charge := v_charge s;
            v_spin_multiplicity := v_spin_multiplicity s;
            v_title := v_title s;
            v_basis_set := v_basis_set s;
            v_basis_set_option := v_basis_set_option s;
            v_mol := Some mol;
            v_theory_directives := v_theory_directives s;
            v_geom_options := Some geom_options;
            v_symmetry_options := symmetry_options;
            v_memory_options := v_memory_options s |})
  else if String.eqb key "charge" then
    t1 ← builtin (py_get tokens 1);
    z ← builtin (of_opt ValueError (PyStr.int t1));
    IOk (lines,
         {| v_directives := v_directives s;
            v_tasks := v_tasks s;
            v_charge := Some z;
            v_spin_multiplicity := v_spin_multiplicity s;
            v_title := v_title s;
            v_basis_set := v_basis_set s;
            v_basis_set_option := v_basis_set_option s;
            v_mol := v_mol s;
            v_theory_directives := v_theory_directives s;
            v_geom_options := v_geom_options s;
            v_symmetry_options := v_symmetry_options s;
            v_memory_options := v_memory_options s |})
  else if String.eqb key "title" then
    IOk (lines,
         {| v_directives := v_directives s;
            v_tasks := v_tasks s;
            v_charge := v_charge s;
            v_spin_multiplicity := v_spin_multiplicity s;
            v_title := Some (strip_char dq (PyStr.strip (drop 5 line)));
            v_basis_set := v_basis_set s;
            v_basis_set_option := v_basis_set_option s;
            v_mol := v_mol s;
            v_theory_directives := v_theory_directives s;
            v_geom_options := v_geom_options s;
            v_symmetry_options := v_symmetry_options s;
            v_memory_options := v_memory_options s |})
  else if String.eqb key "basis" then
    '(l1, lines1) ← pop0 lines;
    '(basis_set, rest) ← basis_rows lines1 (PyStr.strip l1) ∅;
    IOk (rest,
         {| v_directives := v_directives s;
            v_tasks := v_tasks s;
            v_charge := v_charge s;
            v_spin_multiplicity := v_spin_multiplicity s;
            v_title := v_title s;
            v_basis_set := Some basis_set;
            v_basis_set_option := v_basis_set_option s;
            v_mol := v_mol s;
            v_theory_directives := v_theory_directives s;
            v_geom_options := v_geom_options s;
            v_symmetry_options := v_symmetry_options s;
            v_memory_options := v_memory_options s |})
  else if has_key key theories then
    let basis_set_option :=
      if (1 <? length tokens)%nat then tokens !! 1
      else v_basis_set_option s in
    '(l1, lines1) ← pop0 lines;
    '(dirs, spin_multiplicity, rest) ←
      theory_rows lines1 (PyStr.strip l1) ∅ (v_spin_multiplicity s);
    IOk (rest,
         {| v_directives := v_directives s;
            v_tasks := v_tasks s;
            v_charge := v_charge s;
            v_spin_multiplicity := spin_multiplicity;
            v_title := v_title s;
            v_basis_set := v_basis_set s;
            v_basis_set_option := basis_set_option;
            v_mol := v_mol s;
            v_theory_directives := <[key := dirs]> (v_theory_directives s);
            v_geom_options := v_geom_options s;
            v_symmetry_options := v_symmetry_options s;
            v_memory_options := v_memory_options s |})
  else if String.eqb key "task" then
    theory ← builtin (py_get tokens 1);
    operation ← builtin (py_get tokens 2);
    t ← NwTask_init (v_charge s) (v_spin_multiplicity s) (v_basis_set s)
          (v_basis_set_option s) (v_title s) theory operation
          (v_theory_directives s !! theory) None;
    IOk (lines,
         {| v_directives := v_directives s;
            v_tasks := v_tasks s ++ [t];
            v_charge := v_charge s;
            v_spin_multiplicity := v_spin_multiplicity s;
            v_title := v_title s;
            v_basis_set := v_basis_set s;
            v_basis_set_option := v_basis_set_option s;
            v_mol := v_mol s;
            v_theory_directives := v_theory_directives s;
            v_geom_options := v_geom_options s;
            v_symmetry_options := v_symmetry_options s;
            v_memory_options := v_memory_options s |})
  else if String.eqb key "memory" then
    IOk (lines,
         {| v_directives := v_directives s;
            v_tasks := v_tasks s;
            v_charge := v_charge s;
            v_spin_multiplicity := v_spin_multiplicity s;
            v_title := v_title s;
            v_basis_set := v_basis_set s;
            v_basis_set_option := v_basis_set_option s;
            v_mol := v_mol s;
            v_theory_directives := v_theory_directives s;
            v_geom_options := v_geom_options s;
            v_symmetry_options := v_symmetry_options s;
            v_memory_options := Some (join " " (tail tokens)) |})
  else
    IOk (lines,
         {| v_directives := v_directives s ++ [tokens];
            v_tasks := v_tasks s;
            v_charge := v_charge s;
            v_spin_multiplicity := v_spin_multiplicity s;
            v_title := v_title s;
            v_basis_set := v_basis_set s;
            v_basis_set_option := v_basis_set_option s;
            v_mol := v_mol s;
            v_theory_directives := v_theory_directives s;
            v_geom_options := v_geom_options s;
            v_symmetry_options := v_symmetry_options s;
            v_memory_options := v_memory_options s |}).

(** [while len(lines) > 0]; [None] when the fuel runs out. *)
Fixpoint read_lines (fuel : nat) (lines : list string) (s : locals)
  : option (ires locals) :=
  match lines with
  | [] => Some (IOk s)
  | l :: lines' =>
      match fuel with
      | O => None
      | S fuel' =>
          let line := PyStr.strip l in
          if String.eqb line "" then read_lines fuel' lines' s
          else
            match read_line line lines' s with
            | IOk (rest, s') => read_lines fuel' rest s'
            | IRaise e => Some (IRaise e)
            end
      end
  end.

(** [NwInput.from_str] *)
Definition from_str (string_input : string) : option (ires NwInput) :=
  let lines := PyStr.split (String "010" EmptyString)
                 (PyStr.strip string_input) in
  r ← read_lines (length lines) lines init_locals;
  Some (s ← r;
        IOk {| _mol := v_mol s;
               tasks := v_tasks s;
               directives := v_directives s;
               geometry_options := v_geom_options s;
               symmetry_options := v_symmetry_options s;
               memory_options := v_memory_options s |}).

End Reader.

End Input.

(** * Properties of the input side *)

Section InputFacts.

Import Input.

Context {ext : Extern}.

Lemma ibind_ok {A B} (m : ires A) (f : A -> ires B) (b : B) :
  m ≫= f = IOk b -> exists a, m = IOk a /\ f a = IOk b.
Proof. destruct m as [a|e]; simpl; [eauto | discriminate]. Qed.

Lemma builtin_ok {A} (m : res A) (a : A) : builtin m = IOk a -> m = Ok a.
Proof. destruct m; simpl; congruence. Qed.

(** Case analysis of a computation of the reader that returned. *)
Ltac in_inv :=
  repeat match goal with
         | H : IOk _ = IOk _ |- _ => injection H as H; subst
         | H : IRaise _ = IOk _ |- _ => discriminate H
         | H : (_, _) = (_, _) |- _ => injection H as ? ?; subst
         | H : _ ≫= _ = IOk _ |- _ =>
             let a := fresh "a" in
             let E := fresh "E" in
             apply ibind_ok in H as (a & E & H)
         | H : pop0 ?l = IOk _ |- _ => destruct l; simpl in H
         | H : (let '(_, _) := ?p in _) = IOk _ |- _ => destruct p
         | H : (if ?b then _ else _) = IOk _ |- _ => destruct b eqn:?
         end.

(** ** The dict form of a task *)

(** X16.  A task made by [NwTask.__init__] is rebuilt from its dict form. *)
Theorem task_dict_round_trip {C M O D : Type} (c : C) (m : M)
    (bs : option (gmap string string)) (o : O) (ti : option string)
    (th op : string) (td : option (gmap string D))
    (ad : option (gmap string (gmap string D))) (t : NwTask C M O D) :
  NwTask_init c m bs o ti th op td ad = IOk t ->
  from_dict (as_dict t) = IOk t.
Proof.
  unfold NwTask_init.
  destruct (has_key (PyStr.lower th) theories) eqn:E1; simpl; [|discriminate].
  destruct (has_key (PyStr.lower op) operations) eqn:E2; simpl;
    [|discriminate].
  intros [= <-]. unfold from_dict, as_dict, NwTask_init. simpl.
  now rewrite E1, E2.
Qed.

(** ** The loops consume lines *)

Lemma geometry_rows_eq (lines : list string) (line : string)
    (species : list string) (coords : list (list Float)) :
  geometry_rows lines line species coords
  = if is_end line then IOk (species, coords, lines)
    else
      t0 ← builtin (py_get (PyStr.split_ws line) 0);
      row ← builtin (mapM float_res (tail (PyStr.split_ws line)));
      match lines with
      | l :: lines' =>
          geometry_rows lines' (PyStr.strip l) (species ++ [t0])
            (coords ++ [row])
      | [] => IRaise (Builtin IndexError)
      end.
Proof. destruct lines; reflexivity. Qed.

Lemma basis_rows_eq (lines : list string) (line : string)
    (basis_set : gmap string string) :
  basis_rows lines line basis_set
  = if is_end line then IOk (basis_set, lines)
    else
      t0 ← builtin (py_get (PyStr.split_ws line) 0);
      tl ← builtin (py_get (PyStr.split_ws line) (-1));
      match lines with
      | l :: lines' =>
          basis_rows lines' (PyStr.strip l)
            (<[t0 := strip_char dq tl]> basis_set)
      | [] => IRaise (Builtin IndexError)
      end.
Proof. destruct lines; reflexivity. Qed.

Lemma theory_rows_eq (lines : list string) (line : string)
    (dirs : gmap string string) (spin_multiplicity : option Float) :
  theory_rows lines line dirs spin_multiplicity
  = if is_end line then IOk (dirs, spin_multiplicity, lines)
    else
      t0 ← builtin (py_get (PyStr.split_ws line) 0);
      tl ← builtin (py_get (PyStr.split_ws line) (-1));
      spin_multiplicity ←
        (if String.eqb t0 "mult"
         then t1 ← builtin (py_get (PyStr.split_ws line) 1);
              x ← builtin (float_res t1);
              IOk (Some x)
         else IOk spin_multiplicity);
      match lines with
      | l :: lines' =>
          theory_rows lines' (PyStr.strip l) (<[t0 := tl]> dirs)
            spin_multiplicity
      | [] => IRaise (Builtin IndexError)
      end.
Proof. destruct lines; reflexivity. Qed.

Lemma geometry_rows_shorter (lines : list string) :
  forall line species coords species' coords' rest,
  geometry_rows lines line species coords = IOk (species', coords', rest) ->
  length rest <= length lines.
Proof.
  induction lines as [|l lines IH]; intros line sp co sp' co' rest H;
    rewrite geometry_rows_eq in H; destruct (is_end line).
  - now injection H as _ _ <-.
  - in_inv.
  - now injection H as _ _ <-.
  - in_inv. apply IH in H. simpl. lia.
Qed.

Lemma basis_rows_shorter (lines : list string) :
  forall line bs bs' rest,
  basis_rows lines line bs = IOk (bs', rest) ->
  length rest <= length lines.
Proof.
  induction lines as [|l lines IH]; intros line bs bs' rest H;
    rewrite basis_rows_eq in H; destruct (is_end line).
  - now injection H as _ <-.
  - in_inv.
  - now injection H as _ <-.
  - in_inv. apply IH in H. simpl. lia.
Qed.

Lemma theory_rows_shorter (lines : list string) :
  forall line dirs sm dirs' sm' rest,
  theory_rows lines line dirs sm = IOk (dirs', sm', rest) ->
  length rest <= length lines.
Proof.
  induction lines as [|l lines IH]; intros line dirs sm dirs' sm' rest H;
    rewrite theory_rows_eq in H; destruct (is_end line).
  - now injection H as _ _ <-.
  - apply ibind_ok in H as (t0 & _ & H). apply ibind_ok in H as (tl & _ & H).
    apply ibind_ok in H as (sm1 & _ & H). discriminate.
  - now injection H as _ _ <-.
  - apply ibind_ok in H as (t0 & _ & H). apply ibind_ok in H as (tl & _ & H).
    apply ibind_ok in H as (sm1 & _ & H). apply IH in H. simpl. lia.
Qed.

Lemma read_line_shorter (line : string) (lines rest : list string)
    (s s' : locals) :
  read_line line lines s = IOk (rest, s') -> length rest <= length lines.
Proof.
  unfold read_line. intros H. in_inv; simpl; try lia;
    repeat match goal with
           | H : geometry_rows _ _ _ _ = IOk _ |- _ =>
               apply geometry_rows_shorter in H
           | H : basis_rows _ _ _ = IOk _ |- _ =>
               apply basis_rows_shorter in H
           | H : theory_rows _ _ _ _ = IOk _ |- _ =>
               apply theory_rows_shorter in H
           end; simpl in *; lia.
Qed.

(** The number of the lines is enough fuel. *)
Lemma read_lines_total (fuel : nat) :
  forall lines s, length lines <= fuel -> is_Some (read_lines fuel lines s).
Proof.
  induction fuel as [|fuel IH]; intros lines s Hlen.
  - destruct lines; [eexists; reflexivity | simpl in Hlen; lia].
  - destruct lines as [|l lines]; [eexists; reflexivity|].
    simpl in Hlen. cbn [read_lines].
    destruct (String.eqb (PyStr.strip l) ""); [apply IH; lia|].
    destruct (read_line (PyStr.strip l) lines s) as [[rest s']|e] eqn:E;
      [|eexists; reflexivity].
    apply read_line_shorter in E. apply IH. lia.
Qed.

(** More fuel changes no result. *)
Lemma read_lines_fuel (fuel : nat) :
  forall fuel' lines s r, fuel <= fuel' ->
  read_lines fuel lines s = Some r -> read_lines fuel' lines s = Some r.
Proof.
  induction fuel as [|fuel IH]; intros fuel' lines s r Hle H.
  - destruct lines; [|discriminate]. destruct fuel'; exact H.
  - destruct lines as [|l lines]; [destruct fuel'; exact H|].
    destruct fuel' as [|fuel']; [lia|]. cbn [read_lines] in *.
    destruct (String.eqb (PyStr.strip l) ""); [apply IH; [lia | exact H]|].
    destruct (read_line (PyStr.strip l) lines s) as [[rest s']|e];
      [apply IH; [lia | exact H] | exact H].
Qed.

(** X15.  [from_str] ends on every text: each pass of its outer loop removes a
    line, and the loops of the blocks only remove lines, so the outer loop
    runs at most once per line. *)
Theorem from_str_ends (string_input : string) :
  exists r, from_str string_input = Some r.
Proof.
  unfold from_str.
  set (lines := PyStr.split _ _).
  destruct (read_lines_total (length lines) lines init_locals
              (Nat.le_refl _)) as [r ->].
  eexists. reflexivity.
Qed.

(** ** A block without its end *)

Lemma py_get_raises {A} (l : list A) (i : Z) (e : exn) :
  py_get l i = Raise e -> e = IndexError.
Proof.
  unfold py_get, py_pos.
  destruct ((0 <=? i)%Z && (i <? Z.of_nat (length l))%Z); simpl.
  - destruct (l !! Z.to_nat i); simpl; congruence.
  - destruct ((- Z.of_nat (length l) <=? i)%Z && (i <? 0)%Z); simpl;
      [|congruence].
    destruct (l !! Z.to_nat (Z.of_nat (length l) + i)); simpl; congruence.
Qed.

Lemma mapM_float_raises (l : list string) :
  forall e, mapM float_res l = Raise e -> e = ValueError.
Proof.
  induction l as [|a l IH]; intros e H; [discriminate|].
  cbn [mapM] in H. destruct (float_res a) eqn:E; simpl in H.
  - destruct (mapM float_res l) eqn:E2; simpl in H; [discriminate|].
    injection H as <-. now apply IH.
  - injection H as <-. unfold float_res in E.
    destruct (float a); simpl in E; congruence.
Qed.

(** No line is an [end] line. *)
Definition no_end (lines : list string) : Prop :=
  Forall (fun l => is_end (PyStr.strip l) = false) lines.

(** The outcome of a block that is not closed. *)
Definition raises_index_or_value {A} (r : ires A) : Prop :=
  r = IRaise (Builtin IndexError) \/ r = IRaise (Builtin ValueError).

Ltac raise_builtin :=
  repeat match goal with
         | |- context [builtin (py_get ?l ?i)] =>
             let E := fresh "E" in
             destruct (py_get l i) eqn:E; simpl;
             [|apply py_get_raises in E; subst]
         | |- context [builtin (mapM float_res ?l)] =>
             let E := fresh "E" in
             destruct (mapM float_res l) eqn:E; simpl;
             [|apply mapM_float_raises in E; subst]
         | |- context [builtin (float_res ?t)] =>
             unfold float_res; destruct (float t); simpl
         end;
  try solve [reflexivity | now left | now right].

Lemma basis_rows_no_end (lines : list string) :
  forall line bs, is_end line = false -> no_end lines ->
  basis_rows lines line bs = IRaise (Builtin IndexError).
Proof.
  induction lines as [|l lines IH]; intros line bs He Hn;
    rewrite basis_rows_eq, He; raise_builtin.
  apply Forall_cons in Hn as [Hl Hn]. now apply IH.
Qed.

Lemma geometry_rows_no_end (lines : list string) :
  forall line sp co, is_end line = false -> no_end lines ->
  raises_index_or_value (geometry_rows lines line sp co).
Proof.
  unfold raises_index_or_value.
  induction lines as [|l lines IH]; intros line sp co He Hn;
    rewrite geometry_rows_eq, He; raise_builtin.
  apply Forall_cons in Hn as [Hl Hn]. now apply IH.
Qed.

Lemma theory_rows_no_end (lines : list string) :
  forall line dirs sm, is_end line = false -> no_end lines ->
  raises_index_or_value (theory_rows lines line dirs sm).
Proof.
  unfold raises_index_or_value.
  induction lines as [|l lines IH]; intros line dirs sm He Hn;
    rewrite theory_rows_eq, He; raise_builtin;
    destruct (String.eqb _ "mult"); simpl; raise_builtin;
    try (now left);
    apply Forall_cons in Hn as [Hl Hn]; now apply IH.
Qed.

Lemma bind_raises {A B} (m : ires A) (f : A -> ires B) :
  raises_index_or_value m -> raises_index_or_value (m ≫= f).
Proof. intros [-> | ->]; [left | right]; reflexivity. Qed.

(** X17.  A geometry block, a basis block or a theory block after which no line
    is [end] makes the reader raise: [IndexError] for a basis block,
    [IndexError] or [ValueError] for the other two; no input is
    returned, and the molecule is not made. *)
Theorem block_without_end_raises (fuel : nat) (l : string)
    (lines : list string) (s : locals) (t0 key : string) :
  py_get (PyStr.split_ws (PyStr.strip l)) 0 = Ok t0 ->
  key = PyStr.lower t0 ->
  key = "geometry" \/ key = "basis" \/ has_key key theories = true ->
  no_end lines ->
  exists e, read_lines (S fuel) (l :: lines) s = Some (IRaise (Builtin e)) /\
            (e = IndexError \/ e = ValueError) /\
            (key = "basis" -> e = IndexError).
Proof.
  intros Ht0 Hkey Hk Hn. cbn [read_lines].
  destruct (String.eqb_spec (PyStr.strip l) "") as [Hb|_].
  { rewrite Hb in Ht0. discriminate. }
  assert (R : raises_index_or_value (read_line (PyStr.strip l) lines s) /\
              (key = "basis" ->
               read_line (PyStr.strip l) lines s
               = IRaise (Builtin IndexError))).
  { unfold read_line. rewrite Ht0. simpl mbind. rewrite <- Hkey.
    destruct (String.eqb_spec key "geometry") as [Hg|Hg].
    - split; [|intros ->; discriminate].
      destruct lines as [|l1 lines1]; [now left|]. simpl pop0. simpl mbind.
      apply Forall_cons in Hn as [H1 Hn1].
      unfold raises_index_or_value. raise_builtin.
      destruct (String.eqb (PyStr.lower _) "symmetry").
      + destruct lines1 as [|l2 lines2]; [now left|]. simpl.
        apply Forall_cons in Hn1 as [H2 Hn2].
        apply bind_raises. now apply geometry_rows_no_end.
      + simpl. apply bind_raises. now apply geometry_rows_no_end.
    - destruct (String.eqb_spec key "charge") as [Hc|Hc].
      { subst key. destruct Hk as [?|[?|?]]; try congruence.
        rewrite Hc in H. discriminate. }
      destruct (String.eqb_spec key "title") as [Hti|Hti].
      { subst key. destruct Hk as [?|[?|?]]; try congruence.
        rewrite Hti in H. discriminate. }
      destruct (String.eqb_spec key "basis") as [Hbs|Hbs].
      + assert (Hr : (pop0 lines ≫= fun '(l1, lines1) =>
                        basis_rows lines1 (PyStr.strip l1) ∅ ≫=
                        fun '(basis_set, rest) =>
                          IOk (rest,
                               {| v_directives := v_directives s;
                                  v_tasks := v_tasks s;
                                  v_charge := v_charge s;
                                  v_spin_multiplicity := v_spin_multiplicity s;
                                  v_title := v_title s;
                                  v_basis_set := Some basis_set;
                                  v_basis_set_option := v_basis_set_option s;
                                  v_mol := v_mol s;
                                  v_theory_directives := v_theory_directives s;
                                  v_geom_options := v_geom_options s;
                                  v_symmetry_options := v_symmetry_options s;
                                  v_memory_options := v_memory_options s |}))
                      = IRaise (Builtin IndexError)).
        { destruct lines as [|l1 lines1]; [reflexivity|]. simpl.
          apply Forall_cons in Hn as [H1 Hn1].
          now rewrite basis_rows_no_end. }
        split; [left; exact Hr | intros _; exact Hr].
      + split; [|congruence].
        destruct Hk as [?|[?|Hth]]; try congruence. rewrite Hth.
        destruct lines as [|l1 lines1]; [now left|]. simpl pop0. simpl mbind.
        apply Forall_cons in Hn as [H1 Hn1].
        apply bind_raises. now apply theory_rows_no_end. }
  destruct R as [[R|R] Rb]; rewrite R.
  - exists IndexError. split; [reflexivity|]. split; [now left | reflexivity].
  - exists ValueError. split; [reflexivity|]. split; [now right|].
    intros Hb. specialize (Rb Hb). congruence.
Qed.

(** ** The tasks of a text *)

(** What holds of a task made by the reader. *)
Definition task_ok (t : task) : Prop :=
  has_key (PyStr.lower (theory t)) theories = true /\
  has_key (PyStr.lower (operation t)) operations = true /\
  (has_key (theory t) theories = false -> theory_directives t = ∅).

(** The directives read so far are filed under names of the table. *)
Definition filed_by_theory (s : locals) : Prop :=
  forall k d, v_theory_directives s !! k = Some d -> has_key k theories = true.

Lemma NwTask_init_ok {C M O D : Type} (c : C) (m : M)
    (bs : option (gmap string string)) (o : O) (ti : option string)
    (th op : string) (td : option (gmap string D))
    (ad : option (gmap string (gmap string D))) (t : NwTask C M O D) :
  NwTask_init c m bs o ti th op td ad = IOk t ->
  has_key (PyStr.lower th) theories = true /\
  has_key (PyStr.lower op) operations = true /\
  theory t = th /\ operation t = op /\ theory_directives t = or_dict td.
Proof.
  unfold NwTask_init.
  destruct (has_key (PyStr.lower th) theories); simpl; [|discriminate].
  destruct (has_key (PyStr.lower op) operations); simpl; [|discriminate].
  intros [= <-]. simpl. auto.
Qed.

Lemma read_line_tasks (line : string) (lines rest : list string)
    (s s' : locals) :
  read_line line lines s = IOk (rest, s') ->
  filed_by_theory s -> Forall task_ok (v_tasks s) ->
  filed_by_theory s' /\ Forall task_ok (v_tasks s').
Proof.
  unfold read_line, filed_by_theory. intros H Hf Ht.
  apply ibind_ok in H as (t0 & _ & H).
  destruct (String.eqb (PyStr.lower t0) "geometry"); [in_inv; auto|].
  destruct (String.eqb (PyStr.lower t0) "charge"); [in_inv; auto|].
  destruct (String.eqb (PyStr.lower t0) "title"); [in_inv; auto|].
  destruct (String.eqb (PyStr.lower t0) "basis"); [in_inv; auto|].
  destruct (has_key (PyStr.lower t0) theories) eqn:Hk.
  { in_inv; simpl; (split; [|exact Ht]); intros k d Hl;
      (destruct (decide (k = PyStr.lower t0)) as [->|Hne];
       [exact Hk | rewrite lookup_insert_ne in Hl by congruence; eauto]). }
  destruct (String.eqb (PyStr.lower t0) "task"); [|in_inv; auto].
  apply ibind_ok in H as (th & _ & H). apply ibind_ok in H as (op & _ & H).
  apply ibind_ok in H as (t & Et & H). injection H as <- <-. simpl.
  split; [exact Hf|]. apply Forall_app. split; [exact Ht|].
  apply Forall_cons; split; [|constructor].
  apply NwTask_init_ok in Et as (H1 & H2 & E1 & E2 & E3).
  unfold task_ok. rewrite E1, E2, E3.
  split; [exact H1|]. split; [exact H2|].
  intros Hn. destruct (v_theory_directives s !! th) as [d|] eqn:El;
    [|reflexivity].
  apply Hf in El. congruence.
Qed.

Lemma read_lines_tasks (fuel : nat) :
  forall lines s s',
  read_lines fuel lines s = Some (IOk s') ->
  filed_by_theory s -> Forall task_ok (v_tasks s) ->
  Forall task_ok (v_tasks s').
Proof.
  induction fuel as [|fuel IH]; intros lines s s' H Hf Ht.
  - destruct lines; [|discriminate]. now injection H as <-.
  - destruct lines as [|l lines]; [now injection H as <-|].
    cbn [read_lines] in H.
    destruct (String.eqb (PyStr.strip l) ""); [now apply (IH lines s)|].
    destruct (read_line (PyStr.strip l) lines s) as [[rest s1]|e] eqn:E;
      [|discriminate].
    destruct (read_line_tasks _ _ _ _ _ E Hf Ht) as [Hf1 Ht1].
    now apply (IH rest s1).
Qed.

(** X18.  Every task of the input that [from_str] returns names a theory and an
    operation of the tables of [NwTask], whatever their case; and a task
    whose theory is not written exactly as in the table, as with a capital
    letter, has no theory directives, whatever blocks the text has: the
    blocks are filed under the name in lower case and looked up under the
    name as written. *)
Theorem tasks_of_text_are_valid (string_input : string) (inp : NwInput) :
  from_str string_input = Some (IOk inp) ->
  Forall task_ok (tasks inp).
Proof.
  unfold from_str. set (lines := PyStr.split _ _).
  destruct (read_lines (length lines) lines init_locals) as [[s|e]|] eqn:E;
    simpl; [|discriminate|discriminate].
  intros [= <-]. simpl.
  apply (read_lines_tasks _ _ _ _ E); [|constructor].
  intros k d Hl. simpl in Hl. now rewrite lookup_empty in Hl.
Qed.

(** ** A text of directives only *)

(** The first words that start a block or set a variable. *)
Definition keyword (k : string) : bool :=
  String.eqb k "geometry" || String.eqb k "charge" || String.eqb k "title"
  || String.eqb k "basis" || has_key k theories || String.eqb k "task"
  || String.eqb k "memory".

(** A blank line, or a line whose first word is no keyword. *)
Definition plain (l : string) : Prop :=
  PyStr.strip l = "" \/
  exists t0 ts, PyStr.split_ws (PyStr.strip l) = t0 :: ts /\
                keyword (PyStr.lower t0) = false.

Definition directive_of (l : string) : option (list string) :=
  if String.eqb (PyStr.strip l) "" then None
  else Some (PyStr.split_ws (PyStr.strip l)).

Lemma read_line_plain (l : string) (lines : list string) (s : locals)
    (t0 : string) (ts : list string) :
  PyStr.split_ws (PyStr.strip l) = t0 :: ts ->
  keyword (PyStr.lower t0) = false ->
  read_line (PyStr.strip l) lines s
  = IOk (lines,
         {| v_directives := v_directives s ++ [t0 :: ts];
            v_tasks := v_tasks s;
            v_charge := v_charge s;
            v_spin_multiplicity := v_spin_multiplicity s;
            v_title := v_title s;
            v_basis_set := v_basis_set s;
            v_basis_set_option := v_basis_set_option s;
            v_mol := v_mol s;
            v_theory_directives := v_theory_directives s;
            v_geom_options := v_geom_options s;
            v_symmetry_options := v_symmetry_options s;
            v_memory_options := v_memory_options s |}).
Proof.
  intros Hs Hk. unfold read_line. rewrite Hs.
  change (builtin (py_get (t0 :: ts) 0)) with (IOk t0). simpl mbind.
  unfold keyword in Hk.
  repeat (apply orb_false_elim in Hk as [Hk ?]).
  repeat match goal with H : _ = false |- _ => rewrite H; clear H end.
  reflexivity.
Qed.

Lemma read_lines_plain (lines : list string) :
  forall fuel s, length lines <= fuel -> Forall plain lines ->
  read_lines fuel lines s
  = Some (IOk {| v_directives := v_directives s ++ omap directive_of lines;
                 v_tasks := v_tasks s;
                 v_charge := v_charge s;
                 v_spin_multiplicity := v_spin_multiplicity s;
                 v_title := v_title s;
                 v_basis_set := v_basis_set s;
                 v_basis_set_option := v_basis_set_option s;
                 v_mol := v_mol s;
                 v_theory_directives := v_theory_directives s;
                 v_geom_options := v_geom_options s;
                 v_symmetry_options := v_symmetry_options s;
                 v_memory_options := v_memory_options s |}).
Proof.
  induction lines as [|l lines IH]; intros fuel s Hlen Hp.
  - destruct fuel; simpl; rewrite app_nil_r; now destruct s.
  - destruct fuel as [|fuel]; [simpl in Hlen; lia|].
    apply Forall_cons in Hp as [Hl Hp]. simpl in Hlen.
    cbn [read_lines].
    change (omap directive_of (l :: lines))
      with (match directive_of l with
            | Some y => y :: omap directive_of lines
            | None => omap directive_of lines
            end).
    unfold directive_of at 1.
    destruct (String.eqb_spec (PyStr.strip l) "") as [Hb|Hb].
    + apply IH; [lia | exact Hp].
    + destruct Hl as [Hl | (t0 & ts & Hs & Hk)]; [contradiction|].
      rewrite (read_line_plain _ _ _ _ _ Hs Hk), Hs.
      rewrite IH by (auto; lia). simpl. now rewrite <- app_assoc.
Qed.

(** X19.  A text in which every line is blank or starts with a word that is no
    keyword is read without an exception: the directives are the token
    lists of its lines that are not blank, in order, and there is no
    molecule, no task and no option. *)
Theorem plain_text_is_directives (string_input : string) :
  let lines := PyStr.split (String "010" EmptyString)
                 (PyStr.strip string_input) in
  Forall plain lines ->
  from_str string_input
  = Some (IOk {| _mol := None;
                 tasks := [];
                 directives := omap directive_of lines;
                 geometry_options := None;
                 symmetry_options := None;
                 memory_options := None |}).
Proof.
  intros lines Hp. unfold from_str. fold lines.
  now rewrite (read_lines_plain lines _ init_locals (Nat.le_refl _) Hp).
Qed.

End InputFacts.

(** * The further properties at concrete inputs *)

Section FurtherExamples.

#[local] Existing Instance Ref.ext.
#[local] Existing Instance Ref.ops.

Definition failed_job_example : string :=
  " Total DFT energy = -1.0
 Calculation failed to converge
 dft optimize failed, Calculation failed to converge".

Lemma errors_collected_on_every_line_witness :
  exists j, parse_job failed_job_example = Ok j /\
    r_errors j
    = ["Bad convergence"; "Bad convergence"; "Geometry optimization failed"] /\
    r_has_error j = true.
Proof.
  assert (E : exists j, parse_job failed_job_example = Ok j)
    by (eexists; by_eval).
  destruct E as (j & Hj). exists j. split; [exact Hj|].
  assert (Hl : PyStr.split (String "010" EmptyString) failed_job_example
               = [" Total DFT energy = -1.0";
                  " Calculation failed to converge";
                  " dft optimize failed, Calculation failed to converge"])
    by by_eval.
  pose proof (errors_collected_on_every_line failed_job_example j Hj) as H.
  cbv zeta in H. rewrite Hl in H. destruct H as [He Hf].
  split.
  - rewrite He. by_eval.
  - apply Hf. apply Exists_cons_tl, Exists_cons_hd. by_eval.
Defined.

Definition open_hessian_lines : list string :=
  [" MASS-WEIGHTED NUCLEAR HESSIAN (Hartree/Bohr/Bohr/Kamu)";
   "    1    4.0D+01"].

Lemma at_most_one_block_open_witness :
  exists st, foldM (scan_line EmptyString) init_state open_hessian_lines
             = Ok st /\
    parse_hess st = true /\ open_blocks st <= 1.
Proof.
  assert (E : exists st, foldM (scan_line EmptyString) init_state
                           open_hessian_lines = Ok st /\
                         parse_hess st = true).
  { eexists. split; by_eval. }
  destruct E as (st & Hst & Hh). exists st.
  split; [exact Hst|]. split; [exact Hh|].
  exact (at_most_one_block_open EmptyString open_hessian_lines st Hst).
Defined.

Definition closed_geometry_lines : list string :=
  [geometry_tag;
   "    1 O                    8.0000     0.00000000     0.00000000     0.10000000";
   "      Atomic Mass "].

Lemma accumulators_empty_outside_blocks_witness :
  exists st, foldM (scan_line EmptyString) init_state closed_geometry_lines
             = Ok st /\
    parse_geom st = false /\ length (molecules st) = 1 /\
    species st = [] /\ coords st = [].
Proof.
  assert (E : exists st, foldM (scan_line EmptyString) init_state
                           closed_geometry_lines = Ok st /\
                         parse_geom st = false /\
                         length (molecules st) = 1).
  { eexists. split; [by_eval|]. split; by_eval. }
  destruct E as (st & Hst & Hg & Hm). exists st.
  split; [exact Hst|]. split; [exact Hg|]. split; [exact Hm|].
  destruct (accumulators_empty_outside_blocks EmptyString
              closed_geometry_lines st Hst) as [H _].
  destruct (H Hg) as (Hs & Hc & _). split; [exact Hs | exact Hc].
Defined.

Lemma open_block_has_its_data_witness :
  exists st, foldM (scan_line EmptyString) init_state open_hessian_lines
             = Ok st /\
    parse_hess st = true /\ is_Some (hessian st).
Proof.
  assert (E : exists st, foldM (scan_line EmptyString) init_state
                           open_hessian_lines = Ok st /\
                         parse_hess st = true).
  { eexists. split; by_eval. }
  destruct E as (st & Hst & Hh). exists st.
  split; [exact Hst|]. split; [exact Hh|].
  destruct (open_block_has_its_data EmptyString open_hessian_lines st Hst)
    as (_ & _ & H & _).
  exact (H Hh).
Defined.

Definition three_modes : list (Q * list Q) :=
  [(1 # 1, []); (2 # 1, []); (3 # 1, [])].

Lemma displacement_row_distributed_witness :
  distribute (ext := Ref.ext) three_modes [10 # 1; 20 # 1] !! 0%nat
  = Some (1 # 1, []) /\
  distribute (ext := Ref.ext) three_modes [10 # 1; 20 # 1] !! 2%nat
  = Some (3 # 1, [20 # 1]) /\
  distribute (ext := Ref.ext) three_modes [] = three_modes /\
  distribute (ext := Ref.ext) [(1 # 1, [])] [10 # 1; 20 # 1] !! 0%nat
  = Some (1 # 1, [10 # 1]).
Proof.
  split; [|split; [|split]].
  - destruct (displacement_row_distributed (ext := Ref.ext) three_modes
                [10 # 1; 20 # 1]) as (_ & _ & H & _ & _).
    assert (Hn : (0 < 2 <= 3)%nat) by lia.
    destruct (H Hn 0%nat (1 # 1, []) eq_refl) as [H0 _].
    apply H0. simpl. lia.
  - destruct (displacement_row_distributed (ext := Ref.ext) three_modes
                [10 # 1; 20 # 1]) as (_ & _ & H & _ & _).
    assert (Hn : (0 < 2 <= 3)%nat) by lia.
    destruct (H Hn 2%nat (3 # 1, []) eq_refl) as [_ H2].
    destruct H2 as (v & Hv & Hd); [simpl; lia|].
    injection Hv as <-. exact Hd.
  - apply (displacement_row_distributed (ext := Ref.ext) three_modes []).
    reflexivity.
  - destruct (displacement_row_distributed (ext := Ref.ext) [(1 # 1, [])]
                [10 # 1; 20 # 1]) as (_ & _ & _ & _ & H).
    destruct (H (Nat.lt_succ_diag_r 1) 0%nat (1 # 1, []) eq_refl)
      as (v & Hv & Hd).
    injection Hv as <-. exact Hd.
Defined.

Lemma short_basis_header_raises_witness :
  scan_bset " Tag  Description  Shells" (init_state : state)
  = Raise IndexError.
Proof.
  apply (short_basis_header_raises init_state " Tag  Description  Shells"
           ["Description"; "Shells"]).
  - by_eval.
  - by_eval.
  - simpl. lia.
Defined.

Lemma solvation_lines_need_their_entry_witness :
  scan_gas " gas phase energy = -76.4" (init_state : state)
  = Raise IndexError /\
  scan_sol " sol phase energy = -76.5" (init_state : state)
  = Raise IndexError /\
  scan_sol " sol phase energy = -76.5"
    (set_energies [EScalar (1 # 2)] init_state : state)
  = Raise TypeError.
Proof.
  split; [|split].
  - assert (E : exists m, Re.search Patt.energy_gas_patt
                            " gas phase energy = -76.4" = Some m)
      by (eexists; by_eval).
    destruct E as (m & Hm).
    exact (proj1 (solvation_lines_need_their_entry init_state
                    " gas phase energy = -76.4" m) Hm eq_refl).
  - assert (E : exists m, Re.search Patt.energy_sol_patt
                            " sol phase energy = -76.5" = Some m)
      by (eexists; by_eval).
    destruct E as (m & Hm).
    exact (proj1 (proj2 (solvation_lines_need_their_entry init_state
                           " sol phase energy = -76.5" m)) Hm eq_refl).
  - assert (E : exists m v, Re.search Patt.energy_sol_patt
                              " sol phase energy = -76.5" = Some m /\
                            float (Re.group 1 m) = Some v).
    { eexists. eexists. split; by_eval. }
    destruct E as (m & v & Hm & Hv).
    exact (proj2 (proj2 (solvation_lines_need_their_entry
                           (set_energies [EScalar (1 # 2)] init_state)
                           " sol phase energy = -76.5" m))
             [] (1 # 2) v Hm eq_refl Hv).
Defined.

Lemma citation_without_marker_raises_witness :
  NwOutput_init "          CITATION
          --------" = Raise IndexError.
Proof.
  apply citation_without_marker_raises; by_eval.
Defined.

Definition unconverged_example : string :=
  "singlet excited
Root 1 singlet a 0.09 a.u. 2.5 eV
Dipole Oscillator Strength 0.3".

Lemma no_convergence_no_roots_witness :
  parse_tddft unconverged_example = Ok {| singlet := []; triplet := [] |}.
Proof.
  apply no_convergence_no_roots.
  assert (Hl : PyStr.split (String "010" EmptyString) unconverged_example
               = ["singlet excited"; "Root 1 singlet a 0.09 a.u. 2.5 eV";
                  "Dipole Oscillator Strength 0.3"]) by by_eval.
  rewrite Hl.
  apply Forall_cons; split; [by_eval|].
  apply Forall_cons; split; [by_eval|].
  apply Forall_cons; split; [by_eval|]. apply Forall_nil_2.
Defined.

Lemma strength_without_root_raises_witness :
  tddft_line {| mult := Singlet; inside := true;
                found := {| singlet := []; triplet := [] |} |}
    "  Dipole Oscillator Strength 0.3"
  = Raise IndexError.
Proof.
  apply (strength_without_root_raises (ext := Ref.ext) _ _ "0.3" (3 # 10)).
  - reflexivity.
  - split; [by_eval|]. split; [by_eval|]. split; by_eval.
  - by_eval.
  - by_eval.
  - by_eval.
  - by_eval.
  - reflexivity.
Defined.

Lemma spectrum_needs_roots_and_points_witness :
  get_excitation_spectrum "no root here" (1 # 10) 2000 = Raise IndexError /\
  get_excitation_spectrum "Convergence criterion met
Root 1 singlet a 0.09 a.u. 2.5 eV" (1 # 10) 2000 = Raise KeyError /\
  get_excitation_spectrum tddft_example (1 # 10) 0 = Raise IndexError.
Proof.
  split; [|split].
  - refine (proj1 (spectrum_needs_roots_and_points "no root here"
                     {| singlet := []; triplet := [] |} (1 # 10) 2000 _)
              eq_refl).
    by_eval.
  - refine (proj1 (proj2 (spectrum_needs_roots_and_points _
                     {| singlet := [{| energy := 5 # 2;
                                       osc_strength := None |}];
                        triplet := [] |} (1 # 10) 2000 _)) _).
    + by_eval.
    + apply Exists_cons_hd. reflexivity.
  - refine (proj2 (proj2 (spectrum_needs_roots_and_points tddft_example
                     {| singlet := [{| energy := 5 # 2;
                                       osc_strength := Some (3 # 10) |}];
                        triplet := [] |} (1 # 10) 0 _)) _ _ _).
    + by_eval.
    + discriminate.
    + apply Forall_cons; split; [eexists; reflexivity | apply Forall_nil_2].
    + lia.
Defined.

End FurtherExamples.

(** * The completion and the chunks at concrete inputs *)

Section MoreExamples.

#[local] Existing Instance Ref.ext.
#[local] Existing Instance Ref.ops.

Lemma completion_reads_below_diagonal_witness :
  symmetrize [[1 # 1]; [2 # 1; 3 # 1]]
  = Ok [[1 # 1; 2 # 1]; [2 # 1; 3 # 1]] /\
  symmetrize [[1 # 1; 5 # 1]; [2 # 1; 3 # 1]]
  = Ok [[1 # 1; 5 # 1; 2 # 1]; [2 # 1; 3 # 1]] /\
  symmetrize [[1 # 1]; []] = Raise IndexError.
Proof.
  split; [|split].
  - refine (eq_trans
              (proj1 (completion_reads_below_diagonal
                        [[1 # 1]; [2 # 1; 3 # 1]]) _) _).
    + intros i j r Hij Hr.
      destruct j as [|[|[|j]]]; simpl in Hr; inversion Hr; simpl; lia.
    + reflexivity.
  - refine (eq_trans
              (proj1 (completion_reads_below_diagonal
                        [[1 # 1; 5 # 1]; [2 # 1; 3 # 1]]) _) _).
    + intros i j r Hij Hr.
      destruct j as [|[|[|j]]]; simpl in Hr; inversion Hr; simpl; lia.
    + reflexivity.
  - apply (proj2 (completion_reads_below_diagonal (ext := Ref.ext)
                    [[1 # 1]; []])).
    intros H. specialize (H 0 1 [] (Nat.lt_0_1) eq_refl). simpl in H. lia.
Defined.

Definition two_jobs_example : string :=
  with_markers "argument  1 = h2o.nw"
    [" Total DFT energy = -1.0"; " Total DFT energy = -2.0";
     " CITATION"].

Lemma jobs_between_markers_witness :
  exists j1 j2,
    NwOutput_init two_jobs_example
    = Ok {| raw := two_jobs_example;
            job_info := parse_preamble "argument  1 = h2o.nw";
            jobs := [j1; j2] |} /\
    length (r_energies j1) = 1 /\ length (r_energies j2) = 1.
Proof.
  assert (E : exists j1 j2,
             mapM parse_job [" Total DFT energy = -1.0";
                             " Total DFT energy = -2.0"] = Ok [j1; j2] /\
             length (r_energies j1) = 1 /\ length (r_energies j2) = 1).
  { eexists. eexists. split; [by_eval|]. split; by_eval. }
  destruct E as (j1 & j2 & Hj & H1 & H2). exists j1, j2.
  split; [|split; assumption].
  unfold two_jobs_example.
  rewrite (jobs_between_markers "argument  1 = h2o.nw"
             [" Total DFT energy = -1.0"; " Total DFT energy = -2.0"]
             " CITATION").
  - change (PyStr.contains "CITATION" " CITATION") with true. cbv iota.
    rewrite Hj. reflexivity.
  - repeat (apply Forall_cons; split; [by_eval|]). apply Forall_nil_2.
Defined.

Lemma preamble_last_line_decides_witness :
  parse_preamble "scratch = /tmp
scratch = /a=b = /scr " !! "scratch" = Some "/scr".
Proof.
  refine (preamble_last_line_decides "scratch = /tmp" "scratch " " /a=b "
            " /scr " "scratch = /a=b = /scr " _ _ _ _).
  - right. reflexivity.
  - by_eval.
  - by_eval.
  - by_eval.
Defined.

End MoreExamples.

(** * The input side at concrete inputs *)

Section InputExamples.

Import Input.

#[local] Existing Instance Ref.ext.

Definition dft_task_example : NwTask Z Z string string :=
  {| charge := 0%Z;
     spin_multiplicity := 1%Z;
     title := "DFT Optimize";
     theory := "DFT";
     basis_set := {["H" := "6-31g"]};
     basis_set_option := "cartesian";
     operation := "Optimize";
     theory_directives := ∅;
     alternate_directives := ∅ |}.

Lemma task_dict_round_trip_witness :
  from_dict (as_dict dft_task_example) = IOk dft_task_example.
Proof.
  apply (task_dict_round_trip 0%Z 1%Z (Some {["H" := "6-31g"]}) "cartesian"
           None "DFT" "Optimize" None None).
  reflexivity.
Defined.

Lemma block_without_end_raises_witness :
  exists e,
    read_lines 2 ["basis"; " H library 6-31g"] init_locals
    = Some (IRaise (Builtin e)) /\ e = IndexError.
Proof.
  destruct (block_without_end_raises 1 "basis" [" H library 6-31g"]
              init_locals "basis" "basis")
    as (e & He & _ & Hb).
  - reflexivity.
  - reflexivity.
  - right. left. reflexivity.
  - apply Forall_cons; split; [by_eval | apply Forall_nil_2].
  - exists e. split; [exact He | exact (Hb eq_refl)].
Defined.

Definition capital_theory_example : string :=
  "dft
 xc b3lyp
end
task DFT energy".

Lemma tasks_of_text_are_valid_witness :
  exists inp t,
    from_str capital_theory_example = Some (IOk inp) /\
    tasks inp = [t] /\ theory t = "DFT" /\ theory_directives t = ∅.
Proof.
  assert (E : exists inp t,
             from_str capital_theory_example = Some (IOk inp) /\
             tasks inp = [t] /\ theory t = "DFT").
  { eexists. eexists. split; [by_eval|]. split; by_eval. }
  destruct E as (inp & t & Hi & Ht & Hth). exists inp, t.
  split; [exact Hi|]. split; [exact Ht|]. split; [exact Hth|].
  pose proof (tasks_of_text_are_valid capital_theory_example inp Hi) as HF.
  rewrite Ht in HF. apply Forall_cons in HF as [(_ & _ & H) _].
  apply H. rewrite Hth. reflexivity.
Defined.

Definition directives_example : string :=
  "start water

print high".

Lemma plain_text_is_directives_witness :
  from_str directives_example
  = Some (IOk {| _mol := None;
                 tasks := [];
                 directives := [["start"; "water"]; ["print"; "high"]];
                 geometry_options := None;
                 symmetry_options := None;
                 memory_options := None |}).
Proof.
  refine (eq_trans (plain_text_is_directives directives_example _) _).
  - assert (Hl : PyStr.split (String "010" EmptyString)
                   (PyStr.strip directives_example)
                 = ["start water"; ""; "print high"]) by by_eval.
    rewrite Hl.
    apply Forall_cons; split.
    { right. exists "start", ["water"]. split; by_eval. }
    apply Forall_cons; split; [left; reflexivity|].
    apply Forall_cons; split; [|apply Forall_nil_2].
    right. exists "print", ["high"]. split; by_eval.
  - by_eval.
Defined.

End InputExamples.
